(** * voicelog: the audio capture/playback pipeline and its WAV codec

    A shallow embedding of the audio-handling code of [main.go]
    ([writeWAVHeader], [readWAVData], [processAudioInput],
    [processAudioOutput], [startRecording], [stopRecording],
    [startPlayback], [pausePlayback], [stopPlayback] and the [tickMsg]
    branch of [Update]) together with the properties stated for it.

    Conventions.
    - Go [int] and [int64] are 64-bit two's complement; a value is a [Z],
      and the conversions and products of the codec and of the duration
      computation are written out with [int64], [uint32], [uint16] and
      [int16].  Counters that only grow by one (the cursor, the animation
      phase) and times are plain [Z].
    - A byte is a [Z] in [0, 256); a [[]byte] is a [list Z].
    - An [int16] sample is a [Z] in [-32768, 32767].
    - [float64] is IEEE 754 binary64 as specified by the standard
      library's [SpecFloat] (precision 53, round to nearest even).
    - The file system is a finite map from paths to contents; the audio
      backend and the operating system are an explicit [Env] of outcomes. *)

From Stdlib Require Import ZArith Lia SpecFloat.
From stdpp Require Import base list gmap strings.

Local Open Scope Z_scope.

(** ** Fixed-width integers *)

Module GoInt.

Definition uint16 (z : Z) : Z := z mod 2 ^ 16.
Definition uint32 (z : Z) : Z := z mod 2 ^ 32.
Definition int16 (z : Z) : Z := (z + 2 ^ 15) mod 2 ^ 16 - 2 ^ 15.
Definition int64 (z : Z) : Z := (z + 2 ^ 63) mod 2 ^ 64 - 2 ^ 63.

(** [a * b] and [a / b] on Go [int]. *)
Definition mul (a b : Z) : Z := int64 (a * b).
Definition div (a b : Z) : Z := int64 (Z.quot a b).

Definition is_int16 (z : Z) : Prop := - 2 ^ 15 <= z < 2 ^ 15.

End GoInt.

(** ** encoding/binary, little endian *)

Module LittleEndian.

(** [byte(v >> (8*k))] *)
Definition byte_of (v : Z) (k : Z) : Z := Z.land (Z.shiftr v (8 * k)) 255.
Global Arguments byte_of : simpl never.

Definition PutUint16 (v : Z) : list Z := [byte_of v 0; byte_of v 1].
Definition PutUint32 (v : Z) : list Z :=
    [byte_of v 0; byte_of v 1; byte_of v 2; byte_of v 3].

(** [uint16(b[0]) | uint16(b[1])<<8]; the source only applies it to
    slices of length 2 (4 for [Uint32]). *)
Definition Uint16 (b : list Z) : Z :=
    match b with
    | b0 :: b1 :: _ => Z.lor b0 (Z.shiftl b1 8)
    | _ => 0
    end.

Definition Uint32 (b : list Z) : Z :=
    match b with
    | b0 :: b1 :: b2 :: b3 :: _ =>
      Z.lor (Z.lor (Z.lor b0 (Z.shiftl b1 8)) (Z.shiftl b2 16)) (Z.shiftl b3 24)
    | _ => 0
    end.

End LittleEndian.

Import GoInt LittleEndian.

(** ** Byte slices *)

Definition is_byte (b : Z) : Prop := 0 <= b < 256.

(** [b[lo:hi]] *)
Definition slice (lo hi : nat) (b : list Z) : list Z := take (hi - lo) (drop lo b).

(** [copy(dst[off:off+len(src)], src)] *)
Definition copy_at (off : nat) (src dst : list Z) : list Z :=
  take off dst ++ take (length dst - off) src ++ drop (off + length src) dst.

(** The bytes of an ASCII string literal. *)
Definition RIFF : list Z := [82; 73; 70; 70].
Definition WAVE : list Z := [87; 65; 86; 69].
Definition fmt_ : list Z := [102; 109; 116; 32].
Definition data_ : list Z := [100; 97; 116; 97].

(** ** WAV codec *)

(** The 44 bytes that [writeWAVHeader] hands to [file.Write]. *)
Definition wavHeader (sampleRate channels bitsPerSample dataSize : Z) : list Z :=
  let header := replicate 44 0 in
  (* RIFF header *)
  let header := copy_at 0 RIFF header in
  let header := copy_at 4 (PutUint32 (uint32 (int64 (36 + dataSize)))) header in
  let header := copy_at 8 WAVE header in
  (* fmt chunk *)
  let header := copy_at 12 fmt_ header in
  let header := copy_at 16 (PutUint32 16) header in
  let header := copy_at 20 (PutUint16 1) header in
  let header := copy_at 22 (PutUint16 (uint16 channels)) header in
  let header := copy_at 24 (PutUint32 (uint32 sampleRate)) header in
  let header :=
    copy_at 28
      (PutUint32 (uint32 (GoInt.div (GoInt.mul (GoInt.mul sampleRate channels) bitsPerSample) 8)))
      header in
  let header :=
    copy_at 32 (PutUint16 (uint16 (GoInt.div (GoInt.mul channels bitsPerSample) 8))) header in
  let header := copy_at 34 (PutUint16 (uint16 bitsPerSample)) header in
  (* data chunk *)
  let header := copy_at 36 data_ header in
  copy_at 40 (PutUint32 (uint32 dataSize)) header.

Inductive error : Type :=
  | ErrOpen        (* os.Open / os.Create failed *)
  | ErrEOF         (* io.EOF from file.Read *)
  | ErrNotWAV      (* "not a valid WAV file" *)
  | ErrWrite.      (* file.Write failed *)

(** [readWAVData], the header parsing step: the magic check and the three
    fields read at fixed offsets, applied to the 44-byte [header] buffer. *)
Definition decodeHeader (header : list Z) : error + (Z * Z * Z) :=
  if bool_decide (slice 0 4 header ≠ RIFF ∨ slice 8 12 header ≠ WAVE) then
    inl ErrNotWAV
  else
    let channels := Uint16 (slice 22 24 header) in
    let sampleRate := Uint32 (slice 24 28 header) in
    let dataSize := Uint32 (slice 40 44 header) in
    inr (channels, sampleRate, dataSize).

(** [binary.Write(file, binary.LittleEndian, in)] for [in []int16]. *)
Definition samplesToBytes (samples : list Z) : list Z :=
  flat_map (fun s => PutUint16 (uint16 s)) samples.

(** The conversion loop of [readWAVData]: [len(audioData)/2] samples, a
    trailing odd byte is dropped. *)
Fixpoint bytesToSamples (audioData : list Z) : list Z :=
  match audioData with
  | b0 :: b1 :: rest => int16 (Uint16 [b0; b1]) :: bytesToSamples rest
  | _ => []
  end.

(** [file.Read(buf)] on a regular file with [content], at offset [pos],
    for a zeroed buffer of [n] bytes: the number of bytes read and the
    buffer afterwards.  A zero-length buffer reads nothing and succeeds;
    otherwise nothing left to read is [io.EOF].  A short read is no error. *)
Definition file_Read (content : list Z) (pos n : nat) : error + (nat * list Z) :=
  let got := take n (drop pos content) in
  if bool_decide (n = 0%nat) then inr (0%nat, [])
  else if bool_decide (length got = 0%nat) then inl ErrEOF
  else inr (length got, got ++ replicate (n - length got) 0).

Definition readWAVData (fs : gmap string (list Z)) (filePath : string)
  : error + (list Z * Z * Z) :=
  match fs !! filePath with
  | None => inl ErrOpen
  | Some content =>
      (* Read WAV header *)
    match file_Read content 0 44 with
    | inl e => inl e
    | inr (n, header) =>
          (* Parse header *)
          match decodeHeader header with
          | inl e => inl e
          | inr (channels, sampleRate, dataSize) =>
              (* Read audio data *)
              match file_Read content n (Z.to_nat dataSize) with
              | inl e => inl e
              | inr (_, audioData) =>
                  (* Convert to int16 samples *)
                  inr (bytesToSamples audioData, sampleRate, channels)
              end
          end
    end
  end.

(** ** float64 *)

Module F64.

Definition float64 : Type := spec_float.
Definition prec : Z := 53.
Definition emax : Z := 1024.

(** [float64(z)] for an integer [z]. *)
Definition of_int (z : Z) : float64 := binary_normalize prec emax z 0 false.

Definition add : float64 -> float64 -> float64 := SFadd prec emax.
Definition mul : float64 -> float64 -> float64 := SFmul prec emax.
Definition div : float64 -> float64 -> float64 := SFdiv prec emax.

(** [x < y] *)
Definition ltb : float64 -> float64 -> bool := SFltb.

(** Conversion to an integer type: the fraction is discarded (truncation
    towards zero).  Go leaves the result for NaN and the infinities to the
    implementation; they are mapped to 0 here. *)
Definition to_int (x : float64) : Z :=
  match x with
  | S754_finite s m e =>
      let a := if 0 <=? e then Z.pos m * 2 ^ e else Z.pos m / 2 ^ (- e) in
      if s then - a else a
  | _ => 0
  end.

End F64.

Abbreviation float64 := F64.float64.

(** ** package time *)

(** A [time.Duration] and a [time.Time] are counts of nanoseconds. *)
Definition Second : Z := 1000000000.

(** [d.Seconds()] *)
Definition Seconds (d : Z) : float64 :=
  let sec := Z.quot d Second in
  let nsec := Z.rem d Second in
  F64.add (F64.of_int sec) (F64.div (F64.of_int nsec) (F64.of_int 1000000000)).

(** ** Data model *)

Inductive AppState : Type :=
  | StateViewing
  | StateRecording
  | StatePlaying
  | StateRenaming
  | StateTagging
  | StateSettings.

Inductive AudioFormat : Type :=
  | FormatWAV
  | FormatMP3
  | FormatOGG.

Definition AudioFormat_String (f : AudioFormat) : string :=
  match f with
  | FormatWAV => "WAV"
  | FormatMP3 => "MP3"
  | FormatOGG => "OGG"
  end.

Definition Extension (f : AudioFormat) : string :=
  match f with
  | FormatWAV => ".wav"
  | FormatMP3 => ".mp3"
  | FormatOGG => ".ogg"
  end.

(** [Memo], without the fields that only the list widget reads ([ID],
    [Name], [Tags]). *)
Record Memo : Type := {
  Filename : string;
  Duration : float64;
  Created : Z;
  Size : Z;
  Format : string
}.

(** [Config], without theme, key bindings and the device list. *)
Record Config : Type := {
  DefaultFormat : AudioFormat;
  MemosPath : string;
  InputDevice : string;
  OutputDevice : string;
  SampleRate : Z;
  BitDepth : Z;
  ChannelCount : Z;
  Volume : float64
}.

(** [portaudio.DeviceInfo] *)
Record DeviceInfo : Type := {
  DevName : string;
  MaxInputChannels : Z;
  MaxOutputChannels : Z;
  DefaultSampleRate : float64
}.

(** What a [portaudio.Stream] was opened with. *)
Record Stream : Type := {
  IsInput : bool;
  StreamSampleRate : float64;
  StreamChannels : Z;
  FramesPerBuffer : Z
}.

(** An [*os.File]: the path it was opened at, the base name [Stat] reports
    and the current offset. *)
Record File : Type := {
  fpath : string;
  fbase : string;
  fpos : nat
}.

Module AudioDevice.

Record t : Type := {
  stream : option Stream;
  recordingFile : option File;
  playbackData : option (list Z);
  playbackPos : Z
}.

Definition set_stream (s : option Stream) (d : t) : t :=
  {| stream := s; recordingFile := recordingFile d;
     playbackData := playbackData d; playbackPos := playbackPos d |}.

Definition set_recordingFile (f : option File) (d : t) : t :=
  {| stream := stream d; recordingFile := f;
     playbackData := playbackData d; playbackPos := playbackPos d |}.

Definition set_playbackPos (p : Z) (d : t) : t :=
  {| stream := stream d; recordingFile := recordingFile d;
     playbackData := playbackData d; playbackPos := p |}.

End AudioDevice.

(** [Model], without the visualization data, the UI components, the
    settings cursor, the notification and the window size.  Every copy of a
    [Model] holds the same [*AudioDevice], so the device is kept by value
    in the one [Model] that is threaded through the operations. *)
Record Model : Type := {
  state : AppState;
  config : Config;
  memos : list Memo;
  selectedIdx : Z;
  audioDevice : option AudioDevice.t;
  recording : bool;
  playing : bool;
  recordingTime : Z;
  playbackPos : Z;
  recordingPulse : Z;
  lastUpdate : Z
}.

Definition set_state (v : AppState) (m : Model) : Model :=
  {| state := v; config := config m; memos := memos m; selectedIdx := selectedIdx m;
     audioDevice := audioDevice m; recording := recording m; playing := playing m;
     recordingTime := recordingTime m; playbackPos := playbackPos m;
     recordingPulse := recordingPulse m; lastUpdate := lastUpdate m |}.

Definition set_memos (v : list Memo) (m : Model) : Model :=
  {| state := state m; config := config m; memos := v; selectedIdx := selectedIdx m;
     audioDevice := audioDevice m; recording := recording m; playing := playing m;
     recordingTime := recordingTime m; playbackPos := playbackPos m;
     recordingPulse := recordingPulse m; lastUpdate := lastUpdate m |}.

Definition set_audioDevice (v : option AudioDevice.t) (m : Model) : Model :=
  {| state := state m; config := config m; memos := memos m; selectedIdx := selectedIdx m;
     audioDevice := v; recording := recording m; playing := playing m;
     recordingTime := recordingTime m; playbackPos := playbackPos m;
     recordingPulse := recordingPulse m; lastUpdate := lastUpdate m |}.

Definition set_recording (v : bool) (m : Model) : Model :=
  {| state := state m; config := config m; memos := memos m; selectedIdx := selectedIdx m;
     audioDevice := audioDevice m; recording := v; playing := playing m;
     recordingTime := recordingTime m; playbackPos := playbackPos m;
     recordingPulse := recordingPulse m; lastUpdate := lastUpdate m |}.

Definition set_playing (v : bool) (m : Model) : Model :=
  {| state := state m; config := config m; memos := memos m; selectedIdx := selectedIdx m;
     audioDevice := audioDevice m; recording := recording m; playing := v;
     recordingTime := recordingTime m; playbackPos := playbackPos m;
     recordingPulse := recordingPulse m; lastUpdate := lastUpdate m |}.

Definition set_recordingTime (v : Z) (m : Model) : Model :=
  {| state := state m; config := config m; memos := memos m; selectedIdx := selectedIdx m;
     audioDevice := audioDevice m; recording := recording m; playing := playing m;
     recordingTime := v; playbackPos := playbackPos m;
     recordingPulse := recordingPulse m; lastUpdate := lastUpdate m |}.

Definition set_playbackPos (v : Z) (m : Model) : Model :=
  {| state := state m; config := config m; memos := memos m; selectedIdx := selectedIdx m;
     audioDevice := audioDevice m; recording := recording m; playing := playing m;
     recordingTime := recordingTime m; playbackPos := v;
     recordingPulse := recordingPulse m; lastUpdate := lastUpdate m |}.

Definition set_recordingPulse (v : Z) (m : Model) : Model :=
  {| state := state m; config := config m; memos := memos m; selectedIdx := selectedIdx m;
     audioDevice := audioDevice m; recording := recording m; playing := playing m;
     recordingTime := recordingTime m; playbackPos := playbackPos m;
     recordingPulse := v; lastUpdate := lastUpdate m |}.

Definition set_lastUpdate (v : Z) (m : Model) : Model :=
  {| state := state m; config := config m; memos := memos m; selectedIdx := selectedIdx m;
     audioDevice := audioDevice m; recording := recording m; playing := playing m;
     recordingTime := recordingTime m; playbackPos := playbackPos m;
     recordingPulse := recordingPulse m; lastUpdate := v |}.

(** ** The world outside the model *)

(** Calls made to the audio backend, most recent first. *)
Inductive PaCall : Type :=
  | PaInitialize
  | PaTerminate
  | PaOpenStream (s : Stream)
  | PaStart (s : Stream)
  | PaStop (s : Stream)
  | PaClose (s : Stream).

Record World : Type := {
  fs : gmap string (list Z);     (* path to file content *)
  open_files : list string;      (* paths of the handles that are open *)
  pa_calls : list PaCall;
  log : list string;             (* log.Printf lines about errors, starts and stops,
                                    most recent first *)
  metadata : list Memo           (* the collection saved by saveMemos *)
}.

Definition set_fs (v : gmap string (list Z)) (w : World) : World :=
  {| fs := v; open_files := open_files w; pa_calls := pa_calls w; log := log w;
     metadata := metadata w |}.

Definition set_open_files (v : list string) (w : World) : World :=
  {| fs := fs w; open_files := v; pa_calls := pa_calls w; log := log w;
     metadata := metadata w |}.

Definition pa_call (c : PaCall) (w : World) : World :=
  {| fs := fs w; open_files := open_files w; pa_calls := c :: pa_calls w; log := log w;
     metadata := metadata w |}.

(** [log.Printf]; the formatted arguments are left out of the line. *)
Definition Printf (line : string) (w : World) : World :=
  {| fs := fs w; open_files := open_files w; pa_calls := pa_calls w; log := line :: log w;
     metadata := metadata w |}.

(** [saveMemos] *)
Definition saveMemos (ms : list Memo) (w : World) : World :=
  {| fs := fs w; open_files := open_files w; pa_calls := pa_calls w; log := log w;
     metadata := ms |}.

(** What the operating system and the audio backend answer during one
    start or stop sequence. *)
Record Env : Type := {
  env_now : Z;                          (* time.Now() *)
  env_stamp : string;                   (* time.Now().Format("2006-01-02_15-04-05") *)
  initialize_ok : bool;                 (* portaudio.Initialize() *)
  device_by_id : option DeviceInfo;     (* getDeviceByID of the configured device *)
  default_device : option DeviceInfo;   (* portaudio.Default{Input,Output}Device() *)
  create_ok : bool;                     (* os.Create *)
  header_write_ok : bool;               (* file.Write of the header *)
  open_stream_ok : bool;                (* portaudio.OpenStream *)
  stream_start_ok : bool                (* stream.Start() *)
}.

(** ** Files *)

(** The content after writing [bs] at offset [off]; a gap past the end of
    the file reads as zeros. *)
Definition write_at (off : nat) (bs content : list Z) : list Z :=
  take off content ++ replicate (off - length content) 0 ++ bs
    ++ drop (off + length bs) content.

Definition file_content (f : File) (w : World) : list Z :=
  default [] (fs w !! fpath f).

(** [os.Create]: the file is created or truncated, the handle is at 0. *)
Definition os_Create (path base : string) (w : World) : File * World :=
  ({| fpath := path; fbase := base; fpos := 0 |},
   set_open_files (path :: open_files w) (set_fs (<[path := []]> (fs w)) w)).

(** [file.Write(bs)], also behind [binary.Write]. *)
Definition file_Write (bs : list Z) (f : File) (w : World) : File * World :=
  ({| fpath := fpath f; fbase := fbase f; fpos := fpos f + length bs |},
   set_fs (<[fpath f := write_at (fpos f) bs (file_content f w)]> (fs w)) w).

(** [file.Seek(off, 0)] *)
Definition file_Seek (off : nat) (f : File) : File :=
  {| fpath := fpath f; fbase := fbase f; fpos := off |}.

(** [file.Close()]: one handle on the path is released. *)
Fixpoint remove_one (p : string) (l : list string) : list string :=
  match l with
  | [] => []
  | q :: l' => if bool_decide (p = q) then l' else q :: remove_one p l'
  end.

Definition file_Close (f : File) (w : World) : World :=
  set_open_files (remove_one (fpath f) (open_files w)) w.

(** [filepath.Join(dir, name)] for a clean [dir] and a plain file name. *)
Definition filepath_Join (dir name : string) : string := dir +:+ "/" +:+ name.

(** [writeWAVHeader] *)
Definition writeWAVHeader (ok : bool) (file : File) (sampleRate channels bitsPerSample dataSize : Z)
    (w : World) : option error * File * World :=
  let header := wavHeader sampleRate channels bitsPerSample dataSize in
  if ok then let '(file, w) := file_Write header file w in (None, file, w)
  else (Some ErrWrite, file, w).

(** [generateFilename]; [stamp] is the formatted current time. *)
Definition generateFilename (stamp : string) (format : AudioFormat) : string :=
  "memo_" +:+ stamp +:+ Extension format.

(** ** Capture session *)

(** [stream.Stop()] and [stream.Close()] of the device's stream, if any. *)
Definition stop_and_close (d : AudioDevice.t) (w : World) : World :=
  match AudioDevice.stream d with
  | Some s => pa_call (PaClose s) (pa_call (PaStop s) w)
  | None => w
  end.

(** [stopRecording], "Calculate actual duration": the file size minus the
    header, divided by bytes per sample and by the sample rate. *)
Definition recordingDuration (cfg : Config) (fileSize recordingTime : Z) : float64 :=
  let dataSize := fileSize - 44 in
  let bytesPerSample := GoInt.mul (ChannelCount cfg) (BitDepth cfg) in
  if (0 <? bytesPerSample) && (0 <? SampleRate cfg) then
    let samples := GoInt.div dataSize bytesPerSample in
    F64.div (F64.of_int samples) (F64.of_int (SampleRate cfg))
  else
    (* Fallback calculation *)
    Seconds recordingTime.

(** [stopRecording], "Finalize the WAV file": the name and size from
    [Stat], the duration, the data size patched in at offset 40, the file
    closed. *)
Definition finalizeRecording (cfg : Config) (recordingTime : Z) (f : File) (w : World)
  : string * Z * float64 * World :=
  let filename := fbase f in
  let fileSize := Z.of_nat (length (file_content f w)) in
  let duration := recordingDuration cfg fileSize recordingTime in
  let dataSize := fileSize - 44 in
  let f := file_Seek 40 f in
  let '(f, w) := file_Write (PutUint32 (uint32 dataSize)) f w in
  (filename, fileSize, duration, file_Close f w).

(** [stopRecording]; [env_now e] is [time.Now()] when the memo is made. *)
Definition stopRecording (e : Env) (m : Model) (w : World) : Model * World :=
  let m := set_state StateViewing (set_recording false m) in
  (* Clean up audio device and finalize recording *)
  let '(filename, fileSize, duration, m, w) :=
    match audioDevice m with
    | Some d =>
        let w := stop_and_close d w in
        let '(filename, fileSize, duration, w) :=
          match AudioDevice.recordingFile d with
          | Some f => finalizeRecording (config m) (recordingTime m) f w
          | None => (""%string, 0, S754_zero false, w)
          end in
        (filename, fileSize, duration, set_audioDevice None m, w)
    | None => (""%string, 0, S754_zero false, m, w)
    end in
  (* Terminate PortAudio *)
  let w := pa_call PaTerminate w in
  (* Create new memo with real data *)
  let '(m, w) :=
    if bool_decide (filename ≠ ""%string) then
      let memo := {| Filename := filename; Duration := duration; Created := env_now e;
                     Size := fileSize;
                     Format := AudioFormat_String (DefaultFormat (config m)) |} in
      let m := set_memos (memo :: memos m) m in
      (m, saveMemos (memos m) w)
    else (m, w) in
  (* Reset recording data *)
  (set_recordingTime 0 m, w).

(** [startRecording].  The call to [initializeAudioDevices] (device
    detection, which may fill in the configured device identifiers and
    save the configuration) is not modelled: [config m] is the
    configuration after it, and what the backend answers is in [e]. *)
Definition startRecording (e : Env) (m : Model) (w : World) : Model * World :=
  let m := set_lastUpdate (env_now e)
             (set_recordingTime 0 (set_state StateRecording (set_recording true m))) in
  (* Initialize PortAudio *)
  let w := pa_call PaInitialize w in
  if negb (initialize_ok e) then
    stopRecording e m (Printf "Error initializing PortAudio" w)
  else
  (* Find selected input device, fall back to the default input device *)
  let inputDev :=
    if bool_decide (InputDevice (config m) ≠ ""%string) then device_by_id e else None in
  let inputDev := match inputDev with Some dev => Some dev | None => default_device e end in
  match inputDev with
  | None => stopRecording e m (Printf "No input device available" w)
  | Some inputDev =>
      (* Create recording file *)
      let filename := generateFilename (env_stamp e) (DefaultFormat (config m)) in
      let filePath := filepath_Join (MemosPath (config m)) filename in
      if negb (create_ok e) then
        stopRecording e m (Printf "Error creating recording file" w)
      else
      let '(file, w) := os_Create filePath filename w in
      (* Write WAV header (we'll update the data size later) *)
      let '(err, file, w) :=
        writeWAVHeader (header_write_ok e) file (SampleRate (config m))
          (ChannelCount (config m)) (GoInt.mul (BitDepth (config m)) 8) 0 w in
      match err with
      | Some _ => stopRecording e m (Printf "Error writing WAV header" w)
      | None =>
          (* Set up audio parameters - try to use device's preferred format *)
          let sampleRate :=
            if F64.ltb (F64.of_int 0) (DefaultSampleRate inputDev)
            then DefaultSampleRate inputDev
            else F64.of_int (SampleRate (config m)) in
          let channels :=
            if 0 <? MaxInputChannels inputDev then
              if MaxInputChannels inputDev <? ChannelCount (config m)
              then MaxInputChannels inputDev else ChannelCount (config m)
            else ChannelCount (config m) in
          let params := {| IsInput := true; StreamSampleRate := sampleRate;
                           StreamChannels := channels; FramesPerBuffer := 1024 |} in
          (* Create audio device *)
          let d := {| AudioDevice.stream := None; AudioDevice.recordingFile := Some file;
                      AudioDevice.playbackData := None; AudioDevice.playbackPos := 0 |} in
          let m := set_audioDevice (Some d) m in
          (* Open input stream *)
          let w := pa_call (PaOpenStream params) w in
          if negb (open_stream_ok e) then
            stopRecording e m (Printf "Error opening recording stream" w)
          else
          let m := set_audioDevice (Some (AudioDevice.set_stream (Some params) d)) m in
          (* Start recording *)
          let w := pa_call (PaStart params) w in
          if negb (stream_start_ok e) then
            stopRecording e m (Printf "Error starting recording" w)
          else (m, Printf "Recording started successfully" w)
      end
  end.

(** [processAudioInput]: the block is appended to the recording file.  The
    waveform and VU meter values derived from the block are visualization
    only and are left out. *)
Definition processAudioInput (in_ : list Z) (m : Model) (w : World) : Model * World :=
  match audioDevice m with
  | Some d =>
      match AudioDevice.recordingFile d with
      | Some f =>
          let '(f, w) := file_Write (samplesToBytes in_) f w in
          (set_audioDevice (Some (AudioDevice.set_recordingFile (Some f) d)) m, w)
      | None => (m, w)
      end
  | None => (m, w)
  end.

(** ** Playback session *)

(** [processAudioOutput], the clamp of the loop body:
    [if sample > 32767 ... else if sample < -32768 ...]. *)
Definition clampSample (sample : float64) : float64 :=
  if F64.ltb (F64.of_int 32767) sample then F64.of_int 32767
  else if F64.ltb sample (F64.of_int (-32768)) then F64.of_int (-32768)
  else sample.

(** [processAudioOutput], the body of the loop for one sample: volume
    applied in [float64], clamped, converted to [int16]. *)
Definition scaleSample (volume : float64) (s : Z) : Z :=
  let sample := F64.mul (F64.of_int s) volume in
  let sample := clampSample sample in
  int16 (F64.to_int sample).

(** [processAudioOutput], the loop over the [n] slots of [out]: the slots
    written and the position afterwards. *)
Fixpoint fillOutput (volume : float64) (playbackData : list Z) (pos : Z) (n : nat)
  : list Z * Z :=
  match n with
  | O => ([], pos)
  | S n' =>
      if pos <? Z.of_nat (length playbackData) then
        (* Apply volume and copy sample *)
        let x := scaleSample volume (default 0 (playbackData !! Z.to_nat pos)) in
        let '(out, pos') := fillOutput volume playbackData (pos + 1) n' in
        (x :: out, pos')
      else
        (* End of audio data - fill with silence *)
        let '(out, pos') := fillOutput volume playbackData pos n' in
        (0 :: out, pos')
  end.

(** [processAudioOutput] on a buffer [out] of [n] slots: the content of
    [out] afterwards and the model. *)
Definition processAudioOutput (n : nat) (m : Model) : list Z * Model :=
  match audioDevice m with
  | None => (replicate n 0, m)
  | Some d =>
      match AudioDevice.playbackData d with
      | None => (replicate n 0, m)
      | Some samples =>
          let volume := Volume (config m) in
          let '(out, pos) := fillOutput volume samples (AudioDevice.playbackPos d) n in
          (out, set_audioDevice (Some (AudioDevice.set_playbackPos pos d)) m)
      end
  end.

(** [startPlayback]; as in [startRecording], [config m] is the
    configuration after [initializeAudioDevices]. *)
Definition startPlayback (e : Env) (m : Model) (w : World) : Model * World :=
  match (if 0 <=? selectedIdx m then memos m !! Z.to_nat (selectedIdx m) else None) with
  | None => (m, w)   (* no memos; an index outside the list ends the program *)
  | Some memo =>
      let filePath := filepath_Join (MemosPath (config m)) (Filename memo) in
      (* Read WAV file data *)
      match readWAVData (fs w) filePath with
      | inl _ => (m, Printf "Error reading audio file" w)
      | inr (audioData, sampleRate, channels) =>
          (* Initialize PortAudio *)
          let w := pa_call PaInitialize w in
          if negb (initialize_ok e) then (m, Printf "Error initializing PortAudio" w)
          else
          (* Find selected output device, fall back to the default one *)
          let outputDev :=
            if bool_decide (OutputDevice (config m) ≠ ""%string)
            then device_by_id e else None in
          let outputDev :=
            match outputDev with Some dev => Some dev | None => default_device e end in
          match outputDev with
          | None => (m, pa_call PaTerminate (Printf "No output device available" w))
          | Some _ =>
              (* Set up audio parameters *)
              let params := {| IsInput := false; StreamSampleRate := F64.of_int sampleRate;
                               StreamChannels := channels; FramesPerBuffer := 1024 |} in
              (* Create audio device *)
              let d := {| AudioDevice.stream := None; AudioDevice.recordingFile := None;
                          AudioDevice.playbackData := Some audioData;
                          AudioDevice.playbackPos := 0 |} in
              let m := set_audioDevice (Some d) m in
              (* Open output stream *)
              let w := pa_call (PaOpenStream params) w in
              if negb (open_stream_ok e) then
                (m, pa_call PaTerminate (Printf "Error opening playback stream" w))
              else
              let m := set_audioDevice (Some (AudioDevice.set_stream (Some params) d)) m in
              (* Start playback *)
              let w := pa_call (PaStart params) w in
              if negb (stream_start_ok e) then
                (m, pa_call PaTerminate (Printf "Error starting playback" w))
              else
                (set_lastUpdate (env_now e)
                   (set_playbackPos 0 (set_state StatePlaying (set_playing true m))),
                 Printf "Playback started" w)
          end
      end
  end.

Definition pausePlayback (m : Model) (w : World) : Model * World :=
  let w :=
    match audioDevice m with
    | Some d =>
        match AudioDevice.stream d with
        | Some s => pa_call (PaStop s) w
        | None => w
        end
    | None => w
    end in
  (set_state StateViewing (set_playing false m), Printf "Playback paused" w).

Definition stopPlayback (m : Model) (w : World) : Model * World :=
  let '(m, w) :=
    match audioDevice m with
    | Some d => (set_audioDevice None m, stop_and_close d w)
    | None => (m, w)
    end in
  (* Terminate PortAudio *)
  let w := pa_call PaTerminate w in
  (set_playbackPos 0 (set_state StateViewing (set_playing false m)),
   Printf "Playback stopped" w).

(** ** Session coordinator *)

Inductive Msg : Type :=
  | tickMsg
  | recordingTickMsg.

(** [Update] for the two timer messages; [now] is [time.Now()].  The
    notification timeout of the tick and the simulated waveform of the
    recording tick are display only and are left out. *)
Definition Update (now : Z) (msg : Msg) (m : Model) (w : World) : Model * World :=
  match msg with
  | tickMsg =>
      let m :=
        if recording m then
          set_recordingPulse (Z.rem (recordingPulse m + 1) 20)
            (set_recordingTime (now - lastUpdate m + recordingTime m) m)
        else m in
      let '(m, w) :=
        if playing m then
          match audioDevice m with
          | Some d =>
              match AudioDevice.playbackData d with
              | Some samples =>
                  (* Calculate position based on samples played *)
                  let samplesPerSecond := 44100 in
                  let m :=
                    set_playbackPos
                      (F64.to_int
                         (F64.mul
                            (F64.div (F64.of_int (AudioDevice.playbackPos d))
                               (F64.of_int samplesPerSecond))
                            (F64.of_int Second))) m in
                  (* Check if we've reached the end of the audio data *)
                  if Z.of_nat (length samples) <=? AudioDevice.playbackPos d then
                    stopPlayback m (Printf "Auto-stopping playback - reached end of audio data" w)
                  else (m, w)
              | None => (m, w)
              end
          | None => (m, w)
          end
        else (m, w) in
      (set_lastUpdate now m, w)
  | recordingTickMsg => (m, w)
  end.

(** The number of completed [stopPlayback] calls a log records. *)
Definition stop_calls (w : World) : nat :=
  length (filter (fun line => line = "Playback stopped"%string) (log w)).

(** ** The initial state *)

(** [defaultConfig]; [homeDir] is [os.UserHomeDir()]. *)
Definition defaultConfig (homeDir : string) : Config :=
  {| DefaultFormat := FormatWAV;
     MemosPath := filepath_Join (filepath_Join homeDir ".voicelog") "memos";
     InputDevice := "";
     OutputDevice := "";
     SampleRate := 44100;
     BitDepth := 2;
     ChannelCount := 2;
     Volume := F64.of_int 1 |}.

(** [initialModel] for a given configuration and stored memos. *)
Definition initialModel (cfg : Config) (ms : list Memo) (now : Z) : Model :=
  {| state := StateViewing; config := cfg; memos := ms; selectedIdx := 0;
     audioDevice := None; recording := false; playing := false;
     recordingTime := 0; playbackPos := 0; recordingPulse := 0; lastUpdate := now |}.

(** ** Sessions as sequences of events *)

(** What happens between the start and the stop of a recording: the
    backend delivers a block, or the timer ticks at time [now]. *)
Inductive CaptureEvent : Type :=
  | Block (in_ : list Z)
  | Tick (now : Z).

Definition capture_step (s : Model * World) (ev : CaptureEvent) : Model * World :=
  match ev with
  | Block in_ => processAudioInput in_ s.1 s.2
  | Tick now => Update now tickMsg s.1 s.2
  end.

Definition deliver (events : list CaptureEvent) (s : Model * World) : Model * World :=
  foldl capture_step s events.

(** The bytes the delivered blocks encode to. *)
Definition payload (events : list CaptureEvent) : list Z :=
  flat_map (fun ev => match ev with Block in_ => samplesToBytes in_ | Tick _ => [] end) events.

(** A whole recording: start under [e], the events, stop under [e']. *)
Definition recordingSession (e e' : Env) (events : list CaptureEvent) (m : Model) (w : World)
  : Model * World :=
  let s := deliver events (startRecording e m w) in
  stopRecording e' s.1 s.2.

(** The input device [startRecording] settles on. *)
Definition chosenInputDevice (e : Env) (cfg : Config) : option DeviceInfo :=
  match (if bool_decide (InputDevice cfg ≠ ""%string) then device_by_id e else None) with
  | Some dev => Some dev
  | None => default_device e
  end.

(** Every step of the start sequence succeeds. *)
Definition capture_ok (e : Env) (cfg : Config) : bool :=
  initialize_ok e && bool_decide (is_Some (chosenInputDevice e cfg)) && create_ok e
  && header_write_ok e && open_stream_ok e && stream_start_ok e.

(** The name and the path of the file [startRecording] creates. *)
Definition recordingName (e : Env) (cfg : Config) : string :=
  generateFilename (env_stamp e) (DefaultFormat cfg).

Definition recordingPath (e : Env) (cfg : Config) : string :=
  filepath_Join (MemosPath cfg) (recordingName e cfg).

(** The data-chunk size and the RIFF chunk size a file declares. *)
Definition declaredDataSize (content : list Z) : Z := Uint32 (slice 40 44 content).
Definition declaredRiffSize (content : list Z) : Z := Uint32 (slice 4 8 content).

(** A recording is open on [path]: the device holds the handle, the file
    has [content] and the handle is at its end. *)
Definition IsRecording (path base : string) (content : list Z) (m : Model) (w : World) : Prop :=
  exists d,
    audioDevice m = Some d
    /\ AudioDevice.recordingFile d
       = Some {| fpath := path; fbase := base; fpos := length content |}
    /\ AudioDevice.playbackData d = None
    /\ fs w !! path = Some content.

(** The parts of the model and the world that the audio callback and the
    timer leave alone while a recording is open. *)
Definition same_rest (m : Model) (w : World) (m' : Model) (w' : World) : Prop :=
  config m' = config m /\ memos m' = memos m
  /\ open_files w' = open_files w /\ metadata w' = metadata w.

(** ** A concrete setting *)

Definition exampleDevice : DeviceInfo :=
  {| DevName := "Built-in Audio"; MaxInputChannels := 2; MaxOutputChannels := 2;
     DefaultSampleRate := F64.of_int 44100 |}.

(** Every call succeeds and the default device is used. *)
Definition env_ok : Env :=
  {| env_now := 0; env_stamp := "2025-01-01_12-00-00"; initialize_ok := true;
     device_by_id := None; default_device := Some exampleDevice; create_ok := true;
     header_write_ok := true; open_stream_ok := true; stream_start_ok := true |}.

Definition model0 : Model := initialModel (defaultConfig "/home/user") [] 0.

Definition world0 : World :=
  {| fs := ∅; open_files := []; pa_calls := []; log := []; metadata := [] |}.

Definition withVolume (v : float64) (cfg : Config) : Config :=
  {| DefaultFormat := DefaultFormat cfg; MemosPath := MemosPath cfg;
     InputDevice := InputDevice cfg; OutputDevice := OutputDevice cfg;
     SampleRate := SampleRate cfg; BitDepth := BitDepth cfg;
     ChannelCount := ChannelCount cfg; Volume := v |}.

(** A model in the middle of playing [samples] at [volume], the cursor at
    [pos]. *)
Definition playbackModel (volume : float64) (samples : list Z) (pos : Z) : Model :=
  {| state := StatePlaying; config := withVolume volume (defaultConfig "/home/user");
     memos := []; selectedIdx := 0;
     audioDevice :=
       Some {| AudioDevice.stream := None; AudioDevice.recordingFile := None;
               AudioDevice.playbackData := Some samples;
               AudioDevice.playbackPos := pos |};
     recording := false; playing := true; recordingTime := 0; playbackPos := 0;
     recordingPulse := 0; lastUpdate := 0 |}.

(** The volumes 0.5 and 1.5. *)
Definition vol_half : float64 := F64.div (F64.of_int 1) (F64.of_int 2).
Definition vol_one_and_half : float64 := F64.div (F64.of_int 3) (F64.of_int 2).

Definition withFormat (sampleRate bitDepth channelCount : Z) (cfg : Config) : Config :=
  {| DefaultFormat := DefaultFormat cfg; MemosPath := MemosPath cfg;
     InputDevice := InputDevice cfg; OutputDevice := OutputDevice cfg;
     SampleRate := sampleRate; BitDepth := bitDepth;
     ChannelCount := channelCount; Volume := Volume cfg |}.

(** A model with a recording open on [path] that has run for
    [elapsed] nanoseconds, under configuration [cfg]. *)
Definition recordingModel (cfg : Config) (path base : string) (size : nat) (elapsed : Z)
  : Model :=
  {| state := StateRecording; config := cfg; memos := []; selectedIdx := 0;
     audioDevice :=
       Some {| AudioDevice.stream := None;
               AudioDevice.recordingFile :=
                 Some {| fpath := path; fbase := base; fpos := size |};
               AudioDevice.playbackData := None;
               AudioDevice.playbackPos := 0 |};
     recording := true; playing := false; recordingTime := elapsed; playbackPos := 0;
     recordingPulse := 0; lastUpdate := 0 |}.

(** A world whose only file is [content] at [path], open. *)
Definition worldWith (path : string) (content : list Z) : World :=
  {| fs := {[ path := content ]}; open_files := [path]; pa_calls := []; log := [];
     metadata := [] |}.

(** A library holding the single memo [name], stored with [content]. *)
Definition libraryModel (name : string) : Model :=
  initialModel (defaultConfig "/home/user")
    [{| Filename := name; Duration := F64.of_int 1; Created := 0; Size := 0;
        Format := "WAV" |}] 0.

Definition libraryWorld (name : string) (content : list Z) : World :=
  {| fs := {[ filepath_Join (MemosPath (defaultConfig "/home/user")) name := content ]};
     open_files := []; pa_calls := []; log := []; metadata := [] |}.

(** A tenth of a second of mono audio at 22050 Hz. *)
Definition tone22k : list Z :=
  wavHeader 22050 1 16 4410 ++ samplesToBytes (replicate (Z.to_nat 2205) 1000).

(** A header that declares 8 bytes of payload, followed by 2 bytes. *)
Definition truncatedWav : list Z := wavHeader 44100 1 16 8 ++ samplesToBytes [1000].

(** The same header followed by nothing. *)
Definition headerOnlyWav : list Z := wavHeader 44100 1 16 8.

(** [k] fill requests of [n] slots each. *)
Definition fills (k n : nat) (m : Model) : Model :=
  Nat.iter k (fun m => (processAudioOutput n m).2) m.

(** The cursor of the playback session, if there is one. *)
Definition cursor (m : Model) : option Z :=
  AudioDevice.playbackPos <$> audioDevice m.

(** The sample rate of the stream the device holds, if any. *)
Definition streamRate (m : Model) : option float64 :=
  d ← audioDevice m; s ← AudioDevice.stream d; Some (StreamSampleRate s).

(** Environments in which one step of the start sequence fails. *)
Definition env_fail_open_stream : Env :=
  {| env_now := 0; env_stamp := "2025-01-01_12-00-00"; initialize_ok := true;
     device_by_id := None; default_device := Some exampleDevice; create_ok := true;
     header_write_ok := true; open_stream_ok := false; stream_start_ok := true |}.

Definition env_fail_header_write : Env :=
  {| env_now := 0; env_stamp := "2025-01-01_12-00-00"; initialize_ok := true;
     device_by_id := None; default_device := Some exampleDevice; create_ok := true;
     header_write_ok := false; open_stream_ok := true; stream_start_ok := true |}.

(** The coordinator handling a sequence of timer messages, each with the
    time at which it is handled. *)
Definition poll (msgs : list (Z * Msg)) (s : Model * World) : Model * World :=
  foldl (fun s tm => Update tm.1 tm.2 s.1 s.2) s msgs.

(** ** Configuration and settings *)

(** [x <= y] on [float64]. *)
Definition F64_leb : float64 -> float64 -> bool := SFleb.

(** The literal [0.1]: the [float64] nearest to one tenth. *)
Definition F64_tenth : float64 := F64.div (F64.of_int 1) (F64.of_int 10).

Definition withSampleRate (v : Z) (cfg : Config) : Config :=
  withFormat v (BitDepth cfg) (ChannelCount cfg) cfg.

Definition withBitDepth (v : Z) (cfg : Config) : Config :=
  withFormat (SampleRate cfg) v (ChannelCount cfg) cfg.

Definition withChannelCount (v : Z) (cfg : Config) : Config :=
  withFormat (SampleRate cfg) (BitDepth cfg) v cfg.

Definition withInputDevice (v : string) (cfg : Config) : Config :=
  {| DefaultFormat := DefaultFormat cfg; MemosPath := MemosPath cfg;
     InputDevice := v; OutputDevice := OutputDevice cfg;
     SampleRate := SampleRate cfg; BitDepth := BitDepth cfg;
     ChannelCount := ChannelCount cfg; Volume := Volume cfg |}.

Definition withOutputDevice (v : string) (cfg : Config) : Config :=
  {| DefaultFormat := DefaultFormat cfg; MemosPath := MemosPath cfg;
     InputDevice := InputDevice cfg; OutputDevice := v;
     SampleRate := SampleRate cfg; BitDepth := BitDepth cfg;
     ChannelCount := ChannelCount cfg; Volume := Volume cfg |}.

Definition withDefaultFormat (v : AudioFormat) (cfg : Config) : Config :=
  {| DefaultFormat := v; MemosPath := MemosPath cfg;
     InputDevice := InputDevice cfg; OutputDevice := OutputDevice cfg;
     SampleRate := SampleRate cfg; BitDepth := BitDepth cfg;
     ChannelCount := ChannelCount cfg; Volume := Volume cfg |}.

Definition set_config (v : Config) (m : Model) : Model :=
  {| state := state m; config := v; memos := memos m; selectedIdx := selectedIdx m;
     audioDevice := audioDevice m; recording := recording m; playing := playing m;
     recordingTime := recordingTime m; playbackPos := playbackPos m;
     recordingPulse := recordingPulse m; lastUpdate := lastUpdate m |}.

(** What [loadConfig] finds at the configuration path: no file, a file
    that cannot be read or parsed, or a file that parses to [config]. *)
Inductive ConfigFile : Type :=
  | ConfigMissing
  | ConfigUnreadable
  | ConfigParsed (config : Config).

(** [loadConfig]; the default configuration written back when the file is
    missing is not part of the result. *)
Definition loadConfig (homeDir : string) (file : ConfigFile) : Config :=
  match file with
  | ConfigMissing => defaultConfig homeDir
  | ConfigUnreadable => defaultConfig homeDir
  | ConfigParsed config =>
      (* Ensure audio settings have valid values *)
      let config :=
        if SampleRate config <=? 0 then withSampleRate 44100 config else config in
      let config :=
        if ChannelCount config <=? 0 then withChannelCount 2 config else config in
      let config :=
        if BitDepth config <=? 0 then withBitDepth 2 config else config in
      let config :=
        if F64_leb (Volume config) (F64.of_int 0) || F64.ltb (F64.of_int 1) (Volume config)
        then withVolume (F64.of_int 1) config else config in
      config
  end.

(** [getPlayerVolume] and [setPlayerVolume] *)
Definition getPlayerVolume (m : Model) : float64 := Volume (config m).

Definition setPlayerVolume (volume : float64) (m : Model) : Model :=
  let volume :=
    if F64.ltb volume (F64.of_int 0) then F64.of_int 0
    else if F64.ltb (F64.of_int 1) volume then F64.of_int 1
    else volume in
  set_config (withVolume volume (config m)) m.

(** [AudioDeviceInfo] *)
Module AudioDeviceInfo.

Record t : Type := {
  ID : string;
  Name : string;
  IsDefault : bool;
  IsInput : bool;
  IsOutput : bool
}.

End AudioDeviceInfo.

(** The first index at which [p] holds, or -1: the loop shared by
    [findDeviceIndex], [findIntIndex] and [findFormatIndex]. *)
Fixpoint findIndex {A : Type} (p : A -> bool) (slice : list A) : Z :=
  match slice with
  | [] => -1
  | v :: rest => if p v then 0 else
      let i := findIndex p rest in if i <? 0 then -1 else i + 1
  end.

Definition findDeviceIndex (availableDevices : list AudioDeviceInfo.t) (deviceID : string) : Z :=
  findIndex (fun device => bool_decide (AudioDeviceInfo.ID device = deviceID)) availableDevices.

Definition findIntIndex (slice : list Z) (value : Z) : Z :=
  findIndex (fun v => v =? value) slice.

Definition AudioFormat_eqb (a b : AudioFormat) : bool :=
  match a, b with
  | FormatWAV, FormatWAV | FormatMP3, FormatMP3 | FormatOGG, FormatOGG => true
  | _, _ => false
  end.

Definition findFormatIndex (slice : list AudioFormat) (value : AudioFormat) : Z :=
  findIndex (AudioFormat_eqb value) slice.

(** [slice[i]]; an index outside the slice is a run-time panic, [None]. *)
Definition index {A : Type} (slice : list A) (i : Z) : option A :=
  if (0 <=? i) && (i <? Z.of_nat (length slice)) then slice !! Z.to_nat i else None.

(** [(currentIdx + delta + len(slice)) % len(slice)], then [slice[nextIdx]]. *)
Definition cycle {A : Type} (slice : list A) (currentIdx delta : Z) : option A :=
  index slice (Z.rem (currentIdx + delta + Z.of_nat (length slice)) (Z.of_nat (length slice))).

(** [adjustSetting]; [settingsSelectedIdx] and [availableDevices] are the
    fields of the settings screen.  [None] is an index out of range. *)
Definition adjustSetting (settingsSelectedIdx : Z) (availableDevices : list AudioDeviceInfo.t)
    (delta : Z) (m : Model) : option Model :=
  let cfg := config m in
  if settingsSelectedIdx =? 0 then
    (* Input Device *)
    let currentIdx := findDeviceIndex availableDevices (InputDevice cfg) in
    if 0 <=? currentIdx then
      device ← cycle availableDevices currentIdx delta;
      Some (set_config (withInputDevice (AudioDeviceInfo.ID device) cfg) m)
    else Some m
  else if settingsSelectedIdx =? 1 then
    (* Output Device *)
    let currentIdx := findDeviceIndex availableDevices (OutputDevice cfg) in
    if 0 <=? currentIdx then
      device ← cycle availableDevices currentIdx delta;
      Some (set_config (withOutputDevice (AudioDeviceInfo.ID device) cfg) m)
    else Some m
  else if settingsSelectedIdx =? 2 then
    (* Sample Rate *)
    let rates := [22050; 44100; 48000; 96000] in
    let currentIdx := findIntIndex rates (SampleRate cfg) in
    if 0 <=? currentIdx then
      rate ← cycle rates currentIdx delta;
      Some (set_config (withSampleRate rate cfg) m)
    else Some m
  else if settingsSelectedIdx =? 3 then
    (* Bit Depth *)
    let depths := [16; 24; 32] in
    let currentIdx := findIntIndex depths (BitDepth cfg) in
    if 0 <=? currentIdx then
      depth ← cycle depths currentIdx delta;
      Some (set_config (withBitDepth depth cfg) m)
    else Some m
  else if settingsSelectedIdx =? 4 then
    (* Channel Count *)
    let channels := [1; 2] in
    let currentIdx := findIntIndex channels (ChannelCount cfg) in
    if 0 <=? currentIdx then
      count ← cycle channels currentIdx delta;
      Some (set_config (withChannelCount count cfg) m)
    else Some m
  else if settingsSelectedIdx =? 5 then
    (* Audio Format *)
    let formats := [FormatWAV; FormatMP3; FormatOGG] in
    let currentIdx := findFormatIndex formats (DefaultFormat cfg) in
    if 0 <=? currentIdx then
      format ← cycle formats currentIdx delta;
      Some (set_config (withDefaultFormat format cfg) m)
    else Some m
  else if settingsSelectedIdx =? 6 then
    (* Volume *)
    let currentVolume := getPlayerVolume m in
    let newVolume := F64.add currentVolume (F64.mul (F64.of_int delta) F64_tenth) in
    let newVolume :=
      if F64.ltb newVolume (F64.of_int 0) then F64.of_int 0
      else if F64.ltb (F64.of_int 1) newVolume then F64.of_int 1
      else newVolume in
    Some (setPlayerVolume newVolume m)
  else Some m.

(** [setDefaultDevices] on the detected [devices]: a device that is not
    configured becomes the first device of its direction. *)
Definition setDefaultDevices (devices : list AudioDeviceInfo.t) (cfg : Config) : Config :=
  let cfg :=
    match List.find (fun device => AudioDeviceInfo.IsInput device
                                   && bool_decide (InputDevice cfg = ""%string)) devices with
    | Some device => withInputDevice (AudioDeviceInfo.ID device) cfg
    | None => cfg
    end in
  match List.find (fun device => AudioDeviceInfo.IsOutput device
                                 && bool_decide (OutputDevice cfg = ""%string)) devices with
  | Some device => withOutputDevice (AudioDeviceInfo.ID device) cfg
  | None => cfg
  end.

(** ** The memo collection *)

Module Library.

(** A [Memo] with the fields the collection operations read and write:
    [ID], [Name] and [Tags], beside the fields of [Memo] above. *)
Record Entry : Type := {
  ID : string;
  Name : string;
  Tags : list string;
  memo : Memo
}.

Definition set_Name (v : string) (x : Entry) : Entry :=
  {| ID := ID x; Name := v; Tags := Tags x; memo := memo x |}.

Definition set_Tags (v : list string) (x : Entry) : Entry :=
  {| ID := ID x; Name := Name x; Tags := v; memo := memo x |}.

(** The collection, the selection, the stored files and the collection
    last written by [saveMemos]. *)
Record State : Type := {
  memos : list Entry;
  selectedIdx : Z;
  memosPath : string;
  files : gmap string (list Z);
  saved : list Entry
}.

Definition set_memos (v : list Entry) (s : State) : State :=
  {| memos := v; selectedIdx := selectedIdx s; memosPath := memosPath s;
     files := files s; saved := saved s |}.

(** [saveMemos(m.memos, m.config.MemosPath)] *)
Definition save (s : State) : State :=
  {| memos := memos s; selectedIdx := selectedIdx s; memosPath := memosPath s;
     files := files s; saved := memos s |}.

(** The loop [for i := range m.memos { if m.memos[i].ID == id { ...; break } }]
    with body [f]. *)
Fixpoint updateFirst (id : string) (f : Entry -> Entry) (l : list Entry) : list Entry :=
  match l with
  | [] => []
  | x :: rest => if bool_decide (ID x = id) then f x :: rest else x :: updateFirst id f rest
  end.

(** The loop of [deleteMemo]: the first entry with the given [ID] is
    removed. *)
Fixpoint removeFirst (id : string) (l : list Entry) : list Entry :=
  match l with
  | [] => []
  | x :: rest => if bool_decide (ID x = id) then rest else x :: removeFirst id rest
  end.

(** [renameMemo]; [None] is the panic of an index out of range. *)
Definition renameMemo (newName : string) (s : State) : option State :=
  if (0 <? Z.of_nat (length (memos s))) && bool_decide (newName ≠ ""%string) then
    selected ← index (memos s) (selectedIdx s);
    let l := <[Z.to_nat (selectedIdx s) := set_Name newName selected]> (memos s) in
    (* Update in main memos list *)
    let l := updateFirst (ID selected) (set_Name newName) l in
    Some (save (set_memos l s))
  else Some s.

(** [addTag] *)
Definition addTag (tag : string) (s : State) : option State :=
  if (0 <? Z.of_nat (length (memos s))) && bool_decide (tag ≠ ""%string) then
    selected ← index (memos s) (selectedIdx s);
    (* Check if tag already exists *)
    if bool_decide (tag ∈ Tags selected) then Some s
    else
      let tags := Tags selected ++ [tag] in
      let l := <[Z.to_nat (selectedIdx s) := set_Tags tags selected]> (memos s) in
      (* Update in main memos list *)
      let l := updateFirst (ID selected) (set_Tags tags) l in
      Some (save (set_memos l s))
  else Some s.

(** [deleteMemo] *)
Definition deleteMemo (s : State) : option State :=
  if Z.of_nat (length (memos s)) =? 0 then Some s
  else
    selected ← index (memos s) (selectedIdx s);
    (* Remove from file system *)
    let filePath := filepath_Join (memosPath s) (Filename (memo selected)) in
    let fs' := delete filePath (files s) in
    (* Remove from memos list *)
    let l := removeFirst (ID selected) (memos s) in
    (* Adjust selection *)
    let idx := selectedIdx s in
    let idx := if Z.of_nat (length l) <=? idx then Z.of_nat (length l) - 1 else idx in
    let idx := if idx <? 0 then 0 else idx in
    Some {| memos := l; selectedIdx := idx; memosPath := memosPath s;
            files := fs'; saved := l |}.

End Library.

(** ** File helpers *)

(** [copyFile]; [create_ok] is the outcome of [os.Create(dst)].  The
    source is read after the destination has been created. *)
Definition copyFile (create_ok : bool) (src dst : string) (fs0 : gmap string (list Z))
  : option error * gmap string (list Z) :=
  match fs0 !! src with
  | None => (Some ErrOpen, fs0)
  | Some _ =>
      if negb create_ok then (Some ErrOpen, fs0)
      else
        let fs1 := <[dst := []]> fs0 in
        (* destFile.ReadFrom(sourceFile) *)
        (None, <[dst := default [] (fs1 !! src)]> fs1)
  end.

(** [truncateText]; lengths and slices count bytes.  [None] is the panic
    of a negative slice bound. *)
Definition truncateText (text : string) (maxLength : Z) : option string :=
  if Z.of_nat (String.length text) <=? maxLength then Some text
  else if maxLength - 3 <? 0 then None
  else Some (String.substring 0 (Z.to_nat (maxLength - 3)) text +:+ "...").

(** The scaled samples a fill request copies, for a whole buffer. *)
Definition scaleAll (volume : float64) (samples : list Z) : list Z :=
  scaleSample volume <$> samples.

(** The output device [startPlayback] settles on. *)
Definition chosenOutputDevice (e : Env) (cfg : Config) : option DeviceInfo :=
  match (if bool_decide (OutputDevice cfg ≠ ""%string) then device_by_id e else None) with
  | Some dev => Some dev
  | None => default_device e
  end.

(** Every step of the playback start succeeds. *)
Definition playback_ok (e : Env) (cfg : Config) : bool :=
  initialize_ok e && bool_decide (is_Some (chosenOutputDevice e cfg))
  && open_stream_ok e && stream_start_ok e.

(** The recording start fails before the audio device is assigned. *)
Definition fails_before_device (e : Env) (cfg : Config) : bool :=
  negb (initialize_ok e && bool_decide (is_Some (chosenInputDevice e cfg))
        && create_ok e && header_write_ok e).

(** All [int16] values from [lo] upwards, [n] of them. *)
Fixpoint int16_from (lo : Z) (n : nat) : list Z :=
  match n with
  | O => []
  | S n' => lo :: int16_from (lo + 1) n'
  end.



(** Full volume and muted, as [float64]. *)
Definition vol_one : float64 := F64.of_int 1.
Definition vol_zero : float64 := F64.of_int 0.

(** At full volume [s] is copied unchanged and at volume 0 it becomes 0. *)
Definition unit_and_zero_ok (s : Z) : bool :=
  (scaleSample vol_one s =? s) && (scaleSample vol_zero s =? 0).

(** The stream [startPlayback] opens for a file of the given sample rate
    and channel count, and the device it creates around the decoded samples. *)
Definition playStream (sampleRate channels : Z) : Stream :=
  {| IsInput := false; StreamSampleRate := F64.of_int sampleRate;
     StreamChannels := channels; FramesPerBuffer := 1024 |}.

Definition playDevice (samples : list Z) (sampleRate channels : Z) : AudioDevice.t :=
  {| AudioDevice.stream := Some (playStream sampleRate channels);
     AudioDevice.recordingFile := None;
     AudioDevice.playbackData := Some samples;
     AudioDevice.playbackPos := 0 |}.


(** The memo [startPlayback] plays: [m.memos[m.selectedIdx]]. *)
Definition selectedMemo (m : Model) : option Memo :=
  if 0 <=? selectedIdx m then memos m !! Z.to_nat (selectedIdx m) else None.

Definition selectedPath (m : Model) (memo : Memo) : string :=
  filepath_Join (MemosPath (config m)) (Filename memo).


(** A playing model whose device holds an open stream. *)
Definition streamingModel (samples : list Z) (pos : Z) : Model :=
  set_audioDevice (Some (AudioDevice.set_playbackPos pos (playDevice samples 44100 1)))
    (set_playing true (set_state StatePlaying (libraryModel "a.wav"))).

(** The clamp of [setPlayerVolume] and of the volume case of
    [adjustSetting]. *)
Definition clampVolume (volume : float64) : float64 :=
  if F64.ltb volume (F64.of_int 0) then F64.of_int 0
  else if F64.ltb (F64.of_int 1) volume then F64.of_int 1
  else volume.

(** Three detected devices, and a model configured for the last of them. *)
Definition exampleDevices : list AudioDeviceInfo.t :=
  [ {| AudioDeviceInfo.ID := "0"; AudioDeviceInfo.Name := "Built-in Output";
       AudioDeviceInfo.IsDefault := false; AudioDeviceInfo.IsInput := false;
       AudioDeviceInfo.IsOutput := true |};
    {| AudioDeviceInfo.ID := "1"; AudioDeviceInfo.Name := "Built-in Microphone";
       AudioDeviceInfo.IsDefault := true; AudioDeviceInfo.IsInput := true;
       AudioDeviceInfo.IsOutput := false |};
    {| AudioDeviceInfo.ID := "2"; AudioDeviceInfo.Name := "USB Headset";
       AudioDeviceInfo.IsDefault := false; AudioDeviceInfo.IsInput := true;
       AudioDeviceInfo.IsOutput := true |} ].

Definition headsetModel : Model :=
  initialModel
    (withOutputDevice "2" (withInputDevice "2" (defaultConfig "/home/user"))) [] 0.

(** A collection of three memos with distinct IDs, the last one selected,
    and their three files. *)
Definition exampleEntry (id name file : string) (tags : list string) : Library.Entry :=
  {| Library.ID := id; Library.Name := name; Library.Tags := tags;
     Library.memo := {| Filename := file; Duration := F64.of_int 1; Created := 0;
                        Size := 44; Format := "WAV" |} |}.

Definition exampleLibrary : Library.State :=
  let l := [exampleEntry "1" "Monday" "a.wav" ["work"];
            exampleEntry "2" "Tuesday" "b.wav" [];
            exampleEntry "3" "Wednesday" "c.wav" ["idea"; "work"]] in
  {| Library.memos := l; Library.selectedIdx := 2; Library.memosPath := "/memos";
     Library.files := {[ "/memos/a.wav"%string := wavHeader 44100 2 16 0;
                         "/memos/b.wav"%string := wavHeader 44100 2 16 0;
                         "/memos/c.wav"%string := wavHeader 44100 2 16 0 ]};
     Library.saved := l |}.

(** The tags of a memo after [addTag]: unchanged when the tag is there
    already, the tag appended otherwise. *)
Definition withTag (tag : string) (tags : list string) : list string :=
  if bool_decide (tag ∈ tags) then tags else tags ++ [tag].

(** * Properties *)

Local Arguments uint16 : simpl never.
Local Arguments uint32 : simpl never.
Local Arguments int16 : simpl never.
Local Arguments int64 : simpl never.
Local Arguments GoInt.mul : simpl never.
Local Arguments GoInt.div : simpl never.

(** ** Little-endian fields *)

Lemma byte_of_testbit v k i :
  0 <= k -> 0 <= i ->
  Z.testbit (byte_of v k) i = (i <? 8) && Z.testbit v (i + 8 * k).
Proof.
  intros Hk Hi. unfold byte_of.
  rewrite Z.land_spec, Z.shiftr_spec by lia.
  change 255 with (Z.ones 8).
  rewrite Z.testbit_ones_nonneg by lia.
  destruct (i <? 8) eqn:E; [rewrite andb_true_r | rewrite andb_false_r]; reflexivity.
Qed.

Lemma shifted_byte_testbit v k i :
  0 <= k -> 0 <= i ->
  Z.testbit (Z.shiftl (byte_of v k) (8 * k)) i
  = (8 * k <=? i) && (i <? 8 * k + 8) && Z.testbit v i.
Proof.
  intros Hk Hi. destruct (Z.leb_spec (8 * k) i) as [Hle|Hlt].
  - rewrite Z.shiftl_spec by lia. rewrite byte_of_testbit by lia.
    replace (i - 8 * k + 8 * k) with i by lia.
    destruct (Z.ltb_spec (i - 8 * k) 8), (Z.ltb_spec i (8 * k + 8)); try lia; reflexivity.
  - rewrite Z.shiftl_spec_low by lia. reflexivity.
Qed.

Lemma Uint16_PutUint16 v : Uint16 (PutUint16 v) = v mod 2 ^ 16.
Proof.
  unfold PutUint16, Uint16.
  apply Z.bits_inj'; intros i Hi.
  rewrite Z.lor_spec, Z.testbit_mod_pow2 by lia.
  change (Z.shiftl (byte_of v 1) 8) with (Z.shiftl (byte_of v 1) (8 * 1)).
  rewrite shifted_byte_testbit, byte_of_testbit by lia.
  rewrite Z.add_0_r.
  destruct (Z.testbit v i); rewrite ?andb_true_r, ?andb_false_r; [|reflexivity].
  destruct (Z.ltb_spec i 8), (Z.leb_spec (8 * 1) i), (Z.ltb_spec i (8 * 1 + 8)),
    (Z.ltb_spec i 16); try lia; reflexivity.
Qed.

Lemma Uint32_PutUint32 v : Uint32 (PutUint32 v) = v mod 2 ^ 32.
Proof.
  unfold PutUint32, Uint32.
  apply Z.bits_inj'; intros i Hi.
  rewrite !Z.lor_spec, Z.testbit_mod_pow2 by lia.
  change (Z.shiftl (byte_of v 1) 8) with (Z.shiftl (byte_of v 1) (8 * 1)).
  change (Z.shiftl (byte_of v 2) 16) with (Z.shiftl (byte_of v 2) (8 * 2)).
  change (Z.shiftl (byte_of v 3) 24) with (Z.shiftl (byte_of v 3) (8 * 3)).
  rewrite !shifted_byte_testbit, byte_of_testbit by lia.
  rewrite Z.add_0_r.
  destruct (Z.testbit v i); rewrite ?andb_true_r, ?andb_false_r; [|reflexivity].
  destruct (Z.ltb_spec i 8), (Z.leb_spec (8 * 1) i), (Z.ltb_spec i (8 * 1 + 8)),
    (Z.leb_spec (8 * 2) i), (Z.ltb_spec i (8 * 2 + 8)),
    (Z.leb_spec (8 * 3) i), (Z.ltb_spec i (8 * 3 + 8)), (Z.ltb_spec i 32);
    try lia; reflexivity.
Qed.

(** For in-range bytes the bitwise or of the shifted bytes is their sum. *)
Lemma lor_shiftl_add a b k :
  0 <= k -> 0 <= a < 2 ^ k -> Z.lor a (Z.shiftl b k) = a + b * 2 ^ k.
Proof.
  intros Hk Ha. rewrite Z.shiftl_mul_pow2 by lia.
  symmetry. apply Z.add_nocarry_lor.
  apply Z.bits_inj'; intros i Hi. rewrite Z.land_spec, Z.bits_0.
  destruct (Z.ltb_spec i k).
  - rewrite Z.mul_pow2_bits_low by lia. apply andb_false_r.
  - replace (Z.testbit a i) with false; [reflexivity|].
    symmetry. destruct (Z.eq_dec a 0) as [->|]; [apply Z.bits_0|].
    apply Z.bits_above_log2; [lia|].
    assert (Z.log2 a < k) by (apply Z.log2_lt_pow2; lia). lia.
Qed.

Lemma Uint16_bytes b0 b1 l :
  is_byte b0 -> Uint16 (b0 :: b1 :: l) = b0 + 256 * b1.
Proof.
  intros H0. unfold is_byte in *. simpl.
  rewrite lor_shiftl_add by lia. lia.
Qed.


(** ** Codec *)

Lemma wavHeader_layout sampleRate channels bitsPerSample dataSize :
  wavHeader sampleRate channels bitsPerSample dataSize
  = RIFF ++ PutUint32 (uint32 (int64 (36 + dataSize))) ++ WAVE ++ fmt_
    ++ PutUint32 16 ++ PutUint16 1 ++ PutUint16 (uint16 channels)
    ++ PutUint32 (uint32 sampleRate)
    ++ PutUint32 (uint32 (GoInt.div (GoInt.mul (GoInt.mul sampleRate channels) bitsPerSample) 8))
    ++ PutUint16 (uint16 (GoInt.div (GoInt.mul channels bitsPerSample) 8))
    ++ PutUint16 (uint16 bitsPerSample) ++ data_ ++ PutUint32 (uint32 dataSize).
Proof. reflexivity. Qed.

Lemma wavHeader_length sampleRate channels bitsPerSample dataSize :
  length (wavHeader sampleRate channels bitsPerSample dataSize) = 44%nat.
Proof. reflexivity. Qed.

Lemma decodeHeader_wavHeader sampleRate channels bitsPerSample dataSize :
  decodeHeader (wavHeader sampleRate channels bitsPerSample dataSize)
  = inr (channels mod 2 ^ 16, sampleRate mod 2 ^ 32, dataSize mod 2 ^ 32).
Proof.
  rewrite wavHeader_layout. unfold decodeHeader.
  rewrite bool_decide_eq_false_2 by (intros [H|H]; apply H; reflexivity).
  change (slice 22 24 _) with (PutUint16 (uint16 channels)).
  change (slice 24 28 _) with (PutUint32 (uint32 sampleRate)).
  change (slice 40 44 _) with (PutUint32 (uint32 dataSize)).
  rewrite Uint16_PutUint16, !Uint32_PutUint32. unfold uint16, uint32.
  rewrite !Z.mod_mod by lia. reflexivity.
Qed.

Lemma int16_Uint16_PutUint16 s :
  is_int16 s -> int16 (Uint16 (PutUint16 (uint16 s))) = s.
Proof.
  unfold is_int16, int16, uint16. intros Hs.
  rewrite Uint16_PutUint16, Z.mod_mod by lia.
  change (2 ^ 16) with 65536. change (2 ^ 15) with 32768 in *.
  Z.div_mod_to_equations. lia.
Qed.

Lemma bytesToSamples_samplesToBytes S :
  Forall is_int16 S -> bytesToSamples (samplesToBytes S) = S.
Proof.
  induction 1 as [|s S Hs _ IH]; [reflexivity|].
  unfold samplesToBytes in *. cbn [flat_map PutUint16 app bytesToSamples].
  rewrite IH. f_equal. apply (int16_Uint16_PutUint16 s Hs).
Qed.

Lemma samplesToBytes_length S :
  length (samplesToBytes S) = (2 * length S)%nat.
Proof.
  unfold samplesToBytes. induction S as [|s S IH]; [reflexivity|].
  cbn [flat_map PutUint16 app length]. rewrite IH. lia.
Qed.


(** C2 (as amended).  For a format with a sample rate in (0, 2^32),
    1 or 2 channels and 16 bits per sample, and a sample buffer whose
    encoding is shorter than 2^32 bytes, decoding the encoded header gives
    back the channel count, the sample rate and the data size, and decoding
    the encoded samples gives back the samples. *)
Theorem roundtrip_header_and_samples (sampleRate channels : Z) (S : list Z) :
  0 < sampleRate < 2 ^ 32 ->
  channels = 1 \/ channels = 2 ->
  Forall is_int16 S ->
  Z.of_nat (length (samplesToBytes S)) < 2 ^ 32 ->
  decodeHeader (wavHeader sampleRate channels 16
                  (Z.of_nat (length (samplesToBytes S))))
  = inr (channels, sampleRate, Z.of_nat (length (samplesToBytes S)))
  /\ bytesToSamples (samplesToBytes S) = S.
Proof.
  intros Hrate Hch HS Hlen. split.
  - rewrite decodeHeader_wavHeader.
    rewrite (Z.mod_small sampleRate), (Z.mod_small (Z.of_nat _)) by lia.
    destruct Hch as [-> | ->]; reflexivity.
  - apply bytesToSamples_samplesToBytes, HS.
Qed.

Lemma roundtrip_header_and_samples_witness :
  decodeHeader (wavHeader 44100 2 16 (Z.of_nat (length (samplesToBytes [1000; -1000]))))
  = inr (2, 44100, Z.of_nat (length (samplesToBytes [1000; -1000])))
  /\ bytesToSamples (samplesToBytes [1000; -1000]) = [1000; -1000].
Proof.
  apply (roundtrip_header_and_samples 44100 2 [1000; -1000]).
  - lia.
  - right; reflexivity.
  - repeat constructor; unfold is_int16; lia.
  - simpl. lia.
Defined.

(** C2 as stated fails: a positive sample rate that does not fit the
    32-bit header field is not recovered. *)
Lemma roundtrip_fails_for_wide_sample_rate :
  ~ (decodeHeader (wavHeader (4294967296 + 44100) 1 16
                     (Z.of_nat (length (samplesToBytes []))))
     = inr (1, 4294967296 + 44100, Z.of_nat (length (samplesToBytes [])))
     /\ bytesToSamples (samplesToBytes []) = []).
Proof.
  intros [H _]. rewrite decodeHeader_wavHeader in H. vm_compute in H. discriminate H.
Qed.

Lemma slice_ext (lo hi : nat) (l l' : list Z) :
  (forall i, (lo <= i < hi)%nat -> l' !! i = l !! i) ->
  slice lo hi l' = slice lo hi l.
Proof.
  intros H. unfold slice. apply list_eq; intros i.
  destruct (decide (i < hi - lo)%nat).
  - rewrite !lookup_take_lt, !lookup_drop by lia. apply H. lia.
  - rewrite !lookup_take_ge by lia. reflexivity.
Qed.



(** A file made of an encoded header and encoded samples is read back. *)
Lemma readWAVData_roundtrip
    (fs0 : gmap string (list Z)) (path : string) (sampleRate channels : Z) (S : list Z) :
  0 <= sampleRate < 2 ^ 32 ->
  0 <= channels < 2 ^ 16 ->
  Forall is_int16 S ->
  Z.of_nat (length (samplesToBytes S)) < 2 ^ 32 ->
  fs0 !! path
  = Some (wavHeader sampleRate channels 16 (Z.of_nat (length (samplesToBytes S)))
          ++ samplesToBytes S) ->
  readWAVData fs0 path = inr (S, sampleRate, channels).
Proof.
  intros Hrate Hch HS Hlen Hfile. unfold readWAVData. rewrite Hfile.
  set (header := wavHeader sampleRate channels 16 (Z.of_nat (length (samplesToBytes S)))).
  assert (Hh : length header = 44%nat) by apply wavHeader_length.
  assert (Hread : file_Read (header ++ samplesToBytes S) 0 44 = inr (44%nat, header)).
  { unfold file_Read. change (drop 0 ?l) with l.
    rewrite take_app_length' by exact Hh.
    repeat (case_bool_decide; [lia|]).
    rewrite Hh, Nat.sub_diag. cbn [replicate]. rewrite app_nil_r. reflexivity. }
  rewrite Hread. unfold header at 1. rewrite decodeHeader_wavHeader.
  rewrite !Z.mod_small by lia.
  unfold file_Read. rewrite Nat2Z.id.
  rewrite drop_app_length' by exact Hh.
  rewrite take_ge by lia.
  case_bool_decide as Hz.
  - destruct S as [|s S']; [reflexivity|].
    rewrite samplesToBytes_length in Hz. cbn in Hz. lia.
  - rewrite Nat.sub_diag. cbn [replicate]. rewrite app_nil_r.
    rewrite bytesToSamples_samplesToBytes by exact HS. reflexivity.
Qed.

(** ** Capture session *)

Lemma write_at_end (bs content : list Z) :
  write_at (length content) bs content = content ++ bs.
Proof.
  unfold write_at. rewrite take_ge, Nat.sub_diag, drop_ge by lia.
  simpl. rewrite app_nil_r. reflexivity.
Qed.

Lemma write_at_inside (off : nat) (bs content : list Z) :
  (off + length bs <= length content)%nat ->
  write_at off bs content = take off content ++ bs ++ drop (off + length bs) content.
Proof.
  intros H. unfold write_at.
  replace (off - length content)%nat with 0%nat by lia. reflexivity.
Qed.

Local Arguments filepath_Join : simpl never.
Local Arguments generateFilename : simpl never.
Local Arguments wavHeader : simpl never.
Local Arguments write_at : simpl never.
Local Arguments samplesToBytes : simpl never.
Local Arguments PutUint32 : simpl never.
Local Arguments F64.of_int : simpl never.
Local Arguments F64.ltb : simpl never.
Local Arguments F64.mul : simpl never.
Local Arguments F64.div : simpl never.
Local Arguments F64.to_int : simpl never.
Local Arguments recordingDuration : simpl never.
Local Arguments Seconds : simpl never.

Lemma file_Write_at_end (bs content : list Z) (path base : string) (w : World) :
  fs w !! path = Some content ->
  file_Write bs {| fpath := path; fbase := base; fpos := length content |} w
  = ({| fpath := path; fbase := base; fpos := length (content ++ bs) |},
     set_fs (<[path := content ++ bs]> (fs w)) w).
Proof.
  intros Hc. unfold file_Write, file_content. cbn [fpath fbase fpos].
  rewrite Hc. cbn [default]. rewrite write_at_end, length_app. reflexivity.
Qed.

Lemma startRecording_ok (e : Env) (m : Model) (w : World) :
  capture_ok e (config m) = true ->
  let s := startRecording e m w in
  IsRecording (recordingPath e (config m)) (recordingName e (config m))
    (wavHeader (SampleRate (config m)) (ChannelCount (config m))
       (GoInt.mul (BitDepth (config m)) 8) 0) s.1 s.2
  /\ config s.1 = config m /\ memos s.1 = memos m /\ recording s.1 = true
  /\ state s.1 = StateRecording /\ recordingTime s.1 = 0
  /\ open_files s.2 = recordingPath e (config m) :: open_files w
  /\ metadata s.2 = metadata w.
Proof.
  unfold capture_ok, chosenInputDevice, recordingPath, recordingName. intros Hok.
  repeat (apply andb_prop in Hok as [Hok ?]).
  apply bool_decide_eq_true in H3 as [dev Hdev].
  unfold startRecording. rewrite Hok. cbn [negb].
  cbn [config set_lastUpdate set_recordingTime set_state set_recording].
  rewrite Hdev, H2. cbn [negb].
  unfold os_Create, writeWAVHeader. rewrite H1.
  rewrite (file_Write_at_end _ []) by apply lookup_insert_eq.
  rewrite H0, H. cbn [negb]. cbn.
  rewrite insert_insert_eq.
  repeat split.
  eexists. cbn. repeat split. apply lookup_insert_eq.
Qed.

(** The invariant of an open recording on the file [path] with base name
    [base], through the callback, the timer and the stop. *)
Section OpenRecording.

Variables path base : string.

Lemma processAudioInput_Recording content in_ m w :
  IsRecording path base content m w ->
  let s := processAudioInput in_ m w in
  IsRecording path base (content ++ samplesToBytes in_) s.1 s.2
  /\ same_rest m w s.1 s.2.
Proof.
  intros (d & Hd & Hf & Hp & Hc). unfold processAudioInput.
  rewrite Hd, Hf, (file_Write_at_end _ _ _ _ _ Hc). cbn.
  split; [|repeat split].
  eexists. split; [reflexivity|]. cbn. rewrite Hp.
  repeat split. apply lookup_insert_eq.
Qed.

Lemma tick_Recording content now m w :
  IsRecording path base content m w ->
  let s := Update now tickMsg m w in
  IsRecording path base content s.1 s.2 /\ same_rest m w s.1 s.2.
Proof.
  intros (d & Hd & Hf & Hp & Hc). unfold Update.
  assert (Hrec : forall m0 : Model,
    audioDevice m0 = Some d ->
    (if playing m0 then
       match audioDevice m0 with
       | Some d0 =>
           match AudioDevice.playbackData d0 with
           | Some samples =>
               let m1 := set_playbackPos
                 (F64.to_int (F64.mul (F64.div (F64.of_int (AudioDevice.playbackPos d0))
                    (F64.of_int 44100)) (F64.of_int Second))) m0 in
               if Z.of_nat (length samples) <=? AudioDevice.playbackPos d0
               then stopPlayback m1
                      (Printf "Auto-stopping playback - reached end of audio data" w)
               else (m1, w)
           | None => (m0, w)
           end
       | None => (m0, w)
       end
     else (m0, w)) = (m0, w)).
  { intros m0 H0. rewrite H0, Hp. destruct (playing m0); reflexivity. }
  destruct (recording m); cbv zeta; rewrite Hrec by exact Hd; cbn;
    (split; [exists d; repeat split; assumption | repeat split]).
Qed.

Lemma payload_app ev1 ev2 : payload (ev1 ++ ev2) = payload ev1 ++ payload ev2.
Proof. unfold payload. apply flat_map_app. Qed.

Lemma deliver_Recording events :
  forall content m w,
    IsRecording path base content m w ->
    let s := deliver events (m, w) in
    IsRecording path base (content ++ payload events) s.1 s.2
    /\ same_rest m w s.1 s.2.
Proof.
  unfold deliver.
  induction events as [|ev events IH]; intros content m w HR; cbn [foldl].
  - cbn. rewrite app_nil_r. repeat split. exact HR.
  - assert (Hstep : IsRecording path base
                      (content ++ payload [ev]) (capture_step (m, w) ev).1
                      (capture_step (m, w) ev).2
                    /\ same_rest m w (capture_step (m, w) ev).1 (capture_step (m, w) ev).2).
    { destruct ev as [in_|now]; cbn [capture_step payload flat_map fst snd].
      - rewrite app_nil_r. apply processAudioInput_Recording, HR.
      - rewrite !app_nil_r. apply tick_Recording, HR. }
    destruct (capture_step (m, w) ev) as [m1 w1]. destruct Hstep as [HR1 Hs1].
    specialize (IH _ _ _ HR1). cbv zeta in IH. destruct IH as [HR2 Hs2].
    change (ev :: events) with ([ev] ++ events).
    rewrite payload_app, app_assoc. split; [exact HR2|].
    unfold same_rest in *. cbn [fst snd] in *.
    destruct Hs1 as (? & ? & ? & ?), Hs2 as (? & ? & ? & ?).
    repeat split; congruence.
Qed.

Lemma stopRecording_Recording content e m w :
  IsRecording path base content m w ->
  base ≠ ""%string ->
  let s := stopRecording e m w in
  fs s.2 !! path
  = Some (write_at 40 (PutUint32 (uint32 (Z.of_nat (length content) - 44))) content)
  /\ memos s.1
     = {| Filename := base;
          Duration := recordingDuration (config m) (Z.of_nat (length content))
                        (recordingTime m);
          Created := env_now e;
          Size := Z.of_nat (length content);
          Format := AudioFormat_String (DefaultFormat (config m)) |} :: memos m
  /\ metadata s.2 = memos s.1
  /\ audioDevice s.1 = None /\ recording s.1 = false /\ state s.1 = StateViewing
  /\ open_files s.2 = remove_one path (open_files w)
  /\ (forall p, p ≠ path -> fs s.2 !! p = fs w !! p).
Proof.
  intros (d & Hd & Hf & Hp & Hc) Hbase. unfold stopRecording.
  cbn [audioDevice set_state set_recording]. rewrite Hd, Hf.
  unfold finalizeRecording, file_Write, file_Seek, file_content, file_Close.
  assert (Hsc : forall w0, fs (stop_and_close d w0) = fs w0
                           /\ open_files (stop_and_close d w0) = open_files w0).
  { intros w0. unfold stop_and_close. destruct (AudioDevice.stream d); split; reflexivity. }
  destruct (Hsc w) as [Hfs Hof].
  cbn [fpath fbase fpos]. rewrite Hfs, Hc. cbn [default].
  rewrite bool_decide_eq_true_2 by exact Hbase.
  cbn. rewrite Hof. repeat split; [apply lookup_insert_eq|].
  intros p Hne. apply lookup_insert_ne. congruence.
Qed.

End OpenRecording.

(** The file a whole recording session leaves behind, and the memo made
    from it. *)
Lemma recordingSession_result (e e' : Env) (events : list CaptureEvent) (m : Model) (w : World) :
  capture_ok e (config m) = true ->
  let header := wavHeader (SampleRate (config m)) (ChannelCount (config m))
                  (GoInt.mul (BitDepth (config m)) 8) 0 in
  let s := recordingSession e e' events m w in
  fs s.2 !! recordingPath e (config m)
  = Some (take 40 header
            ++ PutUint32 (uint32 (Z.of_nat (length (payload events))))
            ++ payload events)
  /\ (exists duration,
        memos s.1
        = {| Filename := recordingName e (config m);
             Duration := duration;
             Created := env_now e';
             Size := 44 + Z.of_nat (length (payload events));
             Format := AudioFormat_String (DefaultFormat (config m)) |} :: memos m)
  /\ metadata s.2 = memos s.1
  /\ audioDevice s.1 = None /\ recording s.1 = false /\ state s.1 = StateViewing
  /\ open_files s.2 = open_files w.
Proof.
  intros Hok header s. subst s. unfold recordingSession.
  destruct (startRecording_ok e m w Hok) as (HR & Hcfg & Hmem & _ & _ & _ & Hof & Hmd).
  destruct (startRecording e m w) as [m1 w1]. cbn [fst snd] in *.
  destruct (deliver_Recording _ _ events _ _ _ HR) as (HR2 & Hcfg2 & Hmem2 & Hof2 & Hmd2).
  destruct (deliver events (m1, w1)) as [m2 w2]. cbn [fst snd] in *.
  assert (Hbase : recordingName e (config m) ≠ ""%string).
  { unfold recordingName, generateFilename. discriminate. }
  destruct (stopRecording_Recording _ _ _ e' _ _ HR2 Hbase)
    as (Hfs & Hm & Hmeta & Hdev & Hrec & Hst & Hopen & _).
  fold header in Hfs, Hm.
  assert (Hlen : length (header ++ payload events) = (44 + length (payload events))%nat).
  { rewrite length_app. reflexivity. }
  rewrite Hlen in Hfs, Hm.
  repeat split; try assumption.
  - rewrite Hfs. f_equal. rewrite write_at_inside.
    + rewrite take_app_le by (unfold header; rewrite wavHeader_length; lia).
      change (40 + length (PutUint32 _))%nat with (length header).
      rewrite drop_app_length.
      replace (Z.of_nat (44 + length (payload events)) - 44)
        with (Z.of_nat (length (payload events))) by lia.
      reflexivity.
    + rewrite Hlen. change (length (PutUint32 _)) with 4%nat. lia.
  - eexists. rewrite Hm, Hcfg2, Hcfg, Hmem2, Hmem. f_equal. f_equal. lia.
  - rewrite Hopen, Hof2, Hof. cbn. rewrite bool_decide_eq_true_2 by reflexivity.
    reflexivity.
Qed.






Lemma write_at_length (off : nat) (bs content : list Z) :
  (off + length bs <= length content)%nat ->
  length (write_at off bs content) = length content.
Proof.
  intros H. rewrite write_at_inside by exact H.
  rewrite !length_app, length_take, length_drop. lia.
Qed.

Lemma write_at_lookup_outside (off : nat) (bs content : list Z) (i : nat) :
  (off + length bs <= length content)%nat ->
  (i < off \/ off + length bs <= i)%nat ->
  write_at off bs content !! i = content !! i.
Proof.
  intros H Hi. rewrite write_at_inside by exact H.
  destruct Hi as [Hi|Hi].
  - rewrite lookup_app_l by (rewrite length_take; lia).
    apply lookup_take_lt, Hi.
  - rewrite lookup_app_r by (rewrite length_take; lia).
    rewrite lookup_app_r by (rewrite length_take; lia).
    rewrite lookup_drop, length_take. f_equal. lia.
Qed.

(** C10.  Stopping a recording changes, in the recorded file, only the four
    bytes at offsets 40 to 43, and changes no other file.  The first 40
    bytes are still those of the header written at the start, so the RIFF
    chunk size at offset 4 still holds the placeholder 36, which differs
    from 36 plus the declared data size whenever the latter is not 0. *)
Theorem stop_rewrites_only_data_size
    (e e' : Env) (events : list CaptureEvent) (m : Model) (w : World) :
  capture_ok e (config m) = true ->
  let before := deliver events (startRecording e m w) in
  let after := stopRecording e' before.1 before.2 in
  let path := recordingPath e (config m) in
  exists c0 c1 : list Z,
    fs before.2 !! path = Some c0
    /\ fs after.2 !! path = Some c1
    /\ length c1 = length c0
    /\ (forall i, (i < 40 \/ 44 <= i)%nat -> c1 !! i = c0 !! i)
    /\ (forall p, p ≠ path -> fs after.2 !! p = fs before.2 !! p)
    /\ take 40 c1
       = take 40 (wavHeader (SampleRate (config m)) (ChannelCount (config m))
                    (GoInt.mul (BitDepth (config m)) 8) 0)
    /\ declaredRiffSize c1 = 36
    /\ (declaredDataSize c1 ≠ 0 -> declaredRiffSize c1 ≠ 36 + declaredDataSize c1).
Proof.
  intros Hok before after path. subst after before path.
  destruct (startRecording_ok e m w Hok) as (HR & _).
  destruct (startRecording e m w) as [m1 w1]. cbn [fst snd] in *.
  destruct (deliver_Recording _ _ events _ _ _ HR) as (HR2 & _).
  destruct (deliver events (m1, w1)) as [m2 w2]. cbn [fst snd] in *.
  assert (Hbase : recordingName e (config m) ≠ ""%string).
  { unfold recordingName, generateFilename. discriminate. }
  destruct (stopRecording_Recording _ _ _ e' _ _ HR2 Hbase)
    as (Hfs & _ & _ & _ & _ & _ & _ & Hother).
  destruct HR2 as (d & _ & _ & _ & Hc0).
  set (header := wavHeader (SampleRate (config m)) (ChannelCount (config m))
                   (GoInt.mul (BitDepth (config m)) 8) 0) in *.
  set (c0 := header ++ payload events) in *.
  assert (Hlen0 : (40 + 4 <= length c0)%nat).
  { unfold c0. rewrite length_app. unfold header. rewrite wavHeader_length. lia. }
  exists c0. eexists. split; [exact Hc0|]. split; [exact Hfs|].
  assert (Htake : take 40 (write_at 40 (PutUint32 (uint32 (Z.of_nat (length c0) - 44))) c0)
                  = take 40 header).
  { rewrite write_at_inside by exact Hlen0.
    rewrite take_app_length' by (rewrite length_take; lia).
    unfold c0. apply take_app_le. unfold header. rewrite wavHeader_length. lia. }
  assert (Hriff : declaredRiffSize
                    (write_at 40 (PutUint32 (uint32 (Z.of_nat (length c0) - 44))) c0) = 36).
  { unfold declaredRiffSize, slice.
    rewrite <- (take_drop 40 (write_at _ _ _)), Htake.
    rewrite drop_app_le, take_app_le by (rewrite ?length_drop, length_take;
      unfold header; rewrite wavHeader_length; lia).
    change (take (8 - 4) (drop 4 (take 40 header)))
      with (PutUint32 (uint32 (int64 (36 + 0)))).
    rewrite Uint32_PutUint32. reflexivity. }
  split; [apply write_at_length, Hlen0|].
  split; [intros i Hi; apply write_at_lookup_outside;
            [exact Hlen0 | change (length (PutUint32 _)) with 4%nat; lia]|].
  split; [exact Hother|].
  split; [exact Htake|].
  split; [exact Hriff|].
  rewrite Hriff. lia.
Qed.

Lemma stop_rewrites_only_data_size_witness :
  exists c0 c1 : list Z,
    fs (deliver [Block [1000; 1000; 1000]] (startRecording env_ok model0 world0)).2
      !! recordingPath env_ok (config model0) = Some c0
    /\ fs (recordingSession env_ok env_ok [Block [1000; 1000; 1000]] model0 world0).2
         !! recordingPath env_ok (config model0) = Some c1
    /\ declaredRiffSize c1 = 36.
Proof.
  destruct (stop_rewrites_only_data_size env_ok env_ok [Block [1000; 1000; 1000]]
              model0 world0 eq_refl)
    as (c0 & c1 & H0 & H1 & _ & _ & _ & _ & Hriff & _).
  exists c0, c1. split; [exact H0|]. split; [exact H1|]. exact Hriff.
Defined.

(** A whole run: mono 16-bit capture at 44100 Hz, three blocks of ten
    samples of value 1000, stop.  The file has 44 + 60 bytes, the memo has
    that size and the duration of 30 frames, and the file reads back as the
    30 samples. *)
Lemma capture_three_blocks :
  let m := initialModel (withFormat 44100 2 1 (defaultConfig "/home/user")) [] 0 in
  let block := replicate 10 1000 in
  let s := recordingSession env_ok env_ok [Block block; Block block; Block block] m world0 in
  length <$> fs s.2 !! recordingPath env_ok (config m) = Some 104%nat
  /\ Size <$> memos s.1 = [104]
  /\ Duration <$> memos s.1 = [F64.div (F64.of_int 30) (F64.of_int 44100)]
  /\ readWAVData (fs s.2) (recordingPath env_ok (config m))
     = inr (replicate 30 1000, 44100, 1).
Proof.
  vm_compute. repeat split; reflexivity.
Qed.

(** ** Playback session *)

Local Arguments scaleSample : simpl never.

Lemma digits2_pos_bound (m : positive) : Z.pos m < 2 ^ Z.pos (digits2_pos m).
Proof.
  induction m as [m IH|m IH|]; cbn [digits2_pos].
  - rewrite Pos2Z.inj_succ, Z.pow_succ_r, Pos2Z.inj_xI by lia. lia.
  - rewrite Pos2Z.inj_succ, Z.pow_succ_r, Pos2Z.inj_xO by lia. lia.
  - reflexivity.
Qed.

Lemma valid_mantissa_bound (s : bool) (m : positive) (e : Z) :
  valid_binary F64.prec F64.emax (S754_finite s m e) = true -> Z.pos m < 2 ^ 53.
Proof.
  unfold valid_binary, bounded, canonical_mantissa, fexp, emin, F64.prec, F64.emax.
  intros H. apply andb_prop in H as [H _]. apply Z.eqb_eq in H.
  pose proof (digits2_pos_bound m) as Hm.
  assert (Hd : Z.pos (digits2_pos m) <= 53) by lia.
  pose proof (Z.pow_le_mono_r 2 _ 53 ltac:(lia) Hd). lia.
Qed.

Lemma div_pow2_small (m k : Z) :
  0 < m < 2 ^ 53 -> 39 <= k -> 0 <= m / 2 ^ k < 2 ^ 14.
Proof.
  intros Hm Hk.
  assert (Hp : 2 ^ 39 <= 2 ^ k) by (apply Z.pow_le_mono_r; lia).
  split; [apply Z.div_pos; lia|].
  apply Z.div_lt_upper_bound; [lia|].
  change (2 ^ 53) with (2 ^ 39 * 2 ^ 14) in Hm. nia.
Qed.

Local Ltac range_by_computation :=
  vm_compute; split; [intros Hgt; discriminate Hgt | reflexivity].

Lemma to_int_negative_exponent (s : bool) (m : positive) (e : Z) :
  e < 0 ->
  F64.to_int (S754_finite s m e)
  = if s then - (Z.pos m / 2 ^ (- e)) else Z.pos m / 2 ^ (- e).
Proof.
  intros He. unfold F64.to_int.
  rewrite (proj2 (Z.leb_gt 0 e)) by lia. reflexivity.
Qed.

(** The clamp keeps every valid [float64] within the range of [int16]:
    converting the clamped value never wraps. *)
Lemma clampSample_in_range (x : float64) :
  valid_binary F64.prec F64.emax x = true ->
  is_int16 (F64.to_int (clampSample x)).
Proof.
  intros Hvalid. unfold is_int16. change (2 ^ 15) with 32768.
  destruct x as [s|s| |s m e].
  - destruct s; range_by_computation.
  - destruct s; range_by_computation.
  - range_by_computation.
  - pose proof (valid_mantissa_bound s m e Hvalid) as Hm. clear Hvalid.
    change (2 ^ 53) with 9007199254740992 in Hm.
    unfold clampSample, F64.ltb, SFltb.
    change (F64.of_int 32767) with (S754_finite false 9006924376834048 (-38)).
    change (F64.of_int (-32768)) with (S754_finite true 4503599627370496 (-37)).
    destruct s; cbv beta iota delta [SFcompare].
    + (* negative *)
      destruct (Z.compare_spec e (-37)) as [He|He|He].
      * subst e. rewrite Pos.compare_cont_spec. cbv beta iota delta [Pos.switch_Eq].
        rewrite Pos2Z.inj_compare.
        destruct (Z.compare_spec (Z.pos m) (Z.pos 4503599627370496)) as [Hc|Hc|Hc];
          cbv beta iota delta [CompOpp].
        -- injection Hc as ->. range_by_computation.
        -- rewrite to_int_negative_exponent by lia.
           change (2 ^ (- (-37))) with 137438953472.
           assert (0 <= Z.pos m / 137438953472 < 32768).
           { split; [apply Z.div_pos; lia|]. apply Z.div_lt_upper_bound; lia. }
           lia.
        -- range_by_computation.
      * rewrite to_int_negative_exponent by lia.
        destruct (Z.eq_dec e (-38)) as [->|Hne].
        -- change (2 ^ (- (-38))) with 274877906944.
           assert (0 <= Z.pos m / 274877906944 < 32768).
           { split; [apply Z.div_pos; lia|]. apply Z.div_lt_upper_bound; lia. }
           lia.
        -- pose proof (div_pow2_small (Z.pos m) (- e) ltac:(lia) ltac:(lia)) as Hq.
           change (2 ^ 14) with 16384 in Hq. lia.
      * range_by_computation.
    + (* positive *)
      destruct (Z.compare_spec (-38) e) as [He|He|He].
      * subst e. rewrite Pos.compare_cont_spec. cbv beta iota delta [Pos.switch_Eq].
        rewrite Pos2Z.inj_compare.
        destruct (Z.compare_spec (Z.pos 9006924376834048) (Z.pos m)) as [Hc|Hc|Hc].
        -- injection Hc as <-. range_by_computation.
        -- range_by_computation.
        -- rewrite to_int_negative_exponent by lia.
           change (2 ^ (- (-38))) with 274877906944.
           assert (0 <= Z.pos m / 274877906944 < 32768).
           { split; [apply Z.div_pos; lia|]. apply Z.div_lt_upper_bound; lia. }
           lia.
      * range_by_computation.
      * rewrite to_int_negative_exponent by lia.
        pose proof (div_pow2_small (Z.pos m) (- e) ltac:(lia) ltac:(lia)) as Hq.
        change (2 ^ 14) with 16384 in Hq. lia.
Qed.

Lemma fillOutput_spec (volume : float64) (samples : list Z) (n : nat) :
  forall pos : Z,
    0 <= pos ->
    let r := fillOutput volume samples pos n in
    length r.1 = n
    /\ (forall i : nat, (i < n)%nat ->
          r.1 !! i
          = Some (if pos + Z.of_nat i <? Z.of_nat (length samples)
                  then scaleSample volume
                         (default 0 (samples !! Z.to_nat (pos + Z.of_nat i)))
                  else 0))
    /\ r.2 = Z.max pos (Z.min (pos + Z.of_nat n) (Z.of_nat (length samples))).
Proof.
  induction n as [|n IH]; intros pos Hpos.
  - cbn. repeat split; [intros i Hi; lia | lia].
  - cbn [fillOutput].
    destruct (Z.ltb_spec pos (Z.of_nat (length samples))) as [Hlt|Hge].
    + specialize (IH (pos + 1) ltac:(lia)). cbv zeta in IH.
      destruct (fillOutput volume samples (pos + 1) n) as [out pos'].
      cbn [fst snd] in *. destruct IH as (Hlen & Hout & Hpos').
      split; [cbn; lia|]. split; [|lia].
      intros [|i] Hi.
      * rewrite lookup_cons. rewrite Z.add_0_r.
        destruct (Z.ltb_spec pos (Z.of_nat (length samples))); [reflexivity | lia].
      * rewrite lookup_cons. rewrite (Hout i) by lia.
        replace (pos + 1 + Z.of_nat i) with (pos + Z.of_nat (S i)) by lia.
        reflexivity.
    + specialize (IH pos Hpos). cbv zeta in IH.
      destruct (fillOutput volume samples pos n) as [out pos'].
      cbn [fst snd] in *. destruct IH as (Hlen & Hout & Hpos').
      split; [cbn; lia|]. split; [|lia].
      intros [|i] Hi.
      * rewrite lookup_cons.
        destruct (Z.ltb_spec (pos + Z.of_nat 0) (Z.of_nat (length samples)));
          [lia | reflexivity].
      * rewrite lookup_cons. rewrite (Hout i) by lia.
        destruct (Z.ltb_spec (pos + Z.of_nat i) (Z.of_nat (length samples))),
          (Z.ltb_spec (pos + Z.of_nat (S i)) (Z.of_nat (length samples)));
          try lia; reflexivity.
Qed.

(** C4.  A fill request of [n] slots, at any volume, with the cursor at
    [pos]: slot [i] receives the volume-scaled, clamped sample at
    [pos + i] while that is below the number of samples and 0 afterwards;
    the cursor has advanced by one for every sample copied and the decoded
    samples are unchanged.  The clamp keeps every valid [float64] within
    the [int16] range, so the conversion does not wrap.  Samples 100, -200,
    300 at volume 0.5 with five slots give 50, -100, 150, 0, 0 and cursor 3;
    32000 scaled by 1.5 is clamped to 32767 (and -32000 to -32768). *)
Theorem processAudioOutput_fill (m : Model) (d : AudioDevice.t) (samples : list Z) (n : nat) :
  audioDevice m = Some d ->
  AudioDevice.playbackData d = Some samples ->
  0 <= AudioDevice.playbackPos d ->
  let volume := Volume (config m) in
  let pos := AudioDevice.playbackPos d in
  let r := processAudioOutput n m in
  length r.1 = n
  /\ (forall i : nat, (i < n)%nat ->
        r.1 !! i
        = Some (if pos + Z.of_nat i <? Z.of_nat (length samples)
                then scaleSample volume
                       (default 0 (samples !! Z.to_nat (pos + Z.of_nat i)))
                else 0))
  /\ (exists d', audioDevice r.2 = Some d'
        /\ AudioDevice.playbackData d' = Some samples
        /\ AudioDevice.playbackPos d'
           = Z.max pos (Z.min (pos + Z.of_nat n) (Z.of_nat (length samples))))
  /\ (forall x : float64,
        valid_binary F64.prec F64.emax x = true ->
        is_int16 (F64.to_int (clampSample x)))
  /\ processAudioOutput 5 (playbackModel vol_half [100; -200; 300] 0)
     = ([50; -100; 150; 0; 0], playbackModel vol_half [100; -200; 300] 3)
  /\ scaleSample vol_one_and_half 32000 = 32767
  /\ scaleSample vol_one_and_half (-32000) = -32768.
Proof.
  intros Hd Hdata Hpos volume pos r. subst r. unfold processAudioOutput.
  rewrite Hd, Hdata.
  pose proof (fillOutput_spec volume samples n pos Hpos) as H. cbv zeta in H.
  fold volume. fold pos.
  destruct (fillOutput volume samples pos n) as [out pos'].
  cbn [fst snd] in *. destruct H as (Hlen & Hout & Hpos').
  split; [exact Hlen|]. split; [exact Hout|].
  split; [eexists; split; [reflexivity|]; cbn; split; [exact Hdata | exact Hpos']|].
  split; [exact clampSample_in_range|].
  split; [vm_compute; reflexivity|].
  split; vm_compute; reflexivity.
Qed.

Lemma processAudioOutput_fill_witness :
  (processAudioOutput 2 (playbackModel vol_half [100; -200; 300] 2)).1 !! 0%nat
  = Some (scaleSample vol_half 300).
Proof.
  pose proof (processAudioOutput_fill (playbackModel vol_half [100; -200; 300] 2) _
                [100; -200; 300] 2 eq_refl eq_refl ltac:(cbn; lia)) as H.
  cbv zeta in H. destruct H as (_ & H & _).
  rewrite (H 0%nat) by lia. reflexivity.
Defined.

(** ** Session coordinator *)

Lemma Update_not_playing (now : Z) (msg : Msg) (m : Model) (w : World) :
  playing m = false ->
  playing (Update now msg m w).1 = false /\ (Update now msg m w).2 = w.
Proof.
  intros Hp. destruct msg; cbn [Update]; [|split; [exact Hp | reflexivity]].
  destruct (recording m); cbn; rewrite Hp; cbn; split; first [exact Hp | reflexivity].
Qed.

Lemma poll_not_playing (msgs : list (Z * Msg)) :
  forall m w, playing m = false ->
    playing (poll msgs (m, w)).1 = false /\ (poll msgs (m, w)).2 = w.
Proof.
  unfold poll. induction msgs as [|[now msg] msgs IH]; intros m w Hp; cbn [foldl].
  - split; [exact Hp | reflexivity].
  - cbn [fst snd]. destruct (Update_not_playing now msg m w Hp) as [Hp' Hw'].
    destruct (Update now msg m w) as [m' w']. cbn [fst snd] in *. subst w'.
    apply IH, Hp'.
Qed.

(** C9.  A tick that finds the cursor at or past the end of the samples
    while playing makes exactly one [stopPlayback] call: afterwards the
    playing flag is cleared, the state is back to viewing, the device is
    released, and no later timer message calls [stopPlayback] again. *)
Theorem poll_stops_playback_once
    (m : Model) (w : World) (d : AudioDevice.t) (samples : list Z) (now : Z) :
  playing m = true ->
  audioDevice m = Some d ->
  AudioDevice.playbackData d = Some samples ->
  Z.of_nat (length samples) <= AudioDevice.playbackPos d ->
  let s1 := Update now tickMsg m w in
  playing s1.1 = false /\ state s1.1 = StateViewing /\ audioDevice s1.1 = None
  /\ playbackPos s1.1 = 0
  /\ stop_calls s1.2 = S (stop_calls w)
  /\ (forall msgs : list (Z * Msg),
        let s2 := poll msgs s1 in
        playing s2.1 = false /\ stop_calls s2.2 = stop_calls s1.2).
Proof.
  intros Hp Hd Hdata Hend s1.
  assert (Hs1 : playing s1.1 = false /\ state s1.1 = StateViewing
                /\ audioDevice s1.1 = None /\ playbackPos s1.1 = 0
                /\ log s1.2
                   = "Playback stopped"%string
                     :: "Auto-stopping playback - reached end of audio data"%string
                     :: log w).
  { subst s1. unfold Update.
    assert (Hlog : forall w0, log (stop_and_close d w0) = log w0).
    { intros w0. unfold stop_and_close. destruct (AudioDevice.stream d); reflexivity. }
    destruct (recording m); cbn; rewrite Hp, Hd, Hdata;
      (destruct (Z.leb_spec (Z.of_nat (length samples)) (AudioDevice.playbackPos d));
       [|lia]);
      unfold stopPlayback; cbn; rewrite Hd; cbn; rewrite Hlog; repeat split. }
  destruct Hs1 as (Hp1 & Hst1 & Hdev1 & Hpos1 & Hlog1).
  repeat split; try assumption.
  - unfold stop_calls. rewrite Hlog1.
    rewrite filter_cons_True by reflexivity.
    rewrite filter_cons_False by discriminate. reflexivity.
  - destruct s1 as [m1 w1]. apply poll_not_playing. exact Hp1.
  - destruct s1 as [m1 w1]. cbn [fst snd] in *.
    destruct (poll_not_playing msgs m1 w1 Hp1) as [_ ->]. reflexivity.
Qed.

Lemma poll_stops_playback_once_witness :
  stop_calls (Update 100 tickMsg (playbackModel vol_half [100; -200; 300] 3) world0).2 = 1%nat
  /\ stop_calls
       (poll [(200, tickMsg); (250, recordingTickMsg); (300, tickMsg)]
          (Update 100 tickMsg (playbackModel vol_half [100; -200; 300] 3) world0)).2
     = 1%nat.
Proof.
  pose proof (poll_stops_playback_once (playbackModel vol_half [100; -200; 300] 3) world0 _
                [100; -200; 300] 100 eq_refl eq_refl eq_refl ltac:(cbn; lia)) as H.
  cbv zeta in H. destruct H as (_ & _ & _ & _ & H1 & H2).
  split; [exact H1|].
  destruct (H2 [(200, tickMsg); (250, recordingTickMsg); (300, tickMsg)]) as [_ H3].
  rewrite H3. exact H1.
Defined.

(** ** Memo duration *)

Lemma int64_small z : - 2 ^ 63 <= z < 2 ^ 63 -> int64 z = z.
Proof.
  intros H. unfold int64. rewrite Z.mod_small by lia. lia.
Qed.

(** C8 (as amended).  The memo stored by [stopRecording] carries the
    duration computed from the file size and the configured format: when the
    64-bit product of channel count and bytes per sample and the sample rate
    are both positive it is the whole number of frames of the payload divided
    by the sample rate, otherwise it is the elapsed recording time.  For
    non-negative fields whose product fits in 64 bits the elapsed time is
    used exactly when one of the three fields is 0.  A mono 16-bit 44100 Hz
    payload of 441000 bytes gives 5.0 seconds. *)
Theorem memo_duration
    (path base : string) (content : list Z) (e : Env) (m : Model) (w : World) :
  IsRecording path base content m w ->
  base ≠ ""%string ->
  let cfg := config m in
  let fileSize := Z.of_nat (length content) in
  let bytesPerSample := GoInt.mul (ChannelCount cfg) (BitDepth cfg) in
  exists memo : Memo,
    memos (stopRecording e m w).1 = memo :: memos m
    /\ Size memo = fileSize
    /\ (0 < bytesPerSample -> 0 < SampleRate cfg ->
        Duration memo
        = F64.div (F64.of_int (GoInt.div (fileSize - 44) bytesPerSample))
            (F64.of_int (SampleRate cfg)))
    /\ (bytesPerSample <= 0 \/ SampleRate cfg <= 0 ->
        Duration memo = Seconds (recordingTime m))
    /\ (0 <= ChannelCount cfg -> 0 <= BitDepth cfg ->
        ChannelCount cfg * BitDepth cfg < 2 ^ 63 ->
        (bytesPerSample <= 0 \/ SampleRate cfg <= 0
         <-> ChannelCount cfg = 0 \/ BitDepth cfg = 0 \/ SampleRate cfg <= 0))
    /\ (0 < ChannelCount cfg -> 0 < BitDepth cfg -> 0 < SampleRate cfg ->
        ChannelCount cfg * BitDepth cfg < 2 ^ 63 -> 44 <= fileSize < 2 ^ 63 ->
        Duration memo
        = F64.div (F64.of_int ((fileSize - 44) / (ChannelCount cfg * BitDepth cfg)))
            (F64.of_int (SampleRate cfg)))
    /\ recordingDuration (withFormat 44100 2 1 cfg) (44 + 441000) (recordingTime m)
       = F64.of_int 5.
Proof.
  intros HR Hbase cfg fileSize bytesPerSample.
  destruct (stopRecording_Recording _ _ _ e _ _ HR Hbase) as (_ & Hm & _).
  eexists. split; [exact Hm|]. cbn [Size Duration].
  fold cfg. fold fileSize. unfold recordingDuration. fold bytesPerSample.
  split; [reflexivity|].
  split.
  { intros Hb Hs.
    destruct (Z.ltb_spec 0 bytesPerSample), (Z.ltb_spec 0 (SampleRate cfg)); try lia.
    reflexivity. }
  split.
  { intros Hc.
    destruct (Z.ltb_spec 0 bytesPerSample), (Z.ltb_spec 0 (SampleRate cfg)); try lia;
      reflexivity. }
  split.
  { intros Hcc Hbd Hfit. unfold bytesPerSample, GoInt.mul.
    rewrite int64_small by nia. nia. }
  split.
  { intros Hcc Hbd Hsr Hfit Hsize.
    assert (Hb : bytesPerSample = ChannelCount cfg * BitDepth cfg).
    { unfold bytesPerSample, GoInt.mul. apply int64_small. nia. }
    rewrite Hb.
    destruct (Z.ltb_spec 0 (ChannelCount cfg * BitDepth cfg)),
      (Z.ltb_spec 0 (SampleRate cfg)); try nia.
    cbn [andb]. unfold GoInt.div.
    rewrite Z.quot_div_nonneg by nia.
    rewrite int64_small; [reflexivity|].
    assert (0 <= (fileSize - 44) / (ChannelCount cfg * BitDepth cfg) <= fileSize - 44).
    { split; [apply Z.div_pos; nia|].
      apply Z.div_le_upper_bound; nia. }
    lia. }
  vm_compute. reflexivity.
Qed.

Lemma memo_duration_witness :
  exists memo : Memo,
    memos (stopRecording env_ok
             (recordingModel (withFormat 44100 2 1 (defaultConfig "/home/user"))
                "/memos/a.wav" "a.wav" 104 3000000000)
             (worldWith "/memos/a.wav" (wavHeader 44100 1 16 0 ++ replicate 60 0))).1
    = [memo]
    /\ Size memo = 104
    /\ Duration memo = F64.div (F64.of_int 30) (F64.of_int 44100).
Proof.
  destruct (memo_duration "/memos/a.wav" "a.wav" (wavHeader 44100 1 16 0 ++ replicate 60 0)
              env_ok
              (recordingModel (withFormat 44100 2 1 (defaultConfig "/home/user"))
                 "/memos/a.wav" "a.wav" 104 3000000000)
              (worldWith "/memos/a.wav" (wavHeader 44100 1 16 0 ++ replicate 60 0)))
    as (memo & Hm & Hsize & _ & _ & _ & Hd & _).
  - eexists. split; [reflexivity|]. split; [reflexivity|]. split; reflexivity.
  - discriminate.
  - exists memo. split; [exact Hm|]. split; [exact Hsize|].
    rewrite Hd;
      [vm_compute; reflexivity
      | vm_compute; first [reflexivity | split; [discriminate | reflexivity]] ..].
Defined.

(** C8 as stated fails in both directions.  With 2^62 channels of 4 bytes
    every field is positive, yet the 64-bit product is 0 and the memo gets
    the elapsed time (3 s) instead of the computed duration; with -1 channel
    of -2 bytes two fields are negative, yet the memo gets the computed
    duration (30 frames at 44100 Hz) instead of the elapsed time. *)
Lemma duration_fallback_is_not_field_sign :
  let content := wavHeader 44100 1 16 0 ++ replicate 60 0 in
  let w := worldWith "/memos/a.wav" content in
  let wide := withFormat 44100 4 4611686018427387904 (defaultConfig "/home/user") in
  let negative := withFormat 44100 (-2) (-1) (defaultConfig "/home/user") in
  (0 < ChannelCount wide /\ 0 < BitDepth wide /\ 0 < SampleRate wide
   /\ Duration <$> memos (stopRecording env_ok
                            (recordingModel wide "/memos/a.wav" "a.wav" 104 3000000000) w).1
      = [Seconds 3000000000]
   /\ Seconds 3000000000 = F64.of_int 3
   /\ F64.div (F64.of_int (60 / (ChannelCount wide * BitDepth wide)))
        (F64.of_int (SampleRate wide))
      = F64.of_int 0)
  /\ (ChannelCount negative <= 0 /\ BitDepth negative <= 0
      /\ Duration <$> memos (stopRecording env_ok
                               (recordingModel negative "/memos/a.wav" "a.wav" 104
                                  3000000000) w).1
         = [F64.div (F64.of_int 30) (F64.of_int 44100)]
      /\ F64.div (F64.of_int 30) (F64.of_int 44100) ≠ Seconds 3000000000).
Proof.
  vm_compute. repeat split; try reflexivity; discriminate.
Qed.

(** ** Where the code departs from the specification *)

(** Whatever the file, the position shown after a tick is the cursor
    divided by the constant 44100. *)
Lemma tick_position (now : Z) (m : Model) (w : World) (d : AudioDevice.t) (samples : list Z) :
  playing m = true ->
  audioDevice m = Some d ->
  AudioDevice.playbackData d = Some samples ->
  AudioDevice.playbackPos d < Z.of_nat (length samples) ->
  playbackPos (Update now tickMsg m w).1
  = F64.to_int (F64.mul (F64.div (F64.of_int (AudioDevice.playbackPos d))
                           (F64.of_int 44100)) (F64.of_int Second)).
Proof.
  intros Hp Hd Hdata Hlt. unfold Update.
  destruct (recording m); cbn; rewrite Hp, Hd, Hdata;
    (destruct (Z.leb_spec (Z.of_nat (length samples)) (AudioDevice.playbackPos d)); [lia|]);
    reflexivity.
Qed.

(** C5, the code at a file recorded at 22050 Hz.  The stream is opened at
    the file's rate, 22050 Hz; after two fill requests of 1024 slots the
    cursor is 2048, that is 92879818 ns into the file, and the tick shows
    46439909 ns: the cursor divided by 44100. *)
Theorem tick_position_uses_44100 :
  let s := startPlayback env_ok (libraryModel "tone.wav") (libraryWorld "tone.wav" tone22k) in
  let m := fills 2 1024 s.1 in
  playing m = true
  /\ streamRate m = Some (F64.of_int 22050)
  /\ cursor m = Some 2048
  /\ playbackPos (Update 100 tickMsg m s.2).1 = 46439909
  /\ F64.to_int (F64.mul (F64.div (F64.of_int 2048) (F64.of_int 22050)) (F64.of_int Second))
     = 92879818.
Proof.
  vm_compute. repeat split; reflexivity.
Qed.

(** A file that cannot be read leaves the model as it was: no playback
    session is created. *)
Lemma startPlayback_unreadable (e : Env) (m : Model) (w : World) (memo : Memo) (err : error) :
  0 <= selectedIdx m ->
  memos m !! Z.to_nat (selectedIdx m) = Some memo ->
  readWAVData (fs w) (filepath_Join (MemosPath (config m)) (Filename memo)) = inl err ->
  (startPlayback e m w).1 = m.
Proof.
  intros Hidx Hmemo Herr. unfold startPlayback.
  destruct (Z.leb_spec 0 (selectedIdx m)); [|lia].
  rewrite Hmemo, Herr. reflexivity.
Qed.

(** The magic check on the zero-padded header buffer is the magic check
    on the file itself. *)
Lemma header_buffer_magic (content : list Z) :
  let header := take 44 content ++ replicate (44 - length (take 44 content)) 0 in
  (slice 0 4 header ≠ RIFF \/ slice 8 12 header ≠ WAVE)
  <-> (take 4 content ≠ RIFF \/ slice 8 12 content ≠ WAVE).
Proof.
  intros header.
  destruct (decide (12 <= length content)%nat) as [Hlong|Hshort].
  - assert (Hsame : forall i, (i < 12)%nat -> header !! i = content !! i).
    { intros i Hi. unfold header.
      rewrite lookup_app_l by (rewrite length_take; lia).
      apply lookup_take_lt. lia. }
    rewrite (slice_ext 0 4 content header), (slice_ext 8 12 content header)
      by (intros i Hi; apply Hsame; lia).
    reflexivity.
  - assert (Hzero : header !! 11%nat = Some 0).
    { unfold header. rewrite lookup_app_r by (rewrite length_take; lia).
      apply lookup_replicate_2. rewrite length_take. lia. }
    split; intros _; right; intros Heq.
    + apply (f_equal length) in Heq. unfold slice in Heq.
      rewrite length_take, length_drop in Heq.
      change (length WAVE) with 4%nat in Heq. lia.
    + apply (f_equal (fun l => l !! 3%nat)) in Heq. unfold slice in Heq.
      rewrite lookup_take_lt, lookup_drop in Heq by lia.
      cbn [Nat.add] in Heq. rewrite Hzero in Heq. discriminate Heq.
Qed.

(** On a file that is not empty, [readWAVData] fails with "not a valid WAV
    file" exactly when the magic tags of the file are wrong. *)
Lemma readWAVData_not_wav (fs0 : gmap string (list Z)) (path : string) (content : list Z) :
  fs0 !! path = Some content ->
  content ≠ [] ->
  readWAVData fs0 path = inl ErrNotWAV
  <-> (take 4 content ≠ RIFF \/ slice 8 12 content ≠ WAVE).
Proof.
  intros Hc Hne. rewrite <- header_buffer_magic.
  unfold readWAVData, file_Read at 1. rewrite Hc.
  change (drop 0 content) with content.
  rewrite bool_decide_eq_false_2 by lia.
  rewrite bool_decide_eq_false_2
    by (rewrite length_take; destruct content; [congruence | cbn; lia]).
  unfold decodeHeader. case_bool_decide as Hmagic.
  - split; [intros _; exact Hmagic | reflexivity].
  - split; [|intros H; contradiction].
    unfold file_Read. repeat case_bool_decide; discriminate.
Qed.

(** C6, the code at a truncated file.  A header that declares 8 bytes of
    payload followed by only 2 bytes is read without error, the missing
    samples are zeros, and the playback session is created; with no payload
    byte at all the read fails and no session is created. *)
Theorem truncated_file_is_played :
  let path := filepath_Join (MemosPath (defaultConfig "/home/user")) "cut.wav" in
  let s := startPlayback env_ok (libraryModel "cut.wav") (libraryWorld "cut.wav" truncatedWav) in
  let s' := startPlayback env_ok (libraryModel "cut.wav") (libraryWorld "cut.wav" headerOnlyWav) in
  decodeHeader (take 44 truncatedWav) = inr (1, 44100, 8)
  /\ length (drop 44 truncatedWav) = 2%nat
  /\ readWAVData (fs (libraryWorld "cut.wav" truncatedWav)) path
     = inr ([1000; 0; 0; 0], 44100, 1)
  /\ playing s.1 = true /\ state s.1 = StatePlaying
  /\ AudioDevice.playbackData <$> audioDevice s.1 = Some (Some [1000; 0; 0; 0])
  /\ readWAVData (fs (libraryWorld "cut.wav" headerOnlyWav)) path = inl ErrEOF
  /\ s'.1 = libraryModel "cut.wav".
Proof.
  vm_compute. repeat split; reflexivity.
Qed.

Lemma stopRecording_idle (e : Env) (m : Model) (w : World) :
  recording (stopRecording e m w).1 = false
  /\ state (stopRecording e m w).1 = StateViewing.
Proof.
  unfold stopRecording.
  destruct (audioDevice (set_state StateViewing (set_recording false m))) as [d|] eqn:Hd.
  - destruct (AudioDevice.recordingFile d) as [f|].
    + destruct (finalizeRecording _ _ f _) as [[[filename fileSize] duration] w'].
      case_bool_decide; split; reflexivity.
    + rewrite bool_decide_eq_false_2 by (intros H; apply H; reflexivity).
      split; reflexivity.
  - rewrite bool_decide_eq_false_2 by (intros H; apply H; reflexivity).
    split; reflexivity.
Qed.

(** Every failed start leaves the model idle. *)
Lemma startRecording_failure_idle (e : Env) (m : Model) (w : World) :
  capture_ok e (config m) = false ->
  recording (startRecording e m w).1 = false
  /\ state (startRecording e m w).1 = StateViewing.
Proof.
  unfold capture_ok, chosenInputDevice, startRecording. intros Hfail.
  destruct (initialize_ok e); cbn [negb]; [|apply stopRecording_idle].
  cbn [config set_lastUpdate set_recordingTime set_state set_recording].
  destruct (match (if bool_decide (InputDevice (config m) ≠ ""%string)
                   then device_by_id e else None) with
            | Some dev => Some dev
            | None => default_device e
            end) as [dev|]; [|apply stopRecording_idle].
  destruct (create_ok e); cbn [negb]; [|apply stopRecording_idle].
  unfold os_Create, writeWAVHeader.
  destruct (header_write_ok e); [|apply stopRecording_idle].
  destruct (file_Write _ _ _) as [f w'].
  destruct (open_stream_ok e); cbn [negb]; [|apply stopRecording_idle].
  destruct (stream_start_ok e); cbn [negb]; [|apply stopRecording_idle].
  rewrite bool_decide_eq_true_2 in Hfail by (eexists; reflexivity).
  discriminate Hfail.
Qed.

(** C7, the code at two failing starts.  When the stream cannot be
    opened the model is idle again and the file is closed, but a memo of the
    44-byte file has been added and saved.  When the header cannot be written
    the model is idle and no memo is added, but the created file is still
    open, and empty. *)
Theorem failed_start_leaves_memo_or_open_file :
  let path := recordingPath env_ok (config model0) in
  let s := startRecording env_fail_open_stream model0 world0 in
  let s' := startRecording env_fail_header_write model0 world0 in
  (recording s.1 = false /\ state s.1 = StateViewing /\ open_files s.2 = []
   /\ Filename <$> memos s.1 = ["memo_2025-01-01_12-00-00.wav"%string]
   /\ Size <$> memos s.1 = [44]
   /\ metadata s.2 = memos s.1)
  /\ (recording s'.1 = false /\ state s'.1 = StateViewing /\ memos s'.1 = []
      /\ open_files s'.2 = [path] /\ fs s'.2 !! path = Some []).
Proof.
  vm_compute. repeat split; reflexivity.
Qed.

(** * Further properties of the code *)

(** ** Codec *)

Lemma readWAVData_roundtrip_witness :
  readWAVData
    {[ "a.wav"%string :=
         wavHeader 48000 2 16 (Z.of_nat (length (samplesToBytes [7; -7; 300; -300])))
         ++ samplesToBytes [7; -7; 300; -300] ]}
    "a.wav"
  = inr ([7; -7; 300; -300], 48000, 2).
Proof.
  apply readWAVData_roundtrip.
  - lia.
  - lia.
  - repeat constructor; unfold is_int16; lia.
  - vm_compute. reflexivity.
  - apply lookup_singleton_eq.
Defined.

Lemma byte_of_mod (v k : Z) : 0 <= k -> byte_of v k = (v / 2 ^ (8 * k)) mod 256.
Proof.
  intros Hk. unfold byte_of. rewrite Z.shiftr_div_pow2 by lia.
  change 255 with (Z.ones 8). rewrite Z.land_ones by lia. reflexivity.
Qed.

Lemma byte_of_is_byte (v k : Z) : 0 <= k -> is_byte (byte_of v k).
Proof.
  intros Hk. rewrite byte_of_mod by exact Hk. unfold is_byte.
  apply Z.mod_pos_bound. lia.
Qed.

Lemma PutUint16_bytes (b0 b1 : Z) :
  is_byte b0 -> is_byte b1 ->
  PutUint16 (uint16 (int16 (Uint16 [b0; b1]))) = [b0; b1].
Proof.
  intros H0 H1. rewrite Uint16_bytes by exact H0.
  unfold is_byte in *. unfold PutUint16, uint16, int16.
  rewrite !byte_of_mod by lia.
  change (2 ^ (8 * 0)) with 1. change (2 ^ (8 * 1)) with 256.
  change (2 ^ 16) with 65536. change (2 ^ 15) with 32768.
  f_equal; [|f_equal]; Z.div_mod_to_equations; lia.
Qed.

(** Decoding bytes to samples and encoding them again gives the bytes
    back, for any even number of bytes; a trailing odd byte is dropped by
    the decoder, and [n] bytes always decode to [n / 2] samples. *)
Theorem bytes_samples_bytes (b : list Z) :
  Forall is_byte b ->
  length (bytesToSamples b) = (length b / 2)%nat
  /\ Forall is_int16 (bytesToSamples b)
  /\ (Nat.Even (length b) -> samplesToBytes (bytesToSamples b) = b)
  /\ (Nat.Even (length b) -> forall x, bytesToSamples (b ++ [x]) = bytesToSamples b).
Proof.
  assert (Hpairs : forall n (l : list Z), (length l < n)%nat -> Forall is_byte l ->
    length (bytesToSamples l) = (length l / 2)%nat
    /\ Forall is_int16 (bytesToSamples l)
    /\ (Nat.Even (length l) -> samplesToBytes (bytesToSamples l) = l)
    /\ (Nat.Even (length l) -> forall x, bytesToSamples (l ++ [x]) = bytesToSamples l)).
  { induction n as [|n IH]; intros l Hn Hb; [lia|].
    destruct l as [|b0 [|b1 rest]].
    - repeat split; try reflexivity. constructor.
    - repeat split; try reflexivity; [constructor | |];
        intros [k Hk]; cbn in Hk; lia.
    - apply Forall_cons in Hb as [H0 Hb]. apply Forall_cons in Hb as [H1 Hb].
      destruct (IH rest ltac:(cbn in Hn; lia) Hb) as (Hlen & Hrange & Hrt & Hodd).
      assert (Heven : Nat.Even (length (b0 :: b1 :: rest)) -> Nat.Even (length rest)).
      { intros [k Hk]. exists (k - 1)%nat. cbn in Hk. lia. }
      cbn [bytesToSamples app]. repeat split.
      + cbn [length]. rewrite Hlen.
        change (S (S (length rest))) with (1 * 2 + length rest)%nat.
        rewrite Nat.div_add_l by lia. lia.
      + constructor; [|exact Hrange].
        unfold is_int16, int16. change (2 ^ 16) with 65536. change (2 ^ 15) with 32768.
        Z.div_mod_to_equations. lia.
      + intros He. unfold samplesToBytes in *. cbn [flat_map].
        rewrite (Hrt (Heven He)), (PutUint16_bytes b0 b1 H0 H1). reflexivity.
      + intros He x. rewrite (Hodd (Heven He) x). reflexivity. }
  intros Hb. apply (Hpairs (S (length b))); [lia | exact Hb].
Qed.

Lemma bytes_samples_bytes_witness :
  samplesToBytes (bytesToSamples [232; 3; 24; 252]) = [232; 3; 24; 252]
  /\ bytesToSamples ([232; 3; 24; 252] ++ [9]) = [1000; -1000].
Proof.
  assert (Hb : Forall is_byte [232; 3; 24; 252]).
  { repeat constructor; unfold is_byte; lia. }
  destruct (bytes_samples_bytes [232; 3; 24; 252] Hb) as (_ & _ & Hrt & Hodd).
  split.
  - apply Hrt. exists 2%nat. reflexivity.
  - rewrite Hodd by (exists 2%nat; reflexivity). reflexivity.
Defined.

Lemma PutUint16_is_byte (v : Z) : Forall is_byte (PutUint16 v).
Proof. repeat constructor; apply byte_of_is_byte; lia. Qed.

Lemma PutUint32_is_byte (v : Z) : Forall is_byte (PutUint32 v).
Proof. repeat constructor; apply byte_of_is_byte; lia. Qed.

Lemma GoInt_div_nonneg (a b : Z) :
  0 <= a < 2 ^ 63 -> 0 < b -> GoInt.div a b = a / b.
Proof.
  intros Ha Hb. unfold GoInt.div. rewrite Z.quot_div_nonneg by lia.
  apply int64_small.
  assert (0 <= a / b <= a).
  { split; [apply Z.div_pos; lia|]. apply Z.div_le_upper_bound; nia. }
  lia.
Qed.

(** The header [writeWAVHeader] writes is 44 in-range bytes carrying the
    four tags, a 16-byte PCM format chunk, and, for values that fit their
    fields, a RIFF size of 36 plus the data size, the byte rate
    sampleRate x channels x bitsPerSample / 8, the block alignment
    channels x bitsPerSample / 8 and the bits per sample. *)
Theorem wavHeader_fields (sampleRate channels bitsPerSample dataSize : Z) :
  let header := wavHeader sampleRate channels bitsPerSample dataSize in
  length header = 44%nat
  /\ Forall is_byte header
  /\ slice 0 4 header = RIFF /\ slice 8 12 header = WAVE
  /\ slice 12 16 header = fmt_ /\ slice 36 40 header = data_
  /\ Uint32 (slice 16 20 header) = 16 /\ Uint16 (slice 20 22 header) = 1
  /\ (0 <= dataSize < 2 ^ 32 - 36 -> declaredRiffSize header = 36 + dataSize)
  /\ (0 < sampleRate -> 0 <= channels -> 0 < bitsPerSample < 2 ^ 16 ->
      sampleRate * channels * bitsPerSample < 2 ^ 35 ->
      channels * bitsPerSample < 2 ^ 19 ->
      Uint32 (slice 28 32 header) = sampleRate * channels * bitsPerSample / 8
      /\ Uint16 (slice 32 34 header) = channels * bitsPerSample / 8
      /\ Uint16 (slice 34 36 header) = bitsPerSample).
Proof.
  intros header. subst header. rewrite wavHeader_layout.
  split; [reflexivity|].
  split.
  { repeat (apply Forall_app; split);
      first [apply PutUint16_is_byte | apply PutUint32_is_byte
            | repeat constructor; unfold is_byte; lia]. }
  do 4 (split; [reflexivity|]).
  split; [change (slice 16 20 _) with (PutUint32 16); apply Uint32_PutUint32|].
  split; [change (slice 20 22 _) with (PutUint16 1); apply Uint16_PutUint16|].
  split.
  { intros Hd. unfold declaredRiffSize.
    change (slice 4 8 _) with (PutUint32 (uint32 (int64 (36 + dataSize)))).
    rewrite Uint32_PutUint32. unfold uint32.
    rewrite Z.mod_mod, int64_small by lia. apply Z.mod_small. lia. }
  intros Hsr Hch Hbits Hrate Halign.
  change (slice 28 32 _)
    with (PutUint32 (uint32 (GoInt.div
            (GoInt.mul (GoInt.mul sampleRate channels) bitsPerSample) 8))).
  change (slice 32 34 _)
    with (PutUint16 (uint16 (GoInt.div (GoInt.mul channels bitsPerSample) 8))).
  change (slice 34 36 _) with (PutUint16 (uint16 bitsPerSample)).
  rewrite Uint32_PutUint32, !Uint16_PutUint16. unfold uint32, uint16, GoInt.mul.
  rewrite !Z.mod_mod by lia.
  change (2 ^ 35) with 34359738368 in Hrate. change (2 ^ 19) with 524288 in Halign.
  change (2 ^ 16) with 65536 in *.
  assert (H1 : 0 <= sampleRate * channels < 34359738368) by nia.
  rewrite (int64_small (sampleRate * channels)) by lia.
  rewrite (int64_small (sampleRate * channels * bitsPerSample)) by lia.
  rewrite (int64_small (channels * bitsPerSample)) by nia.
  rewrite !GoInt_div_nonneg by nia.
  assert (0 <= sampleRate * channels * bitsPerSample / 8 < 2 ^ 32).
  { split; [apply Z.div_pos; nia|]. apply Z.div_lt_upper_bound; lia. }
  assert (0 <= channels * bitsPerSample / 8 < 65536).
  { split; [apply Z.div_pos; nia|]. apply Z.div_lt_upper_bound; lia. }
  rewrite !Z.mod_small by lia. repeat split.
Qed.

Lemma wavHeader_fields_witness :
  declaredRiffSize (wavHeader 44100 2 16 1000) = 1036
  /\ Uint32 (slice 28 32 (wavHeader 44100 2 16 1000)) = 176400
  /\ Uint16 (slice 32 34 (wavHeader 44100 2 16 1000)) = 4.
Proof.
  pose proof (wavHeader_fields 44100 2 16 1000) as H. cbv zeta in H.
  destruct H as (_ & _ & _ & _ & _ & _ & _ & _ & Hriff & Hfmt).
  destruct Hfmt as (Hrate & Halign & _); [lia | lia | lia | lia | lia |].
  rewrite Hriff, Hrate, Halign by lia. repeat split.
Defined.

(** How [readWAVData] fails: a missing file cannot be opened, an empty
    file is an end of file, and a file that is not empty is rejected as
    "not a valid WAV file" exactly when its magic tags are wrong, however
    short it is. *)
Theorem readWAVData_failures (fs0 : gmap string (list Z)) (path : string) :
  (fs0 !! path = None -> readWAVData fs0 path = inl ErrOpen)
  /\ (fs0 !! path = Some [] -> readWAVData fs0 path = inl ErrEOF)
  /\ (forall content, fs0 !! path = Some content -> content ≠ [] ->
        (readWAVData fs0 path = inl ErrNotWAV
         <-> take 4 content ≠ RIFF \/ slice 8 12 content ≠ WAVE)
        /\ readWAVData fs0 path ≠ inl ErrOpen
        /\ readWAVData fs0 path ≠ inl ErrWrite).
Proof.
  split; [|split].
  - intros H. unfold readWAVData. rewrite H. reflexivity.
  - intros H. unfold readWAVData. rewrite H. reflexivity.
  - intros content Hc Hne. split; [apply readWAVData_not_wav; assumption|].
    unfold readWAVData, file_Read. rewrite Hc.
    change (drop 0 content) with content.
    rewrite bool_decide_eq_false_2 by lia.
    rewrite bool_decide_eq_false_2
      by (rewrite length_take; destruct content; [congruence | cbn; lia]).
    unfold decodeHeader.
    split; repeat case_bool_decide; discriminate.
Qed.

Lemma readWAVData_failures_witness :
  readWAVData {[ "x.wav"%string := [82; 73; 70; 70; 0] ]} "x.wav" = inl ErrNotWAV.
Proof.
  destruct (readWAVData_failures {[ "x.wav"%string := [82; 73; 70; 70; 0] ]} "x.wav")
    as (_ & _ & H).
  destruct (H [82; 73; 70; 70; 0]) as ([_ Hbad] & _).
  - apply lookup_singleton_eq.
  - discriminate.
  - apply Hbad. right. vm_compute. discriminate.
Defined.



(** ** Capture and playback sessions *)







Lemma stop_and_close_files (d : AudioDevice.t) (w : World) :
  fs (stop_and_close d w) = fs w
  /\ open_files (stop_and_close d w) = open_files w
  /\ metadata (stop_and_close d w) = metadata w.
Proof. unfold stop_and_close. destruct (AudioDevice.stream d); repeat split. Qed.

Lemma stopRecording_without_file (e : Env) (m : Model) (w : World) :
  (forall d, audioDevice m = Some d -> AudioDevice.recordingFile d = None) ->
  let s := stopRecording e m w in
  memos s.1 = memos m /\ fs s.2 = fs w /\ open_files s.2 = open_files w
  /\ metadata s.2 = metadata w /\ recording s.1 = false /\ state s.1 = StateViewing
  /\ audioDevice s.1 = None.
Proof.
  intros Hnone. unfold stopRecording. cbn [audioDevice set_state set_recording].
  destruct (audioDevice m) as [d|] eqn:Hd.
  - rewrite (Hnone d eq_refl).
    rewrite bool_decide_eq_false_2 by (intros H; apply H; reflexivity).
    destruct (stop_and_close_files d w) as (Hfs & Hof & Hmd).
    cbn. rewrite Hfs, Hof, Hmd. repeat split.
  - rewrite bool_decide_eq_false_2 by (intros H; apply H; reflexivity).
    cbn. rewrite Hd. repeat split.
Qed.



(** A start that fails before the audio device is assigned (the backend
    does not initialize, there is no input device, the file cannot be
    created or the header cannot be written) adds no memo and saves
    nothing; the model is idle, and no file other than the new recording's
    is touched. *)
Theorem startRecording_early_failure (e : Env) (m : Model) (w : World) :
  fails_before_device e (config m) = true ->
  (forall d, audioDevice m = Some d -> AudioDevice.recordingFile d = None) ->
  let s := startRecording e m w in
  memos s.1 = memos m /\ metadata s.2 = metadata w
  /\ recording s.1 = false /\ state s.1 = StateViewing /\ audioDevice s.1 = None
  /\ (forall p, p ≠ recordingPath e (config m) -> fs s.2 !! p = fs w !! p).
Proof.
  unfold fails_before_device, chosenInputDevice, recordingPath, recordingName.
  intros Hfail Hnone.
  assert (Hstop : forall (m' : Model) (w' : World),
            audioDevice m' = audioDevice m -> memos m' = memos m ->
            metadata w' = metadata w ->
            (forall p, p ≠ filepath_Join (MemosPath (config m))
                             (generateFilename (env_stamp e) (DefaultFormat (config m))) ->
                       fs w' !! p = fs w !! p) ->
            let s := stopRecording e m' w' in
            memos s.1 = memos m /\ metadata s.2 = metadata w
            /\ recording s.1 = false /\ state s.1 = StateViewing /\ audioDevice s.1 = None
            /\ (forall p, p ≠ filepath_Join (MemosPath (config m))
                                (generateFilename (env_stamp e) (DefaultFormat (config m))) ->
                          fs s.2 !! p = fs w !! p)).
  { intros m' w' Hdev Hmem Hmd Hfs.
    destruct (stopRecording_without_file e m' w') as (H1 & H2 & _ & H4 & H5 & H6 & H7).
    { intros d Hd. apply Hnone. rewrite <- Hdev. exact Hd. }
    cbv zeta. rewrite H1, H2, H4. repeat split; assumption. }
  unfold startRecording.
  destruct (initialize_ok e); cbn [negb andb] in *;
    [|apply Hstop; try reflexivity; intros; reflexivity].
  cbn [config set_lastUpdate set_recordingTime set_state set_recording].
  destruct (match (if bool_decide (InputDevice (config m) ≠ ""%string)
                   then device_by_id e else None) with
            | Some dev => Some dev
            | None => default_device e
            end) as [dev|];
    [|apply Hstop; try reflexivity; intros; reflexivity].
  rewrite bool_decide_eq_true_2 in Hfail by (eexists; reflexivity).
  destruct (create_ok e); cbn [negb andb] in *;
    [|apply Hstop; try reflexivity; intros; reflexivity].
  unfold os_Create, writeWAVHeader.
  destruct (header_write_ok e); [discriminate Hfail|].
  apply Hstop; try reflexivity.
  intros p Hp. cbn. apply lookup_insert_ne. congruence.
Qed.

Lemma startRecording_early_failure_witness :
  memos (startRecording env_fail_header_write model0 world0).1 = []
  /\ metadata (startRecording env_fail_header_write model0 world0).2 = [].
Proof.
  destruct (startRecording_early_failure env_fail_header_write model0 world0)
    as (H1 & H2 & _).
  - reflexivity.
  - intros d Hd. discriminate Hd.
  - split; [exact H1 | exact H2].
Defined.

Lemma startRecording_failure_idle_witness :
  recording (startRecording env_fail_open_stream model0 world0).1 = false
  /\ state (startRecording env_fail_open_stream model0 world0).1 = StateViewing.
Proof.
  apply (startRecording_failure_idle env_fail_open_stream model0 world0).
  reflexivity.
Defined.











Lemma stopPlayback_clock (m : Model) (w : World) :
  let m' := (stopPlayback m w).1 in
  recording m' = recording m /\ recordingTime m' = recordingTime m
  /\ recordingPulse m' = recordingPulse m /\ lastUpdate m' = lastUpdate m.
Proof.
  unfold stopPlayback. repeat case_match; simplify_eq; repeat split.
Qed.

Lemma Update_clock (now : Z) (msg : Msg) (m : Model) (w : World) :
  let m' := (Update now msg m w).1 in
  recording m' = recording m
  /\ match msg with
     | tickMsg =>
         lastUpdate m' = now
         /\ recordingTime m'
            = (if recording m then now - lastUpdate m + recordingTime m
               else recordingTime m)
         /\ recordingPulse m'
            = (if recording m then Z.rem (recordingPulse m + 1) 20 else recordingPulse m)
     | recordingTickMsg => m' = m
     end.
Proof.
  unfold Update. destruct msg; [|split; reflexivity].
  repeat case_match; simplify_eq;
    try (cbn; repeat split; congruence);
    match goal with
    | H : stopPlayback ?a ?b = (_, _) |- _ =>
        pose proof (stopPlayback_clock a b) as Hs; cbv zeta in Hs; rewrite H in Hs;
        cbn in Hs; destruct Hs as (Hs1 & Hs2 & Hs3 & Hs4)
    end; cbn; rewrite ?Hs1, ?Hs2, ?Hs3; repeat split; congruence.
Qed.

(** While a recording is open the elapsed time follows the clock: after
    any sequence of timer messages the recording time has grown by exactly
    the time between the last update before them and the last update after
    them, whatever the spacing of the ticks, and the animation phase stays
    in 0..19. *)
Theorem recording_time_follows_clock (msgs : list (Z * Msg)) :
  forall (m : Model) (w : World),
    recording m = true ->
    0 <= recordingPulse m < 20 ->
    let m' := (poll msgs (m, w)).1 in
    recording m' = true
    /\ recordingTime m' = recordingTime m + (lastUpdate m' - lastUpdate m)
    /\ 0 <= recordingPulse m' < 20
    /\ (forall now rest, msgs = rest ++ [(now, tickMsg)] -> lastUpdate m' = now).
Proof.
  unfold poll.
  induction msgs as [|[now msg] msgs IH] using rev_ind; intros m w Hrec Hpulse.
  - cbn. repeat split; try lia; try assumption.
    intros now rest H. destruct rest; discriminate H.
  - rewrite foldl_app. cbn [foldl fst snd].
    specialize (IH m w Hrec Hpulse). cbv zeta in IH.
    destruct (foldl _ (m, w) msgs) as [m1 w1]. cbn [fst snd] in *.
    destruct IH as (Hr1 & Ht1 & Hp1 & _).
    pose proof (Update_clock now msg m1 w1) as Hu. cbv zeta in Hu.
    destruct Hu as (Hr2 & Hu). rewrite Hr1 in *.
    destruct msg.
    + destruct Hu as (Hl & Ht & Hp). rewrite Hr2, Hl, Ht, Hp.
      split; [reflexivity|]. split; [lia|].
      split; [split; [apply Z.rem_nonneg; lia | apply Z.rem_bound_pos; lia]|].
      intros now' rest H. apply app_inj_tail in H as [_ H]. congruence.
    + rewrite Hu. split; [exact Hr1|]. split; [exact Ht1|]. split; [exact Hp1|].
      intros now' rest H. apply app_inj_tail in H as [_ H]. discriminate H.
Qed.

Lemma recording_time_follows_clock_witness :
  recordingTime
    (poll [(130, tickMsg); (131, recordingTickMsg); (400, tickMsg)]
       (startRecording env_ok model0 world0)).1 = 400.
Proof.
  destruct (recording_time_follows_clock
              [(130, tickMsg); (131, recordingTickMsg); (400, tickMsg)]
              (startRecording env_ok model0 world0).1
              (startRecording env_ok model0 world0).2)
    as (_ & Ht & _ & Hl).
  - reflexivity.
  - range_by_computation.
  - rewrite <- surjective_pairing in Ht, Hl.
    rewrite Ht, (Hl 400 [(130, tickMsg); (131, recordingTickMsg)] eq_refl).
    reflexivity.
Defined.

(** ** Playback *)

Lemma fillOutput_app (volume : float64) (samples : list Z) (n k : nat) :
  forall pos,
    fillOutput volume samples pos (n + k)
    = let '(out1, pos1) := fillOutput volume samples pos n in
      let '(out2, pos2) := fillOutput volume samples pos1 k in
      (out1 ++ out2, pos2).
Proof.
  induction n as [|n IH]; intros pos.
  - cbn. destruct (fillOutput volume samples pos k). reflexivity.
  - cbn [Nat.add fillOutput].
    destruct (pos <? Z.of_nat (length samples)).
    + rewrite IH. destruct (fillOutput volume samples (pos + 1) n) as [out1 pos1].
      destruct (fillOutput volume samples pos1 k). reflexivity.
    + rewrite IH. destruct (fillOutput volume samples pos n) as [out1 pos1].
      destruct (fillOutput volume samples pos1 k). reflexivity.
Qed.

(** Fill requests compose: one request for [n + k] slots writes what a
    request for [n] slots followed by a request for [k] slots writes, and
    leaves the same model. *)
Theorem processAudioOutput_split (n k : nat) (m : Model) :
  processAudioOutput (n + k) m
  = let r1 := processAudioOutput n m in
    let r2 := processAudioOutput k r1.2 in
    (r1.1 ++ r2.1, r2.2).
Proof.
  unfold processAudioOutput.
  destruct (audioDevice m) as [d|] eqn:Hd.
  - destruct (AudioDevice.playbackData d) as [samples|] eqn:Hdata.
    + rewrite fillOutput_app.
      destruct (fillOutput (Volume (config m)) samples (AudioDevice.playbackPos d) n)
        as [out1 pos1].
      cbn. rewrite Hdata.
      destruct (fillOutput (Volume (config m)) samples pos1 k) as [out2 pos2].
      reflexivity.
    + cbn. rewrite Hd, Hdata. cbn. rewrite replicate_add. reflexivity.
  - cbn. rewrite Hd. cbn. rewrite replicate_add. reflexivity.
Qed.

Lemma fillOutput_end (volume : float64) (samples : list Z) (k : nat) (pos : Z) :
  Z.of_nat (length samples) <= pos ->
  fillOutput volume samples pos k = (replicate k 0, pos).
Proof.
  intros Hend. induction k as [|k IH]; [reflexivity|].
  cbn [fillOutput]. destruct (Z.ltb_spec pos (Z.of_nat (length samples))); [lia|].
  rewrite IH. reflexivity.
Qed.

Lemma fillOutput_suffix (volume : float64) (suffix : list Z) :
  forall done : list Z,
    fillOutput volume (done ++ suffix) (Z.of_nat (length done)) (length suffix)
    = (scaleAll volume suffix, Z.of_nat (length (done ++ suffix))).
Proof.
  induction suffix as [|x suffix IH]; intros done.
  - cbn. rewrite app_nil_r. reflexivity.
  - cbn [length fillOutput].
    destruct (Z.ltb_spec (Z.of_nat (length done)) (Z.of_nat (length (done ++ x :: suffix))))
      as [_|Hge]; [|rewrite length_app in Hge; cbn in Hge; lia].
    rewrite Nat2Z.id, lookup_app_r, Nat.sub_diag by lia. cbn [lookup list_lookup default].
    specialize (IH (done ++ [x])).
    rewrite <- app_assoc in IH. cbn [app] in IH.
    rewrite length_app in IH. cbn [length] in IH.
    replace (Z.of_nat (length done) + 1) with (Z.of_nat (length done + 1)) by lia.
    rewrite IH. rewrite !length_app. cbn [length]. reflexivity.
Qed.

(** Nothing to play is silence: with no device or no decoded samples the
    request is filled with zeros and the model is left unchanged, and once
    the cursor has reached the end of the samples every further request is
    zeros and moves nothing. *)
Theorem processAudioOutput_silence (n : nat) (m : Model) :
  (audioDevice m = None -> processAudioOutput n m = (replicate n 0, m))
  /\ (forall d, audioDevice m = Some d -> AudioDevice.playbackData d = None ->
        processAudioOutput n m = (replicate n 0, m))
  /\ (forall d samples, audioDevice m = Some d ->
        AudioDevice.playbackData d = Some samples ->
        Z.of_nat (length samples) <= AudioDevice.playbackPos d ->
        processAudioOutput n m = (replicate n 0, m)).
Proof.
  unfold processAudioOutput. split; [|split].
  - intros ->. reflexivity.
  - intros d -> ->. reflexivity.
  - intros d samples Hd Hdata Hend. rewrite Hd, Hdata.
    rewrite fillOutput_end by exact Hend.
    destruct m, d. cbn in *. subst. reflexivity.
Qed.

Lemma processAudioOutput_silence_witness :
  processAudioOutput 4 (playbackModel vol_half [100; -200; 300] 3)
  = ([0; 0; 0; 0], playbackModel vol_half [100; -200; 300] 3).
Proof.
  destruct (processAudioOutput_silence 4 (playbackModel vol_half [100; -200; 300] 3))
    as (_ & _ & H).
  apply (H _ [100; -200; 300] eq_refl eq_refl). cbn. lia.
Defined.

Lemma int16_from_In (s lo : Z) (n : nat) :
  lo <= s < lo + Z.of_nat n -> In s (int16_from lo n).
Proof.
  revert lo. induction n as [|n IH]; intros lo Hs; [lia|].
  cbn [int16_from]. destruct (Z.eq_dec lo s) as [->|Hne]; [left; reflexivity|].
  right. apply IH. lia.
Qed.

Lemma unit_and_zero_checked :
  forallb unit_and_zero_ok (int16_from (-32768) (Z.to_nat 65536)) = true.
Proof. vm_compute. reflexivity. Qed.

Lemma scaleSample_unit_zero (s : Z) :
  is_int16 s -> scaleSample vol_one s = s /\ scaleSample vol_zero s = 0.
Proof.
  intros Hs. unfold is_int16 in Hs. change (2 ^ 15) with 32768 in Hs.
  pose proof unit_and_zero_checked as Hall.
  rewrite forallb_forall in Hall.
  specialize (Hall s (int16_from_In s (-32768) (Z.to_nat 65536) ltac:(lia))).
  unfold unit_and_zero_ok in Hall. apply andb_prop in Hall as [H1 H0].
  split; apply Z.eqb_eq; assumption.
Qed.

(** At full volume playback is exact and at volume 0 it is silent: for
    every 16-bit sample the scaled value is the sample itself at volume 1.0
    and 0 at volume 0.0, so neither the multiplication nor the conversion
    back to an integer loses anything. *)
Theorem full_volume_is_exact_and_zero_is_silent (samples : list Z) :
  Forall is_int16 samples ->
  scaleAll vol_one samples = samples
  /\ scaleAll vol_zero samples = replicate (length samples) 0.
Proof.
  unfold scaleAll. induction 1 as [|s samples Hs _ [IH1 IH0]]; [split; reflexivity|].
  destruct (scaleSample_unit_zero s Hs) as [H1 H0].
  cbn [fmap list_fmap length replicate].
  split; f_equal; assumption.
Qed.

Lemma full_volume_is_exact_and_zero_is_silent_witness :
  scaleAll vol_one [32767; -32768; 1; 0] = [32767; -32768; 1; 0].
Proof.
  apply (full_volume_is_exact_and_zero_is_silent [32767; -32768; 1; 0]).
  repeat constructor; unfold is_int16; lia.
Defined.

Lemma startPlayback_ok
    (e : Env) (m : Model) (w : World) (memo : Memo) (samples : list Z)
    (sampleRate channels : Z) :
  selectedMemo m = Some memo ->
  readWAVData (fs w) (selectedPath m memo) = inr (samples, sampleRate, channels) ->
  playback_ok e (config m) = true ->
  startPlayback e m w
  = (set_lastUpdate (env_now e)
       (set_playbackPos 0
          (set_state StatePlaying
             (set_playing true
                (set_audioDevice (Some (playDevice samples sampleRate channels)) m)))),
     Printf "Playback started"
       (pa_call (PaStart (playStream sampleRate channels))
          (pa_call (PaOpenStream (playStream sampleRate channels))
             (pa_call PaInitialize w)))).
Proof.
  unfold selectedMemo, selectedPath, playback_ok, chosenOutputDevice, startPlayback.
  intros -> Hread Hok. cbn [fs pa_call]. rewrite Hread.
  apply andb_prop in Hok as [Hok Hstart]. apply andb_prop in Hok as [Hok Hopen].
  apply andb_prop in Hok as [Hinit Hdev]. apply bool_decide_eq_true_1 in Hdev.
  rewrite Hinit, Hopen, Hstart. cbn [negb].
  destruct (match (if bool_decide (OutputDevice (config m) ≠ ""%string)
                   then device_by_id e else None) with
            | Some dev => Some dev
            | None => default_device e
            end) as [dev|]; [reflexivity|].
  destruct Hdev as [? Hdev]. discriminate Hdev.
Qed.

Lemma fillOutput_whole (volume : float64) (samples : list Z) (k : nat) :
  fillOutput volume samples 0 (length samples + k)
  = (scaleAll volume samples ++ replicate k 0, Z.of_nat (length samples)).
Proof.
  rewrite fillOutput_app.
  pose proof (fillOutput_suffix volume samples []) as H. cbn [app length] in H.
  change (Z.of_nat 0) with 0 in H. rewrite H.
  rewrite fillOutput_end by lia. reflexivity.
Qed.

(** A playback that runs to the end: after a successful start a request
    for all the samples and [k] more slots yields the decoded samples scaled
    by the volume followed by [k] zeros, and the next tick stops the
    playback, releases the device, closes the stream it opened and
    terminates the backend it initialised; no file and no memo is touched. *)
Theorem playback_runs_to_completion
    (e : Env) (m : Model) (w : World) (memo : Memo) (samples : list Z)
    (sampleRate channels now : Z) (k : nat) :
  selectedMemo m = Some memo ->
  readWAVData (fs w) (selectedPath m memo) = inr (samples, sampleRate, channels) ->
  playback_ok e (config m) = true ->
  let s1 := startPlayback e m w in
  let r := processAudioOutput (length samples + k) s1.1 in
  let s2 := Update now tickMsg r.2 s1.2 in
  playing s1.1 = true /\ cursor s1.1 = Some 0
  /\ r.1 = scaleAll (Volume (config m)) samples ++ replicate k 0
  /\ playing s2.1 = false /\ state s2.1 = StateViewing /\ audioDevice s2.1 = None
  /\ playbackPos s2.1 = 0
  /\ pa_calls s2.2
     = [PaTerminate; PaClose (playStream sampleRate channels);
        PaStop (playStream sampleRate channels);
        PaStart (playStream sampleRate channels);
        PaOpenStream (playStream sampleRate channels); PaInitialize] ++ pa_calls w
  /\ fs s2.2 = fs w /\ memos s2.1 = memos m /\ metadata s2.2 = metadata w.
Proof.
  intros Hmemo Hread Hok s1 r s2. subst s2 r s1.
  rewrite (startPlayback_ok e m w memo samples sampleRate channels Hmemo Hread Hok).
  cbn [fst snd]. unfold processAudioOutput.
  cbn [audioDevice set_lastUpdate set_playbackPos set_state set_playing set_audioDevice
       playDevice AudioDevice.playbackData AudioDevice.playbackPos config].
  rewrite fillOutput_whole. cbn [fst snd].
  split; [reflexivity|]. split; [reflexivity|]. split; [reflexivity|].
  unfold Update.
  destruct (recording m) eqn:Hrec; cbn; rewrite ?Hrec; cbn;
    rewrite Z.leb_refl; cbn; repeat split; reflexivity.
Qed.

Lemma playback_runs_to_completion_witness :
  (processAudioOutput 5 (startPlayback env_ok (libraryModel "a.wav")
                           (libraryWorld "a.wav"
                              (wavHeader 44100 1 16 6 ++ samplesToBytes [100; -200; 300]))).1).1
  = scaleAll (Volume (defaultConfig "/home/user")) [100; -200; 300] ++ [0; 0].
Proof.
  destruct (playback_runs_to_completion env_ok (libraryModel "a.wav")
              (libraryWorld "a.wav"
                 (wavHeader 44100 1 16 6 ++ samplesToBytes [100; -200; 300]))
              {| Filename := "a.wav"; Duration := F64.of_int 1; Created := 0; Size := 0;
                 Format := "WAV" |}
              [100; -200; 300] 44100 1 0 2 eq_refl)
    as (_ & _ & H & _).
  - vm_compute. reflexivity.
  - reflexivity.
  - exact H.
Defined.

Lemma Update_idle_device (now : Z) (msg : Msg) (m : Model) (w : World) :
  playing m = false -> audioDevice (Update now msg m w).1 = audioDevice m.
Proof.
  intros Hp. destruct msg; cbn [Update]; [|reflexivity].
  destruct (recording m); cbn; rewrite Hp; reflexivity.
Qed.

Lemma poll_idle_device (msgs : list (Z * Msg)) :
  forall m w, playing m = false -> audioDevice (poll msgs (m, w)).1 = audioDevice m.
Proof.
  unfold poll. induction msgs as [|[now msg] msgs IH]; intros m w Hp; cbn [foldl].
  - reflexivity.
  - cbn [fst snd]. destruct (Update_not_playing now msg m w Hp) as [Hp' _].
    pose proof (Update_idle_device now msg m w Hp) as Hd.
    destruct (Update now msg m w) as [m' w']. cbn [fst snd] in *.
    rewrite IH by exact Hp'. exact Hd.
Qed.

(** Pausing keeps the decoded samples and the cursor while timer messages
    pass, but playing again does not resume: the start sequence decodes the
    file again and replaces the device, so the cursor is back at 0, and the
    paused stream has been stopped but is never closed. *)
Theorem pause_then_play_restarts
    (e : Env) (m : Model) (w : World) (d : AudioDevice.t) (paused : Stream)
    (memo : Memo) (samples : list Z) (sampleRate channels : Z)
    (msgs : list (Z * Msg)) :
  audioDevice m = Some d ->
  AudioDevice.stream d = Some paused ->
  selectedMemo m = Some memo ->
  readWAVData (fs w) (selectedPath m memo) = inr (samples, sampleRate, channels) ->
  playback_ok e (config m) = true ->
  let s1 := poll msgs (pausePlayback m w) in
  let s2 := startPlayback e (pausePlayback m w).1 (pausePlayback m w).2 in
  playing s1.1 = false /\ audioDevice s1.1 = Some d
  /\ pa_calls s1.2 = PaStop paused :: pa_calls w
  /\ playing s2.1 = true
  /\ audioDevice s2.1 = Some (playDevice samples sampleRate channels)
  /\ cursor s2.1 = Some 0
  /\ pa_calls s2.2
     = [PaStart (playStream sampleRate channels);
        PaOpenStream (playStream sampleRate channels); PaInitialize; PaStop paused]
       ++ pa_calls w.
Proof.
  intros Hd Hs Hmemo Hread Hok s1 s2. subst s1 s2.
  unfold pausePlayback. rewrite Hd, Hs.
  set (m1 := set_state StateViewing (set_playing false m)).
  set (w1 := Printf "Playback paused" (pa_call (PaStop paused) w)).
  assert (Hp : playing m1 = false) by reflexivity.
  destruct (poll_not_playing msgs m1 w1 Hp) as [Hp' Hw'].
  split; [exact Hp'|]. split; [rewrite poll_idle_device by exact Hp; exact Hd|].
  split; [rewrite Hw'; reflexivity|]. cbn [fst snd].
  rewrite (startPlayback_ok e m1 w1 memo samples sampleRate channels Hmemo Hread Hok).
  repeat split; reflexivity.
Qed.

Lemma pause_then_play_restarts_witness :
  cursor (startPlayback env_ok
            (pausePlayback (streamingModel [100; -200; 300] 2)
               (libraryWorld "a.wav"
                  (wavHeader 44100 1 16 6 ++ samplesToBytes [100; -200; 300]))).1
            (pausePlayback (streamingModel [100; -200; 300] 2)
               (libraryWorld "a.wav"
                  (wavHeader 44100 1 16 6 ++ samplesToBytes [100; -200; 300]))).2).1
  = Some 0.
Proof.
  destruct (pause_then_play_restarts env_ok (streamingModel [100; -200; 300] 2)
              (libraryWorld "a.wav"
                 (wavHeader 44100 1 16 6 ++ samplesToBytes [100; -200; 300]))
              (AudioDevice.set_playbackPos 2 (playDevice [100; -200; 300] 44100 1))
              (playStream 44100 1)
              {| Filename := "a.wav"; Duration := F64.of_int 1; Created := 0; Size := 0;
                 Format := "WAV" |}
              [100; -200; 300] 44100 1 [] eq_refl eq_refl eq_refl)
    as (_ & _ & _ & _ & _ & H & _).
  - vm_compute. reflexivity.
  - reflexivity.
  - exact H.
Defined.








(** ** Configuration and settings *)

Lemma loadConfig_fields (homeDir : string) (c : Config) :
  let cfg := loadConfig homeDir (ConfigParsed c) in
  SampleRate cfg = (if SampleRate c <=? 0 then 44100 else SampleRate c)
  /\ ChannelCount cfg = (if ChannelCount c <=? 0 then 2 else ChannelCount c)
  /\ BitDepth cfg = (if BitDepth c <=? 0 then 2 else BitDepth c)
  /\ Volume cfg
     = (if F64_leb (Volume c) (F64.of_int 0) || F64.ltb (F64.of_int 1) (Volume c)
        then F64.of_int 1 else Volume c)
  /\ DefaultFormat cfg = DefaultFormat c /\ MemosPath cfg = MemosPath c
  /\ InputDevice cfg = InputDevice c /\ OutputDevice cfg = OutputDevice c.
Proof.
  destruct c as [fmt path inp out sr bd cc vol]. unfold loadConfig.
  cbn [SampleRate ChannelCount BitDepth Volume].
  destruct (sr <=? 0); cbn -[F64_leb Z.leb];
    destruct (cc <=? 0); cbn -[F64_leb Z.leb];
    destruct (bd <=? 0); cbn -[F64_leb Z.leb];
    destruct (F64_leb vol (F64.of_int 0) || F64.ltb (F64.of_int 1) vol);
    cbn -[F64_leb Z.leb]; repeat split; reflexivity.
Qed.

Lemma Config_ext (a b : Config) :
  DefaultFormat a = DefaultFormat b -> MemosPath a = MemosPath b ->
  InputDevice a = InputDevice b -> OutputDevice a = OutputDevice b ->
  SampleRate a = SampleRate b -> BitDepth a = BitDepth b ->
  ChannelCount a = ChannelCount b -> Volume a = Volume b -> a = b.
Proof. destruct a, b. cbn. intros. subst. reflexivity. Qed.

(** Whatever the configuration file holds, [loadConfig] returns a
    configuration with a positive sample rate, channel count and bit depth
    and a volume that is neither at or below 0 nor above 1, and a
    configuration it returned loads back unchanged. *)
Theorem loadConfig_sane (homeDir : string) (file : ConfigFile) :
  let cfg := loadConfig homeDir file in
  0 < SampleRate cfg /\ 0 < ChannelCount cfg /\ 0 < BitDepth cfg
  /\ F64_leb (Volume cfg) (F64.of_int 0) = false
  /\ F64.ltb (F64.of_int 1) (Volume cfg) = false
  /\ loadConfig homeDir (ConfigParsed cfg) = cfg.
Proof.
  intros cfg.
  assert (Hsane : 0 < SampleRate cfg /\ 0 < ChannelCount cfg /\ 0 < BitDepth cfg
                  /\ F64_leb (Volume cfg) (F64.of_int 0) = false
                  /\ F64.ltb (F64.of_int 1) (Volume cfg) = false).
  { subst cfg. destruct file as [| |c].
    - repeat split; vm_compute; reflexivity.
    - repeat split; vm_compute; reflexivity.
    - destruct (loadConfig_fields homeDir c) as (-> & -> & -> & -> & _).
      split; [destruct (Z.leb_spec (SampleRate c) 0); lia|].
      split; [destruct (Z.leb_spec (ChannelCount c) 0); lia|].
      split; [destruct (Z.leb_spec (BitDepth c) 0); lia|].
      destruct (F64_leb (Volume c) (F64.of_int 0) || F64.ltb (F64.of_int 1) (Volume c))
        eqn:Hv.
      + split; vm_compute; reflexivity.
      + apply orb_false_elim in Hv. exact Hv. }
  destruct Hsane as (Hsr & Hcc & Hbd & Hv0 & Hv1).
  repeat (split; [assumption|]).
  destruct (loadConfig_fields homeDir cfg) as (Esr & Ecc & Ebd & Ev & Ef & Ep & Ei & Eo).
  apply Config_ext; try assumption.
  - rewrite Esr. destruct (Z.leb_spec (SampleRate cfg) 0); [lia | reflexivity].
  - rewrite Ebd. destruct (Z.leb_spec (BitDepth cfg) 0); [lia | reflexivity].
  - rewrite Ecc. destruct (Z.leb_spec (ChannelCount cfg) 0); [lia | reflexivity].
  - rewrite Ev, Hv0, Hv1. reflexivity.
Qed.

Lemma clampVolume_range (volume : float64) :
  F64.ltb (clampVolume volume) (F64.of_int 0) = false
  /\ F64.ltb (F64.of_int 1) (clampVolume volume) = false.
Proof.
  unfold clampVolume.
  destruct (F64.ltb volume (F64.of_int 0)) eqn:H0; [split; vm_compute; reflexivity|].
  destruct (F64.ltb (F64.of_int 1) volume) eqn:H1; [split; vm_compute; reflexivity|].
  split; assumption.
Qed.

Lemma clampVolume_muted (volume : float64) :
  F64_leb volume (F64.of_int 0) = true ->
  F64_leb (clampVolume volume) (F64.of_int 0) = true.
Proof.
  intros Hle. unfold clampVolume.
  destruct (F64.ltb volume (F64.of_int 0)); [vm_compute; reflexivity|].
  destruct volume as [[]|[]| |[] mant ex]; vm_compute in Hle; try discriminate Hle;
    vm_compute; reflexivity.
Qed.

(** The volume setters keep the volume in range: after [setPlayerVolume]
    and after the volume case of [adjustSetting], for any step, the volume
    is neither below 0 nor above 1 and nothing but the volume has changed.
    A volume of 0 is kept by the setters but not by [loadConfig]: a
    configuration saved with a volume at or below 0 loads with volume 1.0. *)
Theorem volume_stays_in_range
    (devices : list AudioDeviceInfo.t) (volume : float64) (delta : Z) (m : Model) :
  let set := setPlayerVolume volume m in
  (exists stepped,
      adjustSetting 6 devices delta m = Some stepped
      /\ F64.ltb (getPlayerVolume stepped) (F64.of_int 0) = false
      /\ F64.ltb (F64.of_int 1) (getPlayerVolume stepped) = false
      /\ withVolume (Volume (config m)) (config stepped) = config m
      /\ set_config (config m) stepped = m)
  /\ F64.ltb (getPlayerVolume set) (F64.of_int 0) = false
  /\ F64.ltb (F64.of_int 1) (getPlayerVolume set) = false
  /\ withVolume (Volume (config m)) (config set) = config m
  /\ set_config (config m) set = m
  /\ (F64_leb volume (F64.of_int 0) = true ->
      forall homeDir,
        Volume (loadConfig homeDir (ConfigParsed (config set))) = F64.of_int 1).
Proof.
  intros set. subst set.
  assert (Hset : forall v, setPlayerVolume v m
                           = set_config (withVolume (clampVolume v) (config m)) m)
    by reflexivity.
  assert (Hframe : forall v,
             withVolume (Volume (config m))
               (config (set_config (withVolume v (config m)) m)) = config m
             /\ set_config (config m) (set_config (withVolume v (config m)) m) = m).
  { intros v. destruct m as [st [] ms idx dev rec pl rt pp rp lu]. split; reflexivity. }
  split.
  - eexists. split; [reflexivity|]. rewrite Hset.
    unfold getPlayerVolume. cbn [config set_config Volume withVolume].
    split; [apply clampVolume_range|]. split; [apply clampVolume_range|].
    apply Hframe.
  - rewrite Hset. unfold getPlayerVolume. cbn [config set_config Volume withVolume].
    split; [apply clampVolume_range|]. split; [apply clampVolume_range|].
    split; [apply Hframe|]. split; [apply Hframe|].
    intros Hle homeDir.
    destruct (loadConfig_fields homeDir (withVolume (clampVolume volume) (config m)))
      as (_ & _ & _ & -> & _).
    cbn [Volume withVolume]. rewrite (clampVolume_muted volume Hle). reflexivity.
Qed.

Lemma volume_stays_in_range_witness :
  Volume (loadConfig "/home/user"
            (ConfigParsed (config (setPlayerVolume vol_zero model0))))
  = F64.of_int 1.
Proof.
  destruct (volume_stays_in_range [] vol_zero 1 model0) as (_ & _ & _ & _ & _ & H).
  apply H. vm_compute. reflexivity.
Defined.

Lemma findIndex_range {A : Type} (p : A -> bool) (slice : list A) :
  findIndex p slice = -1 \/ 0 <= findIndex p slice < Z.of_nat (length slice).
Proof.
  induction slice as [|v rest IH]; [left; reflexivity|].
  cbn [findIndex length]. destruct (p v); [right; lia|].
  destruct (Z.ltb_spec (findIndex p rest) 0); [left; reflexivity | right; lia].
Qed.

Lemma findIndex_none {A : Type} (p : A -> bool) (slice : list A) :
  (forall v, v ∈ slice -> p v = false) -> findIndex p slice = -1.
Proof.
  induction slice as [|v rest IH]; intros Hnone; [reflexivity|].
  cbn [findIndex]. rewrite (Hnone v) by left.
  rewrite IH by (intros v' Hv'; apply Hnone; right; exact Hv'). reflexivity.
Qed.

Lemma cycle_one_step {A : Type} (slice : list A) (currentIdx delta : Z) :
  0 <= currentIdx < Z.of_nat (length slice) ->
  delta = 1 \/ delta = -1 ->
  exists v,
    slice !! Z.to_nat ((currentIdx + delta) mod Z.of_nat (length slice)) = Some v
    /\ cycle slice currentIdx delta = Some v.
Proof.
  intros Hi Hdelta. unfold cycle, index.
  set (n := Z.of_nat (length slice)) in *.
  assert (Hrem : Z.rem (currentIdx + delta + n) n = (currentIdx + delta) mod n).
  { rewrite Z.rem_mod_nonneg by lia.
    replace (currentIdx + delta + n) with (currentIdx + delta + 1 * n) by lia.
    apply Z.mod_add. lia. }
  rewrite Hrem.
  pose proof (Z.mod_pos_bound (currentIdx + delta) n ltac:(lia)) as Hbound.
  destruct (Z.leb_spec 0 ((currentIdx + delta) mod n)); [|lia].
  destruct (Z.ltb_spec ((currentIdx + delta) mod n) n); [|lia].
  cbn [andb].
  destruct (lookup_lt_is_Some_2 slice (Z.to_nat ((currentIdx + delta) mod n))
              ltac:(subst n; lia)) as [v Hv].
  exists v. split; exact Hv.
Qed.

(** One step left or right on a device setting never leaves the list:
    when the configured device is the [i]-th available one, the step selects
    the device at index [(i + delta) mod n], wrapping around at both ends,
    and no index is out of range; nothing but that device setting changes. *)
Theorem adjustSetting_device_cycles
    (devices : list AudioDeviceInfo.t) (delta : Z) (m : Model) :
  delta = 1 \/ delta = -1 ->
  (forall i, findDeviceIndex devices (InputDevice (config m)) = i -> 0 <= i ->
     exists d,
       devices !! Z.to_nat ((i + delta) mod Z.of_nat (length devices)) = Some d
       /\ adjustSetting 0 devices delta m
          = Some (set_config (withInputDevice (AudioDeviceInfo.ID d) (config m)) m))
  /\ (forall i, findDeviceIndex devices (OutputDevice (config m)) = i -> 0 <= i ->
     exists d,
       devices !! Z.to_nat ((i + delta) mod Z.of_nat (length devices)) = Some d
       /\ adjustSetting 1 devices delta m
          = Some (set_config (withOutputDevice (AudioDeviceInfo.ID d) (config m)) m)).
Proof.
  intros Hdelta. split; intros i Hi Hpos.
  - unfold adjustSetting. cbn [Z.eqb]. rewrite Hi.
    destruct (Z.leb_spec 0 i); [|lia].
    unfold findDeviceIndex in Hi.
    destruct (findIndex_range
                (fun device => bool_decide (AudioDeviceInfo.ID device = InputDevice (config m)))
                devices) as [Hnone|Hin]; [lia|].
    rewrite Hi in Hin.
    destruct (cycle_one_step devices i delta Hin Hdelta) as (d & Hd & ->).
    exists d. split; [exact Hd | reflexivity].
  - unfold adjustSetting. cbn [Z.eqb]. rewrite Hi.
    destruct (Z.leb_spec 0 i); [|lia].
    unfold findDeviceIndex in Hi.
    destruct (findIndex_range
                (fun device => bool_decide (AudioDeviceInfo.ID device = OutputDevice (config m)))
                devices) as [Hnone|Hin]; [lia|].
    rewrite Hi in Hin.
    destruct (cycle_one_step devices i delta Hin Hdelta) as (d & Hd & ->).
    exists d. split; [exact Hd | reflexivity].
Qed.

Lemma adjustSetting_device_cycles_witness :
  InputDevice <$> (config <$> adjustSetting 0 exampleDevices 1 headsetModel) = Some "0"%string.
Proof.
  destruct (adjustSetting_device_cycles exampleDevices 1 headsetModel (or_introl eq_refl))
    as [H _].
  destruct (H 2 eq_refl ltac:(lia)) as (d & Hd & ->).
  vm_compute in Hd. injection Hd as <-. reflexivity.
Defined.

Lemma findIntIndex_none (slice : list Z) (value : Z) :
  value ∉ slice -> findIntIndex slice value = -1.
Proof.
  intros Hnot. apply findIndex_none. intros v Hv.
  apply Z.eqb_neq. intros ->. apply Hnot, Hv.
Qed.

Local Ltac step_and_back Hdelta :=
  destruct Hdelta as [-> | ->]; eexists; split; reflexivity.

Local Ltac not_offered m H :=
  exists m; split; unfold adjustSetting;
  cbn [Z.eqb Pos.eqb config SampleRate BitDepth ChannelCount];
  rewrite (findIntIndex_none _ _ H); reflexivity.

(** On the sample rate, bit depth, channel count and format settings a
    step one way followed by a step the other way gives the model back:
    the offered values form a cycle, and a value that is not offered is
    left alone by both steps.  No step is out of range. *)
Theorem adjustSetting_round_trip
    (idx : Z) (devices : list AudioDeviceInfo.t) (delta : Z) (m : Model) :
  2 <= idx <= 5 ->
  delta = 1 \/ delta = -1 ->
  exists stepped,
    adjustSetting idx devices delta m = Some stepped
    /\ adjustSetting idx devices (- delta) stepped = Some m.
Proof.
  intros Hidx Hdelta.
  destruct m as [st [fmt path inp out sr bd cc vol] ms sel dev rec pl rt pp rp lu].
  assert (Hcases : idx = 2 \/ idx = 3 \/ idx = 4 \/ idx = 5) by lia.
  destruct Hcases as [-> | [-> | [-> | ->]]].
  - destruct (decide (sr ∈ [22050; 44100; 48000; 96000])) as [Hin|Hout].
    + rewrite !elem_of_cons, elem_of_nil in Hin.
      destruct Hin as [-> | [-> | [-> | [-> | []]]]]; step_and_back Hdelta.
    + match goal with |- context [adjustSetting _ _ _ ?m0] => not_offered m0 Hout end.
  - destruct (decide (bd ∈ [16; 24; 32])) as [Hin|Hout].
    + rewrite !elem_of_cons, elem_of_nil in Hin.
      destruct Hin as [-> | [-> | [-> | []]]]; step_and_back Hdelta.
    + match goal with |- context [adjustSetting _ _ _ ?m0] => not_offered m0 Hout end.
  - destruct (decide (cc ∈ [1; 2])) as [Hin|Hout].
    + rewrite !elem_of_cons, elem_of_nil in Hin.
      destruct Hin as [-> | [-> | []]]; step_and_back Hdelta.
    + match goal with |- context [adjustSetting _ _ _ ?m0] => not_offered m0 Hout end.
  - destruct fmt; step_and_back Hdelta.
Qed.

Lemma adjustSetting_round_trip_witness :
  exists stepped,
    adjustSetting 2 [] 1 model0 = Some stepped
    /\ SampleRate (config stepped) = 48000
    /\ adjustSetting 2 [] (-1) stepped = Some model0.
Proof.
  destruct (adjustSetting_round_trip 2 [] 1 model0 ltac:(lia) (or_introl eq_refl))
    as (stepped & Hstep & Hback).
  exists stepped. split; [exact Hstep|]. split; [|exact Hback].
  vm_compute in Hstep. injection Hstep as <-. reflexivity.
Defined.

(** A setting whose current value is not among the offered ones cannot be
    changed from the settings screen: with a configured device that is not
    in the list of available devices, or a sample rate, bit depth or
    channel count outside the offered values, every step in either
    direction leaves the model as it is.  The default bit depth, 2, is such
    a value. *)
Theorem adjustSetting_unknown_value_is_stuck
    (idx : Z) (devices : list AudioDeviceInfo.t) (delta : Z) (m : Model) :
  (idx = 0 /\ forall d, d ∈ devices -> AudioDeviceInfo.ID d ≠ InputDevice (config m))
  \/ (idx = 1 /\ forall d, d ∈ devices -> AudioDeviceInfo.ID d ≠ OutputDevice (config m))
  \/ (idx = 2 /\ SampleRate (config m) ∉ [22050; 44100; 48000; 96000])
  \/ (idx = 3 /\ BitDepth (config m) ∉ [16; 24; 32])
  \/ (idx = 4 /\ ChannelCount (config m) ∉ [1; 2]) ->
  adjustSetting idx devices delta m = Some m.
Proof.
  pose proof findIntIndex_none as Hint.
  assert (Hdev : forall id,
             (forall d, d ∈ devices -> AudioDeviceInfo.ID d ≠ id) ->
             findDeviceIndex devices id = -1).
  { intros id Hnot. apply findIndex_none. intros d Hd.
    apply bool_decide_eq_false_2, Hnot, Hd. }
  intros [[-> H] | [[-> H] | [[-> H] | [[-> H] | [-> H]]]]]; unfold adjustSetting; cbn [Z.eqb Pos.eqb].
  - rewrite (Hdev _ H). reflexivity.
  - rewrite (Hdev _ H). reflexivity.
  - rewrite (Hint _ _ H). reflexivity.
  - rewrite (Hint _ _ H). reflexivity.
  - rewrite (Hint _ _ H). reflexivity.
Qed.

Lemma adjustSetting_unknown_value_is_stuck_witness :
  adjustSetting 3 exampleDevices 1 (initialModel (defaultConfig "/home/user") [] 0)
  = Some (initialModel (defaultConfig "/home/user") [] 0).
Proof.
  apply adjustSetting_unknown_value_is_stuck.
  right. right. right. left. split; [reflexivity|].
  cbn. rewrite !elem_of_cons, elem_of_nil. lia.
Defined.

Lemma find_guard {A : Type} (p : A -> bool) (b : bool) (l : list A) :
  List.find (fun x => p x && b) l = if b then List.find p l else None.
Proof.
  induction l as [|x l IH]; [destruct b; reflexivity|].
  cbn [List.find]. rewrite IH. destruct b; [rewrite andb_true_r | rewrite andb_false_r];
    reflexivity.
Qed.

Lemma setDefaultDevices_fields (devices : list AudioDeviceInfo.t) (cfg : Config) :
  let cfg' := setDefaultDevices devices cfg in
  InputDevice cfg'
  = (if bool_decide (InputDevice cfg = ""%string)
     then from_option AudioDeviceInfo.ID ""%string
            (List.find AudioDeviceInfo.IsInput devices)
     else InputDevice cfg)
  /\ OutputDevice cfg'
     = (if bool_decide (OutputDevice cfg = ""%string)
        then from_option AudioDeviceInfo.ID ""%string
               (List.find AudioDeviceInfo.IsOutput devices)
        else OutputDevice cfg)
  /\ DefaultFormat cfg' = DefaultFormat cfg /\ MemosPath cfg' = MemosPath cfg
  /\ SampleRate cfg' = SampleRate cfg /\ BitDepth cfg' = BitDepth cfg
  /\ ChannelCount cfg' = ChannelCount cfg /\ Volume cfg' = Volume cfg.
Proof.
  unfold setDefaultDevices. cbv zeta. rewrite !find_guard.
  destruct cfg as [fmt path inp out sr bd cc vol]. cbn [InputDevice OutputDevice].
  destruct (bool_decide (inp = ""%string)) eqn:Hinp;
    destruct (List.find AudioDeviceInfo.IsInput devices) as [di|];
    cbn [withInputDevice OutputDevice];
    destruct (bool_decide (out = ""%string)) eqn:Hout;
    destruct (List.find AudioDeviceInfo.IsOutput devices) as [do|];
    try (apply bool_decide_eq_true_1 in Hinp; subst inp);
    try (apply bool_decide_eq_true_1 in Hout; subst out);
    repeat split; reflexivity.
Qed.

Lemma first_device_is_listed (p : AudioDeviceInfo.t -> bool)
    (devices : list AudioDeviceInfo.t) :
  from_option AudioDeviceInfo.ID ""%string (List.find p devices) ≠ ""%string ->
  exists d, d ∈ devices /\ p d = true
            /\ from_option AudioDeviceInfo.ID ""%string (List.find p devices)
               = AudioDeviceInfo.ID d.
Proof.
  destruct (List.find p devices) as [d|] eqn:Hfind; cbn [from_option]; [|congruence].
  intros _. apply find_some in Hfind as [Hin Hp].
  exists d. split; [apply list_elem_of_In; exact Hin|]. split; [exact Hp | reflexivity].
Qed.

Lemma default_choice (old new found : string) :
  new = (if bool_decide (old = ""%string) then found else old) ->
  (old ≠ ""%string -> new = old)
  /\ (new ≠ old -> old = ""%string /\ new = found /\ found ≠ ""%string)
  /\ (if bool_decide (new = ""%string) then found else new) = new.
Proof.
  intros ->. destruct (decide (old = ""%string)) as [->|Hset].
  - rewrite bool_decide_eq_true_2 by reflexivity.
    split; [congruence|]. split; [intros Hne; repeat split; congruence|].
    case_bool_decide; congruence.
  - rewrite !bool_decide_eq_false_2 by exact Hset.
    split; [reflexivity|]. split; [congruence | reflexivity].
Qed.

(** [setDefaultDevices] only fills in what is missing: a configured input
    or output device is never overwritten, a device it does set is an
    input (output) device from the detected list, no other setting is
    touched, and running it a second time changes nothing. *)
Theorem setDefaultDevices_keeps_choices (devices : list AudioDeviceInfo.t) (cfg : Config) :
  let cfg' := setDefaultDevices devices cfg in
  (InputDevice cfg ≠ ""%string -> InputDevice cfg' = InputDevice cfg)
  /\ (OutputDevice cfg ≠ ""%string -> OutputDevice cfg' = OutputDevice cfg)
  /\ (InputDevice cfg' ≠ InputDevice cfg ->
      exists d, d ∈ devices /\ AudioDeviceInfo.IsInput d = true
                /\ InputDevice cfg' = AudioDeviceInfo.ID d)
  /\ (OutputDevice cfg' ≠ OutputDevice cfg ->
      exists d, d ∈ devices /\ AudioDeviceInfo.IsOutput d = true
                /\ OutputDevice cfg' = AudioDeviceInfo.ID d)
  /\ withOutputDevice (OutputDevice cfg) (withInputDevice (InputDevice cfg) cfg') = cfg
  /\ setDefaultDevices devices cfg' = cfg'.
Proof.
  intros cfg'.
  destruct (setDefaultDevices_fields devices cfg)
    as (Hi & Ho & Hf & Hp & Hsr & Hbd & Hcc & Hv).
  fold cfg' in Hi, Ho, Hf, Hp, Hsr, Hbd, Hcc, Hv.
  destruct (default_choice _ _ _ Hi) as (Hi1 & Hi2 & Hi3).
  destruct (default_choice _ _ _ Ho) as (Ho1 & Ho2 & Ho3).
  split; [exact Hi1|]. split; [exact Ho1|].
  split.
  { intros Hne. destruct (Hi2 Hne) as (_ & -> & Hfound).
    apply first_device_is_listed, Hfound. }
  split.
  { intros Hne. destruct (Ho2 Hne) as (_ & -> & Hfound).
    apply first_device_is_listed, Hfound. }
  split.
  { apply Config_ext; cbn [withOutputDevice withInputDevice DefaultFormat MemosPath
                            InputDevice OutputDevice SampleRate BitDepth ChannelCount
                            Volume]; congruence. }
  destruct (setDefaultDevices_fields devices cfg')
    as (Hi' & Ho' & Hf' & Hp' & Hsr' & Hbd' & Hcc' & Hv').
  apply Config_ext; try assumption.
  - rewrite Hi'. exact Hi3.
  - rewrite Ho'. exact Ho3.
Qed.

Lemma setDefaultDevices_keeps_choices_witness :
  OutputDevice (setDefaultDevices exampleDevices
                  (withOutputDevice "9" (defaultConfig "/home/user")))
  = OutputDevice (withOutputDevice "9" (defaultConfig "/home/user")).
Proof.
  destruct (setDefaultDevices_keeps_choices exampleDevices
              (withOutputDevice "9" (defaultConfig "/home/user")))
    as (_ & Hout & _).
  apply Hout. discriminate.
Defined.

(** ** The memo collection *)

Lemma index_Some {A : Type} (slice : list A) (i : Z) (x : A) :
  0 <= i -> slice !! Z.to_nat i = Some x -> index slice i = Some x.
Proof.
  intros Hi Hx. unfold index.
  pose proof (lookup_lt_Some _ _ _ Hx) as Hlt.
  destruct (Z.leb_spec 0 i); [|lia].
  destruct (Z.ltb_spec i (Z.of_nat (length slice))); [exact Hx | lia].
Qed.

Lemma removeFirst_at (l : list Library.Entry) :
  forall (i : nat) (x : Library.Entry),
    NoDup (Library.ID <$> l) -> l !! i = Some x ->
    Library.removeFirst (Library.ID x) l = delete i l.
Proof.
  induction l as [|y l IH]; intros i x Hnd Hx; [discriminate Hx|].
  cbn [fmap list_fmap] in Hnd. apply NoDup_cons in Hnd as [Hy Hnd].
  destruct i as [|i]; cbn [Library.removeFirst].
  - injection Hx as ->. rewrite bool_decide_eq_true_2 by reflexivity. reflexivity.
  - cbn in Hx. rewrite bool_decide_eq_false_2.
    + cbn [delete list_delete]. f_equal. apply IH; assumption.
    + intros Heq. apply Hy. rewrite Heq.
      apply list_elem_of_fmap. exists x. split; [reflexivity|].
      eapply list_elem_of_lookup_2, Hx.
Qed.

Lemma updateFirst_at (f : Library.Entry -> Library.Entry) (l : list Library.Entry) :
  forall (i : nat) (x : Library.Entry),
    NoDup (Library.ID <$> l) -> l !! i = Some x ->
    Library.updateFirst (Library.ID x) f l = <[i := f x]> l.
Proof.
  induction l as [|y l IH]; intros i x Hnd Hx; [discriminate Hx|].
  cbn [fmap list_fmap] in Hnd. apply NoDup_cons in Hnd as [Hy Hnd].
  destruct i as [|i]; cbn [Library.updateFirst].
  - injection Hx as ->. rewrite bool_decide_eq_true_2 by reflexivity. reflexivity.
  - cbn in Hx. rewrite bool_decide_eq_false_2.
    + cbn [insert list_insert]. f_equal. apply IH; assumption.
    + intros Heq. apply Hy. rewrite Heq.
      apply list_elem_of_fmap. exists x. split; [reflexivity|].
      eapply list_elem_of_lookup_2, Hx.
Qed.

(** Deleting with distinct memo IDs removes exactly the selected memo:
    the other memos keep their order, the selected memo's file is removed
    and no other file, the saved collection is the new list, and the
    selection stays where it was, or moves to the new last memo when the
    last one was deleted, so that it is valid whenever memos remain. *)
Theorem deleteMemo_removes_selected (s : Library.State) (x : Library.Entry) :
  NoDup (Library.ID <$> Library.memos s) ->
  0 <= Library.selectedIdx s ->
  Library.memos s !! Z.to_nat (Library.selectedIdx s) = Some x ->
  exists s',
    Library.deleteMemo s = Some s'
    /\ Library.memos s' = delete (Z.to_nat (Library.selectedIdx s)) (Library.memos s)
    /\ Library.saved s' = Library.memos s'
    /\ Library.files s'
       = delete (filepath_Join (Library.memosPath s) (Filename (Library.memo x)))
           (Library.files s)
    /\ Library.memosPath s' = Library.memosPath s
    /\ (Library.selectedIdx s < Z.of_nat (length (Library.memos s)) - 1 ->
        Library.selectedIdx s' = Library.selectedIdx s)
    /\ (Library.selectedIdx s = Z.of_nat (length (Library.memos s)) - 1 ->
        Library.selectedIdx s' = Z.max 0 (Library.selectedIdx s - 1))
    /\ (Library.memos s' ≠ [] ->
        is_Some (Library.memos s' !! Z.to_nat (Library.selectedIdx s'))).
Proof.
  intros Hnd Hpos Hx.
  pose proof (lookup_lt_Some _ _ _ Hx) as Hlt.
  unfold Library.deleteMemo.
  destruct (Z.eqb_spec (Z.of_nat (length (Library.memos s))) 0) as [Hz|_]; [lia|].
  rewrite (index_Some _ _ _ Hpos Hx). cbn [mbind option_bind].
  rewrite (removeFirst_at _ _ _ Hnd Hx).
  assert (Hlen : length (delete (Z.to_nat (Library.selectedIdx s)) (Library.memos s))
                 = (length (Library.memos s) - 1)%nat).
  { rewrite length_delete by (eexists; exact Hx). reflexivity. }
  eexists. split; [reflexivity|].
  cbn [Library.memos Library.saved Library.files Library.memosPath Library.selectedIdx].
  rewrite Hlen.
  repeat (split; [reflexivity|]).
  split; [|split].
  - intros Hin. destruct (Z.leb_spec (Z.of_nat (length (Library.memos s) - 1))
                            (Library.selectedIdx s)); [lia|].
    destruct (Z.ltb_spec (Library.selectedIdx s) 0); [lia | reflexivity].
  - intros Hlast. destruct (Z.leb_spec (Z.of_nat (length (Library.memos s) - 1))
                              (Library.selectedIdx s)); [|lia].
    destruct (Z.ltb_spec (Z.of_nat (length (Library.memos s) - 1) - 1) 0); lia.
  - intros Hne. apply lookup_lt_is_Some_2. rewrite Hlen.
    assert (length (Library.memos s) - 1 ≠ 0)%nat.
    { intros Hzero. apply Hne. apply nil_length_inv. rewrite Hlen. exact Hzero. }
    destruct (Z.leb_spec (Z.of_nat (length (Library.memos s) - 1))
                (Library.selectedIdx s)).
    + destruct (Z.ltb_spec (Z.of_nat (length (Library.memos s) - 1) - 1) 0); lia.
    + destruct (Z.ltb_spec (Library.selectedIdx s) 0); lia.
Qed.

Lemma deleteMemo_removes_selected_witness :
  exists s',
    Library.deleteMemo exampleLibrary = Some s'
    /\ Library.Name <$> Library.memos s' = ["Monday"; "Tuesday"]%string
    /\ Library.selectedIdx s' = 1.
Proof.
  destruct (deleteMemo_removes_selected exampleLibrary
              (exampleEntry "3" "Wednesday" "c.wav" ["idea"; "work"]%string))
    as (s' & Hdel & Hmemos & _ & _ & _ & _ & Hlast & _).
  - apply (bool_decide_unpack _). vm_compute. exact I.
  - cbn. lia.
  - reflexivity.
  - exists s'. split; [exact Hdel|]. split; [rewrite Hmemos; reflexivity|].
    rewrite Hlast; reflexivity.
Defined.

Lemma IDs_insert (l : list Library.Entry) (i : nat) (x x' : Library.Entry) :
  l !! i = Some x -> Library.ID x' = Library.ID x ->
  Library.ID <$> <[i := x']> l = Library.ID <$> l.
Proof.
  intros Hx Hid. rewrite list_fmap_insert, Hid.
  apply list_insert_id. rewrite list_lookup_fmap, Hx. reflexivity.
Qed.

Lemma updated_selected (f : Library.Entry -> Library.Entry) (l : list Library.Entry)
    (i : nat) (x : Library.Entry) :
  Library.ID (f x) = Library.ID x -> f (f x) = f x ->
  NoDup (Library.ID <$> l) -> l !! i = Some x ->
  Library.updateFirst (Library.ID x) f (<[i := f x]> l) = <[i := f x]> l.
Proof.
  intros Hid Hidem Hnd Hx.
  assert (Hx' : <[i := f x]> l !! i = Some (f x)).
  { apply list_lookup_insert_eq. eapply lookup_lt_Some, Hx. }
  rewrite <- Hid.
  rewrite (updateFirst_at f (<[i := f x]> l) i (f x)).
  - rewrite Hidem. rewrite list_insert_insert_eq. reflexivity.
  - rewrite (IDs_insert l i x (f x) Hx Hid). exact Hnd.
  - exact Hx'.
Qed.

(** Renaming with distinct memo IDs changes the name of the selected memo
    and nothing else: every other memo, the selection and the files are as
    before, the saved collection is the new list, renaming again to the same
    name changes nothing, and an empty name is ignored. *)
Theorem renameMemo_renames_selected
    (newName : string) (s : Library.State) (x : Library.Entry) :
  NoDup (Library.ID <$> Library.memos s) ->
  0 <= Library.selectedIdx s ->
  Library.memos s !! Z.to_nat (Library.selectedIdx s) = Some x ->
  newName ≠ ""%string ->
  exists s',
    Library.renameMemo newName s = Some s'
    /\ Library.memos s'
       = <[Z.to_nat (Library.selectedIdx s) := Library.set_Name newName x]>
           (Library.memos s)
    /\ Library.saved s' = Library.memos s'
    /\ Library.files s' = Library.files s
    /\ Library.selectedIdx s' = Library.selectedIdx s
    /\ Library.memosPath s' = Library.memosPath s
    /\ Library.renameMemo newName s' = Some s'
    /\ Library.renameMemo "" s = Some s.
Proof.
  intros Hnd Hpos Hx Hname.
  pose proof (lookup_lt_Some _ _ _ Hx) as Hlt.
  assert (Hstep : forall t y,
             NoDup (Library.ID <$> Library.memos t) ->
             0 <= Library.selectedIdx t ->
             Library.memos t !! Z.to_nat (Library.selectedIdx t) = Some y ->
             Library.renameMemo newName t
             = Some (Library.save
                       (Library.set_memos
                          (<[Z.to_nat (Library.selectedIdx t) := Library.set_Name newName y]>
                             (Library.memos t)) t))).
  { intros t y Hndt Hpost Hy.
    pose proof (lookup_lt_Some _ _ _ Hy) as Hlty.
    unfold Library.renameMemo.
    destruct (Z.ltb_spec 0 (Z.of_nat (length (Library.memos t)))); [|lia].
    rewrite bool_decide_eq_true_2 by exact Hname. cbn [andb].
    rewrite (index_Some _ _ _ Hpost Hy). cbn [mbind option_bind].
    rewrite (updated_selected (Library.set_Name newName) (Library.memos t)
               (Z.to_nat (Library.selectedIdx t)) y eq_refl eq_refl Hndt Hy).
    reflexivity. }
  eexists. split; [apply (Hstep s x); assumption|].
  cbn [Library.save Library.set_memos Library.memos Library.saved Library.files
       Library.selectedIdx Library.memosPath].
  repeat (split; [reflexivity|]).
  split.
  - rewrite (Hstep _ (Library.set_Name newName x)).
    + cbn [Library.save Library.set_memos Library.memos Library.saved Library.files
           Library.selectedIdx Library.memosPath].
      rewrite list_insert_insert_eq. reflexivity.
    + cbn [Library.save Library.set_memos Library.memos].
      rewrite (IDs_insert _ _ x (Library.set_Name newName x) Hx eq_refl). exact Hnd.
    + exact Hpos.
    + cbn [Library.save Library.set_memos Library.memos Library.selectedIdx].
      apply list_lookup_insert_eq. exact Hlt.
  - unfold Library.renameMemo. rewrite bool_decide_eq_false_2 by (intros H; apply H; reflexivity).
    rewrite andb_false_r. reflexivity.
Qed.

Lemma renameMemo_renames_selected_witness :
  exists s',
    Library.renameMemo "Midweek" exampleLibrary = Some s'
    /\ Library.Name <$> Library.memos s' = ["Monday"; "Tuesday"; "Midweek"]%string.
Proof.
  destruct (renameMemo_renames_selected "Midweek" exampleLibrary
              (exampleEntry "3" "Wednesday" "c.wav" ["idea"; "work"]%string))
    as (s' & Hren & Hmemos & _).
  - apply (bool_decide_unpack _). vm_compute. exact I.
  - cbn. lia.
  - reflexivity.
  - discriminate.
  - exists s'. split; [exact Hren|]. rewrite Hmemos. reflexivity.
Defined.

(** Tagging with distinct memo IDs appends the tag to the selected memo
    unless it is there already: the tag is then among the memo's tags, a
    duplicate-free tag list stays duplicate-free, no other memo, file or the
    selection changes, adding the same tag again changes nothing, and an
    empty tag is ignored. *)
Theorem addTag_adds_once (tag : string) (s : Library.State) (x : Library.Entry) :
  NoDup (Library.ID <$> Library.memos s) ->
  0 <= Library.selectedIdx s ->
  Library.memos s !! Z.to_nat (Library.selectedIdx s) = Some x ->
  tag ≠ ""%string ->
  exists s',
    Library.addTag tag s = Some s'
    /\ Library.memos s'
       = <[Z.to_nat (Library.selectedIdx s)
           := Library.set_Tags (withTag tag (Library.Tags x)) x]> (Library.memos s)
    /\ tag ∈ withTag tag (Library.Tags x)
    /\ (NoDup (Library.Tags x) -> NoDup (withTag tag (Library.Tags x)))
    /\ Library.files s' = Library.files s
    /\ Library.selectedIdx s' = Library.selectedIdx s
    /\ Library.memosPath s' = Library.memosPath s
    /\ Library.addTag tag s' = Some s'
    /\ Library.addTag "" s = Some s.
Proof.
  intros Hnd Hpos Hx Htag.
  pose proof (lookup_lt_Some _ _ _ Hx) as Hlt.
  assert (Hguard : (0 <? Z.of_nat (length (Library.memos s)))
                   && bool_decide (tag ≠ ""%string) = true).
  { rewrite bool_decide_eq_true_2 by exact Htag.
    destruct (Z.ltb_spec 0 (Z.of_nat (length (Library.memos s)))); [reflexivity | lia]. }
  assert (Hempty : Library.addTag "" s = Some s).
  { unfold Library.addTag.
    rewrite bool_decide_eq_false_2 by (intros H; apply H; reflexivity).
    rewrite andb_false_r. reflexivity. }
  unfold withTag. destruct (decide (tag ∈ Library.Tags x)) as [Hin|Hnew].
  - rewrite bool_decide_eq_true_2 by exact Hin.
    assert (Hsame : Library.addTag tag s = Some s).
    { unfold Library.addTag. rewrite Hguard.
      rewrite (index_Some _ _ _ Hpos Hx). cbn [mbind option_bind].
      rewrite bool_decide_eq_true_2 by exact Hin. reflexivity. }
    exists s. split; [exact Hsame|].
    split; [destruct x; cbn; symmetry; apply list_insert_id; exact Hx|].
    split; [exact Hin|]. split; [intros H; exact H|].
    repeat (split; [reflexivity|]). split; [exact Hsame | exact Hempty].
  - rewrite bool_decide_eq_false_2 by exact Hnew.
    set (f := Library.set_Tags (Library.Tags x ++ [tag])).
    eexists. split.
    { unfold Library.addTag. rewrite Hguard.
      rewrite (index_Some _ _ _ Hpos Hx). cbn [mbind option_bind].
      rewrite bool_decide_eq_false_2 by exact Hnew.
      fold f.
      rewrite (updated_selected f (Library.memos s) (Z.to_nat (Library.selectedIdx s)) x
                 eq_refl eq_refl Hnd Hx).
      reflexivity. }
    cbn [Library.save Library.set_memos Library.memos Library.saved Library.files
         Library.selectedIdx Library.memosPath].
    split; [reflexivity|].
    split; [apply elem_of_app; right; apply list_elem_of_singleton; reflexivity|].
    split.
    { intros Hnodup. apply NoDup_app. split; [exact Hnodup|].
      split; [|apply NoDup_singleton].
      intros t Ht Ht'. apply list_elem_of_singleton in Ht'. subst t. exact (Hnew Ht). }
    repeat (split; [reflexivity|]).
    split; [|exact Hempty].
    unfold Library.addTag.
    cbn [Library.save Library.set_memos Library.memos Library.saved Library.files
         Library.selectedIdx Library.memosPath].
    rewrite length_insert, Hguard.
    erewrite index_Some; [|exact Hpos|apply list_lookup_insert_eq; exact Hlt].
    cbn [mbind option_bind].
    rewrite bool_decide_eq_true_2; [reflexivity|].
    cbn [f Library.set_Tags Library.Tags].
    apply elem_of_app; right; apply list_elem_of_singleton; reflexivity.
Qed.

Lemma addTag_adds_once_witness :
  exists s',
    Library.addTag "todo" exampleLibrary = Some s'
    /\ Library.Tags <$> Library.memos s'
       = [["work"]; []; ["idea"; "work"; "todo"]]%string.
Proof.
  destruct (addTag_adds_once "todo" exampleLibrary
              (exampleEntry "3" "Wednesday" "c.wav" ["idea"; "work"]%string))
    as (s' & Hadd & Hmemos & _).
  - apply (bool_decide_unpack _). vm_compute. exact I.
  - cbn. lia.
  - reflexivity.
  - discriminate.
  - exists s'. split; [exact Hadd|]. rewrite Hmemos. reflexivity.
Defined.

(** ** File helpers *)

Lemma readWAVData_same_content
    (files files' : gmap string (list Z)) (path path' : string) :
  files' !! path' = files !! path ->
  readWAVData files' path' = readWAVData files path.
Proof. intros H. unfold readWAVData. rewrite H. reflexivity. Qed.

(** A copy never damages anything but its destination: when the source
    is missing or the destination cannot be created the files are left as
    they were and an error is returned; otherwise, for a destination other
    than the source, the destination holds the source's bytes and decodes
    to the same audio, and every other file, the source included, is
    unchanged. *)
Theorem copyFile_copies (ok : bool) (src dst : string) (files : gmap string (list Z)) :
  let r := copyFile ok src dst files in
  (files !! src = None \/ ok = false -> r = (Some ErrOpen, files))
  /\ (forall content,
        files !! src = Some content -> ok = true -> src ≠ dst ->
        r.1 = None
        /\ r.2 !! dst = Some content
        /\ (forall path, path ≠ dst -> r.2 !! path = files !! path)
        /\ readWAVData r.2 dst = readWAVData files src).
Proof.
  intros r. subst r. unfold copyFile. split.
  - intros [Hmissing| ->]; [rewrite Hmissing; reflexivity|].
    destruct (files !! src); reflexivity.
  - intros content Hsrc -> Hne. rewrite Hsrc. cbn [negb fst snd].
    assert (Hin : <[dst := []]> files !! src = Some content)
      by (rewrite lookup_insert_ne; [exact Hsrc | congruence]).
    rewrite Hin. cbn [default from_option].
    assert (Hdst : <[dst := content]> (<[dst := []]> files) !! dst = Some content)
      by apply lookup_insert_eq.
    split; [reflexivity|]. split; [exact Hdst|]. split.
    + intros path Hpath. rewrite !lookup_insert_ne by congruence. reflexivity.
    + apply readWAVData_same_content. cbn [snd]. rewrite Hsrc. exact Hdst.
Qed.

Lemma copyFile_copies_witness :
  readWAVData
    (copyFile true "/home/user/.voicelog/memos/a.wav" "/home/user/Downloads/export_a.wav"
       (fs (libraryWorld "a.wav" tone22k))).2
    "/home/user/Downloads/export_a.wav"
  = readWAVData (fs (libraryWorld "a.wav" tone22k)) "/home/user/.voicelog/memos/a.wav".
Proof.
  destruct (copyFile_copies true "/home/user/.voicelog/memos/a.wav"
              "/home/user/Downloads/export_a.wav" (fs (libraryWorld "a.wav" tone22k)))
    as [_ H].
  destruct (H tone22k) as (_ & _ & _ & Hread).
  - vm_compute. reflexivity.
  - reflexivity.
  - discriminate.
  - exact Hread.
Defined.

Lemma String_length_app (a b : string) :
  String.length (a +:+ b) = (String.length a + String.length b)%nat.
Proof.
  induction a as [|c a IH]; [reflexivity|].
  change (String c a +:+ b) with (String c (a +:+ b)). cbn [String.length Nat.add].
  f_equal. exact IH.
Qed.

Lemma String_length_prefix (text : string) :
  forall n, (n <= String.length text)%nat ->
            String.length (String.substring 0 n text) = n.
Proof.
  induction text as [|c text IH]; intros n Hn.
  - cbn in Hn. destruct n; [reflexivity | lia].
  - destruct n as [|n]; [reflexivity|]. cbn in Hn |- *. f_equal. apply IH. lia.
Qed.

Lemma String_prefix_app (text : string) :
  forall n, (n <= String.length text)%nat ->
            exists rest, text = String.substring 0 n text +:+ rest.
Proof.
  induction text as [|c text IH]; intros n Hn.
  - cbn in Hn. destruct n; [exists ""%string; reflexivity | lia].
  - destruct n as [|n]; [exists (String c text); reflexivity|].
    cbn in Hn. destruct (IH n ltac:(lia)) as [rest Hrest].
    exists rest. cbn [String.substring].
    change (String c ?a +:+ rest) with (String c (a +:+ rest)). f_equal. exact Hrest.
Qed.

(** A truncated text fits: for a limit of at least 3 the result is never
    longer than the limit; a text within the limit is returned as it is, and
    a longer one becomes its first [maxLength - 3] bytes followed by three
    dots, of length exactly [maxLength].  Below 3 a longer text makes the
    slice bound negative, a run-time panic. *)
Theorem truncateText_fits (text : string) (maxLength : Z) :
  (3 <= maxLength ->
   exists out,
     truncateText text maxLength = Some out
     /\ Z.of_nat (String.length out) <= maxLength
     /\ (Z.of_nat (String.length text) <= maxLength -> out = text)
     /\ (maxLength < Z.of_nat (String.length text) ->
         Z.of_nat (String.length out) = maxLength
         /\ exists head rest,
              text = head +:+ rest /\ out = head +:+ "..."
              /\ Z.of_nat (String.length head) = maxLength - 3))
  /\ (maxLength < 3 -> maxLength < Z.of_nat (String.length text) ->
      truncateText text maxLength = None).
Proof.
  unfold truncateText. split.
  - intros Hmax.
    destruct (Z.leb_spec (Z.of_nat (String.length text)) maxLength) as [Hshort|Hlong].
    + exists text. split; [reflexivity|]. split; [exact Hshort|].
      split; [reflexivity | lia].
    + destruct (Z.ltb_spec (maxLength - 3) 0); [lia|].
      assert (Hn : (Z.to_nat (maxLength - 3) <= String.length text)%nat) by lia.
      pose proof (String_length_prefix text _ Hn) as Hlen.
      eexists. split; [reflexivity|].
      rewrite String_length_app, Hlen. cbn [String.length].
      split; [lia|]. split; [lia|]. intros _. split; [lia|].
      destruct (String_prefix_app text _ Hn) as [rest Hrest].
      exists (String.substring 0 (Z.to_nat (maxLength - 3)) text), rest.
      split; [exact Hrest|]. split; [reflexivity | lia].
  - intros Hsmall Hlong.
    destruct (Z.leb_spec (Z.of_nat (String.length text)) maxLength); [lia|].
    destruct (Z.ltb_spec (maxLength - 3) 0); [reflexivity | lia].
Qed.

Lemma truncateText_fits_witness :
  exists out,
    truncateText "Notes from the quarterly planning meeting" 30 = Some out
    /\ Z.of_nat (String.length out) <= 30.
Proof.
  destruct (truncateText_fits "Notes from the quarterly planning meeting" 30) as [H _].
  destruct (H ltac:(lia)) as (out & Hout & Hfit & _).
  exists out. split; assumption.
Defined.

(** ** File names and formats *)

(** The configured format only labels a recording: whatever the format,
    the file a session writes starts with a RIFF/WAVE header for
    uncompressed PCM, while the memo's file name takes the format's
    extension after the time stamp and its format field the format's name. *)
Theorem recorded_file_is_wav_whatever_the_format
    (e e' : Env) (events : list CaptureEvent) (m : Model) (w : World) :
  capture_ok e (config m) = true ->
  let s := recordingSession e e' events m w in
  exists (new : Memo) (content : list Z),
    memos s.1 = new :: memos m
    /\ Filename new = "memo_" +:+ env_stamp e +:+ Extension (DefaultFormat (config m))
    /\ Format new = AudioFormat_String (DefaultFormat (config m))
    /\ fs s.2 !! filepath_Join (MemosPath (config m)) (Filename new) = Some content
    /\ slice 0 4 content = RIFF /\ slice 8 12 content = WAVE
    /\ slice 12 16 content = fmt_ /\ Uint16 (slice 20 22 content) = 1
    /\ slice 36 40 content = data_.
Proof.
  intros Hok s.
  destruct (recordingSession_result e e' events m w Hok) as (Hfs & (duration & Hm) & _).
  fold s in Hfs, Hm.
  eexists. eexists. split; [exact Hm|]. cbn [Filename Format].
  split; [reflexivity|]. split; [reflexivity|]. split; [exact Hfs|].
  repeat split; reflexivity.
Qed.

Lemma recorded_file_is_wav_whatever_the_format_witness :
  exists (new : Memo) (content : list Z),
    memos (recordingSession env_ok env_ok [Block [1; 2]]
             (initialModel (withDefaultFormat FormatMP3 (defaultConfig "/home/user")) [] 0)
             world0).1 = [new]
    /\ Filename new = "memo_2025-01-01_12-00-00.mp3"%string
    /\ slice 0 4 content = RIFF.
Proof.
  destruct (recorded_file_is_wav_whatever_the_format env_ok env_ok [Block [1; 2]]
              (initialModel (withDefaultFormat FormatMP3 (defaultConfig "/home/user")) [] 0)
              world0 eq_refl)
    as (new & content & Hm & Hname & _ & _ & Hriff & _).
  exists new, content. split; [exact Hm|]. split; [exact Hname | exact Hriff].
Defined.


